(** * prowlarr-orionoid: a Torznab bridge in front of the Orionoid API

    A shallow embedding of [src/torznab_builder.py], [src/orionoid_client.py],
    [src/config.py] and [src/main.py], followed by the properties of the
    specification that concern them.

    Modelling conventions.

    - Python values that arrive as parsed JSON are the type [value]; a dict is
      an association list in insertion order whose first binding of a key is
      the live one.  JSON floats are not part of the model.
    - Strings are [string]s of 8-bit characters read as ASCII: [str.lower],
      [str.upper] and [str.isdigit] act on the ASCII letters and digits only.
    - A Python exception is a value of [exn]; a computation that may raise
      returns a [result].  Code that touches the process globals or the
      network runs in the state-and-exception monad [M].
    - An lxml element is the tree [element]; [etree.tostring] is not modelled,
      so a response body is the element tree it would serialise.  lxml refuses
      text and attribute values that are not [str] (TypeError) or that hold
      control characters (ValueError); [set_text] and [set_attr] do the same.
    - Clock readings are rationals (seconds since the epoch). *)

From Stdlib Require Import String Ascii List ZArith QArith Bool Lia Lqa DecimalString.
From Stdlib Require DecimalPos.
Import ListNotations.

Open Scope list_scope.
Open Scope string_scope.
Open Scope Z_scope.

(** ** Exceptions and fallible computations *)

Inductive exn : Type :=
| HTTPException (status_code : Z) (detail : string)   (* fastapi.HTTPException *)
| TimeoutException (msg : string)                     (* httpx.TimeoutException *)
| HTTPStatusError (status_code : Z) (msg : string)    (* httpx.HTTPStatusError *)
| ConnectError (msg : string)                         (* httpx.ConnectError *)
| Exception (msg : string).                           (* any other Exception *)

(** [str(e)] *)
Definition str_exn (e : exn) : string :=
  match e with
  | HTTPException _ detail => detail
  | TimeoutException msg => msg
  | HTTPStatusError _ msg => msg
  | ConnectError msg => msg
  | Exception msg => msg
  end.

Inductive result (A : Type) : Type :=
| Ok (a : A)
| Raise (e : exn).
Arguments Ok {A} a.
Arguments Raise {A} e.

Definition bind {A B : Type} (c : result A) (k : A -> result B) : result B :=
  match c with
  | Ok a => k a
  | Raise e => Raise e
  end.

Declare Scope result_scope.
Delimit Scope result_scope with result.
Notation "x <- c1 ;; c2" := (bind c1 (fun x => c2))
  (at level 61, c1 at next level, right associativity) : result_scope.
Open Scope result_scope.

(** ** Strings as Python uses them *)

Definition is_ascii_lower (c : ascii) : bool :=
  let n := N_of_ascii c in (97 <=? n)%N && (n <=? 122)%N.
Definition is_ascii_upper (c : ascii) : bool :=
  let n := N_of_ascii c in (65 <=? n)%N && (n <=? 90)%N.
Definition is_ascii_digit (c : ascii) : bool :=
  let n := N_of_ascii c in (48 <=? n)%N && (n <=? 57)%N.

Definition ascii_upper (c : ascii) : ascii :=
  if is_ascii_lower c then ascii_of_N (N_of_ascii c - 32) else c.
Definition ascii_lower (c : ascii) : ascii :=
  if is_ascii_upper c then ascii_of_N (N_of_ascii c + 32) else c.

Fixpoint str_map (f : ascii -> ascii) (s : string) : string :=
  match s with
  | EmptyString => EmptyString
  | String c s' => String (f c) (str_map f s')
  end.

(** [s.upper()], [s.lower()] *)
Definition upper (s : string) : string := str_map ascii_upper s.
Definition lower (s : string) : string := str_map ascii_lower s.

Fixpoint str_forallb (p : ascii -> bool) (s : string) : bool :=
  match s with
  | EmptyString => true
  | String c s' => p c && str_forallb p s'
  end.

(** [s.isdigit()]: at least one character, all of them digits *)
Definition isdigit (s : string) : bool :=
  match s with
  | EmptyString => false
  | _ => str_forallb is_ascii_digit s
  end.

(** [s.startswith(p)] *)
Fixpoint startswith (s p : string) {struct p} : bool :=
  match p with
  | EmptyString => true
  | String a p' =>
      match s with
      | EmptyString => false
      | String b s' => Ascii.eqb a b && startswith s' p'
      end
  end.

(** [sub in s] *)
Fixpoint str_in (sub s : string) : bool :=
  startswith s sub ||
  match s with
  | EmptyString => false
  | String _ s' => str_in sub s'
  end.

(** [s[n:]] *)
Fixpoint drop_chars (n : nat) (s : string) : string :=
  match n, s with
  | O, _ => s
  | S n', String _ s' => drop_chars n' s'
  | S _, EmptyString => EmptyString
  end.

(** [s.split(sep)] for a one-character separator; never the empty list *)
Fixpoint split (sep : ascii) (s : string) : list string :=
  match s with
  | EmptyString => [EmptyString]
  | String c s' =>
      if Ascii.eqb c sep then EmptyString :: split sep s'
      else match split sep s' with
           | [] => [String c EmptyString]
           | w :: ws => String c w :: ws
           end
  end.

(** [sep.join(parts)] on strings *)
Fixpoint join (sep : string) (parts : list string) : string :=
  match parts with
  | [] => EmptyString
  | [p] => p
  | p :: ps => p ++ sep ++ join sep ps
  end.

(** [str(n)] for an int *)
Definition str_of_Z (n : Z) : string := NilZero.string_of_int (Z.to_int n).

(** [int(s)] for a string of digits *)
Fixpoint int_of_digits_from (acc : Z) (s : string) : Z :=
  match s with
  | EmptyString => acc
  | String c s' => int_of_digits_from (10 * acc + Z.of_N (N_of_ascii c - 48)) s'
  end.
Definition int_of_digits (s : string) : Z := int_of_digits_from 0 s.

(** [repr] of a str *)

Definition squote : ascii := "'"%char.
Definition dquote : ascii := ascii_of_nat 34.
Definition backslash : ascii := ascii_of_nat 92.

Fixpoint has_char (c : ascii) (s : string) : bool :=
  match s with
  | EmptyString => false
  | String c' s' => Ascii.eqb c c' || has_char c s'
  end.

Definition hex_digit (n : N) : ascii :=
  if (n <? 10)%N then ascii_of_N (48 + n) else ascii_of_N (87 + n).

Definition repr_char (quote c : ascii) : string :=
  let n := N_of_ascii c in
  if Ascii.eqb c backslash then String backslash (String backslash EmptyString)
  else if Ascii.eqb c quote then String backslash (String quote EmptyString)
  else if (n =? 10)%N then String backslash "n"
  else if (n =? 13)%N then String backslash "r"
  else if (n =? 9)%N then String backslash "t"
  else if (n <? 32)%N || (n =? 127)%N
       then String backslash (String "x" (String (hex_digit (n / 16)) (String (hex_digit (n mod 16)) EmptyString)))
  else String c EmptyString.

Fixpoint repr_chars (quote : ascii) (s : string) : string :=
  match s with
  | EmptyString => EmptyString
  | String c s' => repr_char quote c ++ repr_chars quote s'
  end.

(** [repr(s)] for a str *)
Definition repr_str (s : string) : string :=
  let quote := if has_char squote s && negb (has_char dquote s) then dquote else squote in
  String quote (repr_chars quote s ++ String quote EmptyString).

(** ** Python values *)

#[warnings="-register-all"]
Inductive value : Type :=
| PNone
| PBool (b : bool)
| PInt (n : Z)
| PStr (s : string)
| PList (l : list value)
| PDict (d : list (string * value)).

Definition dict : Type := list (string * value).

(** [type(v).__name__] *)
Definition type_name (v : value) : string :=
  match v with
  | PNone => "NoneType"
  | PBool _ => "bool"
  | PInt _ => "int"
  | PStr _ => "str"
  | PList _ => "list"
  | PDict _ => "dict"
  end.

(** [bool(v)] *)
Definition truthy (v : value) : bool :=
  match v with
  | PNone => false
  | PBool b => b
  | PInt n => negb (n =? 0)
  | PStr s => negb (String.eqb s "")
  | PList l => match l with [] => false | _ => true end
  | PDict d => match d with [] => false | _ => true end
  end.

(** [v == "literal"] *)
Definition eq_str (v : value) (s : string) : bool :=
  match v with
  | PStr s' => String.eqb s' s
  | _ => false
  end.

Fixpoint lookup (k : string) (d : dict) : option value :=
  match d with
  | [] => None
  | (k', v) :: d' => if String.eqb k' k then Some v else lookup k d'
  end.

(** [d[k] = v] on a dict: an existing key keeps its place *)
Fixpoint setitem (k : string) (v : value) (d : dict) : dict :=
  match d with
  | [] => [(k, v)]
  | (k', v') :: d' =>
      if String.eqb k' k then (k, v) :: d' else (k', v') :: setitem k v d'
  end.

(** [d.update(other)] *)
Definition update (d other : dict) : dict :=
  fold_left (fun acc kv => setitem (fst kv) (snd kv) acc) other d.

Definition AttributeError (v : value) (attr : string) : exn :=
  Exception ("'" ++ type_name v ++ "' object has no attribute '" ++ attr ++ "'").

(** [v.get(k, default)]: only a dict has the method *)
Definition py_get (v : value) (k : string) (default : value) : result value :=
  match v with
  | PDict d => Ok (match lookup k d with Some x => x | None => default end)
  | _ => Raise (AttributeError v "get")
  end.

(** [v[k]] for a str key *)
Definition py_getitem (v : value) (k : string) : result value :=
  match v with
  | PDict d =>
      match lookup k d with
      | Some x => Ok x
      | None => Raise (Exception (repr_str k))                            (* KeyError(k) *)
      end
  | PList _ => Raise (Exception "list indices must be integers or slices, not str")
  | PStr _ => Raise (Exception "string indices must be integers, not 'str'")
  | _ => Raise (Exception ("'" ++ type_name v ++ "' object is not subscriptable"))
  end.

(** [v[k] = x] for a str key *)
Definition py_setitem (v : value) (k : string) (x : value) : result value :=
  match v with
  | PDict d => Ok (PDict (setitem k x d))
  | PList _ => Raise (Exception "list indices must be integers or slices, not str")
  | _ => Raise (Exception ("'" ++ type_name v ++ "' object does not support item assignment"))
  end.

(** [v.upper()], [v.lower()]: only a str has the methods *)
Definition py_upper (v : value) : result string :=
  match v with
  | PStr s => Ok (upper s)
  | _ => Raise (AttributeError v "upper")
  end.
Definition py_lower (v : value) : result string :=
  match v with
  | PStr s => Ok (lower s)
  | _ => Raise (AttributeError v "lower")
  end.

Fixpoint chars (s : string) : list value :=
  match s with
  | EmptyString => []
  | String c s' => PStr (String c EmptyString) :: chars s'
  end.

Fixpoint distinct_keys (d : dict) : list string :=
  match d with
  | [] => []
  | (k, _) :: d' =>
      if existsb (String.eqb k) (distinct_keys d') then distinct_keys d'
      else k :: distinct_keys d'
  end.

(** [len(v)] *)
Definition py_len (v : value) : result Z :=
  match v with
  | PStr s => Ok (Z.of_nat (String.length s))
  | PList l => Ok (Z.of_nat (List.length l))
  | PDict d => Ok (Z.of_nat (List.length (distinct_keys d)))
  | _ => Raise (Exception ("object of type '" ++ type_name v ++ "' has no len()"))
  end.

(** the elements [for x in v] visits *)
Definition py_iter (v : value) : result (list value) :=
  match v with
  | PStr s => Ok (chars s)
  | PList l => Ok l
  | PDict d => Ok (map PStr (distinct_keys d))
  | _ => Raise (Exception ("'" ++ type_name v ++ "' object is not iterable"))
  end.

(** [v[0]] *)
Definition getitem0 (v : value) : result value :=
  match v with
  | PList (x :: _) => Ok x
  | PList [] => Raise (Exception "list index out of range")
  | PStr (String c _) => Ok (PStr (String c EmptyString))
  | PStr EmptyString => Raise (Exception "string index out of range")
  | PDict _ => Raise (Exception "0")                                   (* KeyError(0) *)
  | _ => Raise (Exception ("'" ++ type_name v ++ "' object is not subscriptable"))
  end.

(** [sep.join(parts)]: every part has to be a str *)
Fixpoint strs_from (i : Z) (parts : list value) : result (list string) :=
  match parts with
  | [] => Ok []
  | PStr s :: ps => ss <- strs_from (i + 1) ps ;; Ok (s :: ss)
  | v :: _ =>
      Raise (Exception ("sequence item " ++ str_of_Z i ++ ": expected str instance, "
                        ++ type_name v ++ " found"))
  end.
Definition py_join (sep : string) (parts : list value) : result string :=
  ss <- strs_from 0 parts ;; Ok (join sep ss).

(** *** [repr] and [str] *)

(** [repr(v)] *)
Fixpoint repr (v : value) : string :=
  match v with
  | PNone => "None"
  | PBool true => "True"
  | PBool false => "False"
  | PInt n => str_of_Z n
  | PStr s => repr_str s
  | PList l => "[" ++ join ", " (map repr l) ++ "]"
  | PDict d => "{" ++ join ", " (map (fun '(k, x) => repr_str k ++ ": " ++ repr x) d) ++ "}"
  end.

(** [str(v)] *)
Definition str (v : value) : string :=
  match v with
  | PStr s => s
  | _ => repr v
  end.

(** ** lxml elements *)

#[warnings="-register-all"]
Inductive element : Type :=
| Element (tag : string) (attrib : list (string * string)) (text : option string)
          (children : list element).

Definition tag_of (e : element) : string := let 'Element t _ _ _ := e in t.
Definition attrib_of (e : element) : list (string * string) := let 'Element _ a _ _ := e in a.
Definition text_of (e : element) : option string := let 'Element _ _ x _ := e in x.
Definition children_of (e : element) : list element := let 'Element _ _ _ c := e in c.

(** [e.get(k)] *)
Fixpoint attrib_get (k : string) (a : list (string * string)) : option string :=
  match a with
  | [] => None
  | (k', v) :: a' => if String.eqb k' k then Some v else attrib_get k a'
  end.

Fixpoint attrib_set (k v : string) (a : list (string * string)) : list (string * string) :=
  match a with
  | [] => [(k, v)]
  | (k', v') :: a' =>
      if String.eqb k' k then (k, v) :: a' else (k', v') :: attrib_set k v a'
  end.

(** the children of [e] with tag [t], in document order: [e.findall(t)] *)
Definition findall (t : string) (e : element) : list element :=
  filter (fun c => String.eqb (tag_of c) t) (children_of e).

(** [e.findtext(t)]: the text of the first child with tag [t] *)
Definition findtext (t : string) (e : element) : option string :=
  match findall t e with
  | c :: _ => text_of c
  | [] => None
  end.

(** [etree.Element(tag)] *)
Definition new_element (tag : string) : element := Element tag [] None [].

(** [parent.append(child)], which is also what [etree.SubElement] does *)
Definition append (parent child : element) : element :=
  let 'Element t a x c := parent in Element t a x (c ++ [child])%list.

(** lxml accepts a character of a text or attribute value when libxml2's
    [xmlIsChar_ch] does: tab, line feed, carriage return, or anything from
    the space upwards *)
Definition xml_char_ok (c : ascii) : bool :=
  let n := N_of_ascii c in (32 <=? n)%N || (n =? 9)%N || (n =? 10)%N || (n =? 13)%N.
Definition xml_compatible (s : string) : bool := str_forallb xml_char_ok s.

(** the message of the ValueError lxml raises for other characters *)
Definition lxml_refusal : string :=
  "All strings must be XML compatible: Unicode or ASCII, no NULL bytes or control characters".

(** lxml's conversion of a Python object handed in as text or attribute value *)
Definition xml_string (v : value) : result string :=
  match v with
  | PStr s =>
      if xml_compatible s then Ok s
      else Raise (Exception lxml_refusal)
  | _ => Raise (Exception ("Argument must be bytes or unicode, got '" ++ type_name v ++ "'"))
  end.

(** [e.text = v] *)
Definition set_text (e : element) (v : value) : result element :=
  let 'Element t a _ c := e in
  match v with
  | PNone => Ok (Element t a None c)
  | _ => s <- xml_string v ;; Ok (Element t a (Some s) c)
  end.

(** [e.set(k, v)] *)
Definition set_attr (e : element) (k : string) (v : value) : result element :=
  let 'Element t a x c := e in
  s <- xml_string v ;; Ok (Element t (attrib_set k s a) x c).

(** ** What the process takes from its platform *)

Record Platform : Type := {
  (** [datetime.fromtimestamp(ts).strftime("%a, %d %b %Y %H:%M:%S +0000")]:
      the local-time rendering of a timestamp, or the error
      [fromtimestamp] raises when the platform cannot represent it *)
  pub_date : Z -> result string;
  (** [d.isoformat()] of the UTC instant [d] *)
  isoformat : Q -> string;
  (** [__version__.__version__] *)
  __version__ : string
}.

(** ** torznab_builder.py *)

Module TorznabBuilder.

Definition CATEGORY_MOVIE : Z := 2000.
Definition CATEGORY_MOVIE_SD : Z := 2030.
Definition CATEGORY_MOVIE_HD : Z := 2040.
Definition CATEGORY_MOVIE_UHD : Z := 2060.
Definition CATEGORY_TV : Z := 5000.
Definition CATEGORY_TV_SD : Z := 5030.
Definition CATEGORY_TV_HD : Z := 5040.
Definition CATEGORY_TV_UHD : Z := 5080.

Definition newznab_ns : string := "{http://www.newznab.com/DTD/2010/feeds/attributes/}".
Definition torznab_ns : string := "{http://torznab.com/schemas/2015/feed}".

(** a category or subcat element of the capabilities document *)
Definition cat_element (tag : string) (id : Z) (name : string) (subcats : list element) : element :=
  Element tag [("id", str_of_Z id); ("name", name)] None subcats.

(** [build_capabilities] (lines 20-94): a constant document *)
Definition build_capabilities : element :=
  Element "caps" [] None
    [ Element "server"
        [("version", "1.0"); ("title", "Orionoid Torznab");
         ("strapline", "Orionoid Torznab Indexer"); ("email", "");
         ("url", "https://orionoid.com")] None [];
      Element "limits" [("max", "100"); ("default", "100")] None [];
      Element "registration" [("available", "yes"); ("open", "yes")] None [];
      Element "searching" [] None
        [ Element "search" [("available", "yes"); ("supportedParams", "q,imdbid")] None [];
          Element "tv-search"
            [("available", "yes"); ("supportedParams", "q,imdbid,tvdbid,season,ep")] None [];
          Element "movie-search"
            [("available", "yes"); ("supportedParams", "q,imdbid,tmdbid")] None [] ];
      Element "categories" [] None
        [ cat_element "category" CATEGORY_MOVIE "Movies"
            [ cat_element "subcat" CATEGORY_MOVIE_SD "Movies/SD" [];
              cat_element "subcat" CATEGORY_MOVIE_HD "Movies/HD" [];
              cat_element "subcat" CATEGORY_MOVIE_UHD "Movies/UHD" [] ];
          cat_element "category" CATEGORY_TV "TV"
            [ cat_element "subcat" CATEGORY_TV_SD "TV/SD" [];
              cat_element "subcat" CATEGORY_TV_HD "TV/HD" [];
              cat_element "subcat" CATEGORY_TV_UHD "TV/UHD" [] ] ] ].

(** [_determine_category] (lines 257-274) *)
Definition _determine_category (stream : value) (query_type : string) : result Z :=
  video_info <- py_get stream "video" (PDict []) ;;
  q <- py_get video_info "quality" (PStr "") ;;
  quality <- py_lower q ;;
  (* is_tv = query_type == "tvsearch" or stream.get("meta", {}).get("episode") *)
  is_tv <- (if String.eqb query_type "tvsearch" then Ok true
            else meta <- py_get stream "meta" (PDict []) ;;
                 episode <- py_get meta "episode" PNone ;;
                 Ok (truthy episode)) ;;
  if str_in "2160" quality || str_in "uhd" quality || str_in "4k" quality then
    Ok (if is_tv : bool then CATEGORY_TV_UHD else CATEGORY_MOVIE_UHD)
  else if str_in "1080" quality || str_in "720" quality || str_in "hd" quality then
    Ok (if is_tv then CATEGORY_TV_HD else CATEGORY_MOVIE_HD)
  else if str_in "sd" quality || str_in "480" quality then
    Ok (if is_tv then CATEGORY_TV_SD else CATEGORY_MOVIE_SD)
  else
    Ok (if is_tv then CATEGORY_TV else CATEGORY_MOVIE).

(** Title construction of [_build_item] (lines 139-156) *)
Definition build_title (file_info video_info meta_info : value) : result string :=
  name <- py_get file_info "name" PNone ;;
  title_parts <- (if truthy name then Ok [name]
                  else meta_title <- py_get meta_info "title" PNone ;;
                       Ok (if truthy meta_title then [meta_title] else [])) ;;
  q <- py_get video_info "quality" (PStr "") ;;
  quality <- py_upper q ;;
  let title_parts :=
    if truthy (PStr quality) then (title_parts ++ [PStr ("[" ++ quality ++ "]")])%list
    else title_parts in
  c <- py_get video_info "codec" (PStr "") ;;
  codec <- py_upper c ;;
  let title_parts :=
    if truthy (PStr codec) then (title_parts ++ [PStr ("[" ++ codec ++ "]")])%list
    else title_parts in
  if truthy (PList title_parts) then py_join " " title_parts else Ok "Unknown".

(** [attr = etree.SubElement(item, f"{torznab_ns}attr")] with its name and value set *)
Definition torznab_attr (item : element) (name : string) (v : value) : result element :=
  attr <- set_attr (new_element (torznab_ns ++ "attr")) "name" (PStr name) ;;
  attr <- set_attr attr "value" v ;;
  Ok (append item attr).

(** [etree.SubElement(item, tag).text = v] *)
Definition sub_text (item : element) (tag : string) (v : value) : result element :=
  e <- set_text (new_element tag) v ;;
  Ok (append item e).

(** the timestamp [datetime.fromtimestamp] is given, for a value that is true *)
Definition timestamp_of (v : value) : result Z :=
  match v with
  | PInt n => Ok n
  | PBool b => Ok (if b then 1 else 0)
  | _ => Raise (Exception ("'" ++ type_name v ++ "' object cannot be interpreted as an integer"))
  end.

Section WithPlatform.
Context (P : Platform).

(** The [try] block of [_build_item] (lines 131-250) *)
Definition _build_item_body (stream : value) (query_type : string) : result element :=
  let item := new_element "item" in
  file_info <- py_get stream "file" (PDict []) ;;
  video_info <- py_get stream "video" (PDict []) ;;
  audio_info <- py_get stream "audio" (PDict []) ;;
  meta_info <- py_get stream "meta" (PDict []) ;;
  title <- build_title file_info video_info meta_info ;;
  item <- sub_text item "title" (PStr title) ;;
  (* GUID *)
  guid <- py_get stream "id" (PStr "") ;;
  guid_elem <- set_text (new_element "guid") guid ;;
  guid_elem <- set_attr guid_elem "isPermaLink" (PStr "false") ;;
  let item := append item guid_elem in
  (* Link *)
  links <- py_get stream "links" (PList []) ;;
  item <- (if truthy links then
             link0 <- getitem0 links ;; sub_text item "link" link0
           else Ok item) ;;
  item <- sub_text item "comments" (PStr "https://orionoid.com") ;;
  (* Published date *)
  time_info <- py_get stream "time" (PDict []) ;;
  item <- (if truthy time_info then
             added <- py_get time_info "added" PNone ;;
             if truthy added then
               ts <- timestamp_of added ;;
               text <- pub_date P ts ;;
               sub_text item "pubDate" (PStr text)
             else Ok item
           else Ok item) ;;
  (* Size *)
  size <- py_get file_info "size" (PInt 0) ;;
  let size_text := if truthy size then str size else "0" in
  item <- sub_text item "size" (PStr size_text) ;;
  (* Enclosure *)
  item <- (if truthy links then
             link0 <- getitem0 links ;;
             enclosure <- set_attr (new_element "enclosure") "url" link0 ;;
             enclosure <- set_attr enclosure "length" (PStr size_text) ;;
             stream_info <- py_get stream "stream" (PDict []) ;;
             ty <- py_get stream_info "type" PNone ;;
             enclosure <- set_attr enclosure "type"
                            (PStr (if eq_str ty "torrent" then "application/x-bittorrent"
                                   else "application/x-nzb")) ;;
             Ok (append item enclosure)
           else Ok item) ;;
  (* Category *)
  category <- _determine_category stream query_type ;;
  item <- torznab_attr item "category" (PStr (str_of_Z category)) ;;
  item <- torznab_attr item "size" (PStr size_text) ;;
  (* Seeders *)
  stream_info <- py_get stream "stream" (PDict []) ;;
  ty <- py_get stream_info "type" PNone ;;
  item <- (if eq_str ty "torrent" then
             seeders <- py_get stream_info "seeds" (PInt 0) ;;
             item <- torznab_attr item "seeders" (PStr (str seeders)) ;;
             torznab_attr item "peers" (PStr (str seeders))
           else Ok item) ;;
  (* InfoHash *)
  item <- (if eq_str ty "torrent" then
             hash <- py_get file_info "hash" PNone ;;
             if truthy hash then torznab_attr item "infohash" hash else Ok item
           else Ok item) ;;
  (* IMDb ID *)
  imdb <- py_get meta_info "imdb" PNone ;;
  item <- (if truthy imdb then torznab_attr item "imdbid" imdb else Ok item) ;;
  (* TVDB ID *)
  tvdb <- py_get meta_info "tvdb" PNone ;;
  item <- (if truthy tvdb then torznab_attr item "tvdbid" (PStr (str tvdb)) else Ok item) ;;
  (* Season/Episode for TV *)
  if String.eqb query_type "tvsearch" then
    episode_info <- py_get meta_info "episode" PNone ;;
    if truthy episode_info then
      season <- py_get episode_info "season" PNone ;;
      item <- (if truthy season then torznab_attr item "season" (PStr (str season))
               else Ok item) ;;
      episode <- py_get episode_info "episode" PNone ;;
      if truthy episode then torznab_attr item "episode" (PStr (str episode))
      else Ok item
    else Ok item
  else Ok item.

(** [_build_item] (lines 127-255): any exception of the body is printed and
    turned into [None] *)
Definition _build_item (stream : value) (query_type : string) : option element :=
  match _build_item_body stream query_type with
  | Ok item => Some item
  | Raise _ => None
  end.

(** the loop of [build_search_results] (lines 120-123) *)
Fixpoint build_items (streams : list value) (query_type : string) : list element :=
  match streams with
  | [] => []
  | stream :: rest =>
      match _build_item stream query_type with
      | Some item => item :: build_items rest query_type
      | None => build_items rest query_type
      end
  end.

(** [build_search_results] (lines 96-125) *)
Definition build_search_results (orion_results : value) (query_type : string) : result element :=
  let channel :=
    Element "channel" [] None
      [ Element "title" [] (Some "Orionoid Torznab") [];
        Element "description" [] (Some "Orionoid Torznab Feed") [];
        Element "link" [] (Some "https://orionoid.com") [] ] in
  (* Response metadata *)
  data <- py_get orion_results "data" (PDict []) ;;
  streams <- py_get data "streams" (PList []) ;;
  total <- py_len streams ;;
  response <- set_attr (new_element (newznab_ns ++ "response")) "offset" (PStr "0") ;;
  response <- set_attr response "total" (PStr (str_of_Z total)) ;;
  let channel := append channel response in
  (* Process each stream result *)
  data <- py_get orion_results "data" (PDict []) ;;
  streams <- py_get data "streams" (PList []) ;;
  records <- py_iter streams ;;
  let 'Element t a x c := channel in
  Ok (Element "rss" [("version", "2.0")] None
        [Element t a x (c ++ build_items records query_type)%list]).

End WithPlatform.

(** [build_error] (lines 276-283) *)
Definition build_error (code : Z) (description : string) : result element :=
  root <- set_attr (new_element "error") "code" (PStr (str_of_Z code)) ;;
  set_attr root "description" (PStr description).

End TorznabBuilder.

(** ** config.py *)

Record Settings : Type := {
  orionoid_app_api_key : string;
  orionoid_user_api_key : string;
  service_port : Z;
  service_host : string;
  indexer_name : string;
  indexer_description : string;
  prowlarr_api_key : option string;
  default_search_limit : Z;
  max_search_limit : Z;
  log_level : string;
  cache_ttl : Z
}.

(** the values of [Settings] when the environment sets only the user key *)
Definition default_settings (user_key : string) : Settings := {|
  orionoid_app_api_key := "WYC8JEBTCABDCB6SDNNGMJHP8AVSBEHV";
  orionoid_user_api_key := user_key;
  service_port := 8080;
  service_host := "0.0.0.0";
  indexer_name := "Orionoid";
  indexer_description := "Orionoid Torznab Indexer";
  prowlarr_api_key := None;
  default_search_limit := 100;
  max_search_limit := 1000;
  log_level := "INFO";
  cache_ttl := 300
|}.

(** ** The process: globals, network and clock *)

(** [OrionoidClient] objects ([__init__], lines 11-15) *)
Record Client : Type := {
  app_key : string;
  user_key : string;
  base_url : string
}.

(** the module-level globals of main.py (lines 25-29) *)
Record Globals : Type := {
  orion_client : option Client;
  startup_time : option Q;
  last_successful_search : option Q;
  health_check_cache : option value;
  health_check_cache_time : option Q
}.

(** how a POST can fail: the exceptions of [client.post], [raise_for_status]
    and [json] *)
Inductive transport_error : Type :=
| Timeout (msg : string)                        (* httpx.TimeoutException *)
| BadStatus (status_code : Z) (msg : string)    (* httpx.HTTPStatusError *)
| NoConnection (msg : string)                   (* httpx.ConnectError *)
| OtherFailure (msg : string).                  (* anything else, such as a body that is not JSON *)

Definition exn_of_transport (e : transport_error) : exn :=
  match e with
  | Timeout msg => TimeoutException msg
  | BadStatus code msg => HTTPStatusError code msg
  | NoConnection msg => ConnectError msg
  | OtherFailure msg => Exception msg
  end.

Inductive answer : Type :=
| Answer (body : value)          (* the parsed JSON body of a 2xx response *)
| Failure (e : transport_error).

(** What lies outside the process: the provider's answer to the [n]-th POST
    the process sends, and the [n]-th reading of the clock ([time.time()]
    and [datetime.now(timezone.utc)] alike). *)
Record World : Type := {
  post : nat -> dict -> answer;
  clock : nat -> Q
}.

(** the globals, the form of every POST sent so far, and the number of
    clock readings taken so far *)
Record State : Type := {
  globals : Globals;
  sent : list dict;
  ticks : nat
}.

Definition M (A : Type) : Type := World -> State -> result A * State.

Definition ret {A : Type} (a : A) : M A := fun _ s => (Ok a, s).
Definition raise {A : Type} (e : exn) : M A := fun _ s => (Raise e, s).
Definition lift {A : Type} (r : result A) : M A := fun _ s => (r, s).

Definition mbind {A B : Type} (c : M A) (k : A -> M B) : M B :=
  fun w s =>
    match c w s with
    | (Ok a, s') => k a w s'
    | (Raise e, s') => (Raise e, s')
    end.

(** [try: c  except Exception as e: h e] *)
Definition try_except {A : Type} (c : M A) (h : exn -> M A) : M A :=
  fun w s =>
    match c w s with
    | (Ok a, s') => (Ok a, s')
    | (Raise e, s') => h e w s'
    end.

Declare Scope m_scope.
Delimit Scope m_scope with M.
Notation "x <- c1 ;; c2" := (mbind c1 (fun x => c2))
  (at level 61, c1 at next level, right associativity) : m_scope.

(** [time.time()], [datetime.now(timezone.utc)] *)
Definition now : M Q :=
  fun w s => (Ok (clock w (ticks s)),
              {| globals := globals s; sent := sent s; ticks := S (ticks s) |}).

(** the POST of [_make_request] together with [raise_for_status] and [json] *)
Definition http_post (form : dict) : M value :=
  fun w s => (match post w (List.length (sent s)) form with
              | Answer body => Ok body
              | Failure e => Raise (exn_of_transport e)
              end,
              {| globals := globals s; sent := (sent s ++ [form])%list; ticks := ticks s |}).

Definition get_globals : M Globals := fun _ s => (Ok (globals s), s).
Definition put_globals (g : Globals) : M unit :=
  fun _ s => (Ok tt, {| globals := g; sent := sent s; ticks := ticks s |}).

(** [int(x)] for a float: truncation towards zero *)
Definition int_of_Q (x : Q) : Z := Z.quot (Qnum x) (Z.pos (Qden x)).

(** [bool(x)] for a float *)
Definition truthy_Q (x : Q) : bool := negb (Qeq_bool x 0).

(** [bool(s)] for an [Optional[str]] *)
Definition truthy_opt (s : option string) : bool :=
  match s with
  | Some s => negb (String.eqb s "")
  | None => false
  end.

(** an [Optional[str]] as a Python value *)
Definition value_of_opt (s : option string) : value :=
  match s with Some s => PStr s | None => PNone end.

(** ** orionoid_client.py *)

Module OrionoidClient.

Open Scope m_scope.

(** [__init__] (lines 11-15) *)
Definition __init__ (app_key user_key : string) : Client :=
  {| app_key := app_key; user_key := user_key; base_url := "https://api.orionoid.com" |}.

(** [_make_request] (lines 23-43); both handlers log and re-raise *)
Definition _make_request (self : Client) (params : dict) : M value :=
  let params := update params [("keyapp", PStr (app_key self));
                               ("keyuser", PStr (user_key self))] in
  http_post params.

(** the parameters [search_streams] collects (lines 59-89) *)
Definition search_params
    (query imdb_id tvdb_id tmdb_id : option string) (media_type : string)
    (season episode : option Z) (limit : Z)
    (video_quality : option (list string)) (sort : string) : dict :=
  let params := [("mode", PStr "stream"); ("action", PStr "retrieve");
                 ("type", PStr media_type); ("limitcount", PInt limit);
                 ("sort", PStr sort)] in
  let params := if truthy_opt query then setitem "query" (value_of_opt query) params
                else params in
  let params := if truthy_opt imdb_id then setitem "idimdb" (value_of_opt imdb_id) params
                else params in
  let params := if truthy_opt tvdb_id then setitem "idtvdb" (value_of_opt tvdb_id) params
                else params in
  let params := if truthy_opt tmdb_id then setitem "idtmdb" (value_of_opt tmdb_id) params
                else params in
  let params :=
    match season, episode with
    | Some s, Some e =>
        if String.eqb media_type "show"
        then setitem "numberepisode" (PInt e) (setitem "numberseason" (PInt s) params)
        else params
    | _, _ => params
    end in
  let params :=
    match video_quality with
    | Some (q :: qs) => setitem "videoquality" (PStr (join "," (q :: qs))) params
    | _ => params
    end in
  let params := setitem "protocoltorent" (PInt 1) params in
  let params := setitem "protocolnzb" (PInt 1) params in
  setitem "debridlookup" (PInt 0) params.

(** [search_streams] (lines 45-91) *)
Definition search_streams (self : Client)
    (query imdb_id tvdb_id tmdb_id : option string) (media_type : string)
    (season episode : option Z) (limit : Z)
    (video_quality : option (list string)) (sort : string) : M value :=
  _make_request self
    (search_params query imdb_id tvdb_id tmdb_id media_type season episode limit
       video_quality sort).

(** [get_user_info] (lines 93-99) *)
Definition get_user_info (self : Client) : M value :=
  _make_request self [("mode", PStr "user"); ("action", PStr "retrieve")].

(** [get_app_info] (lines 101-107) *)
Definition get_app_info (self : Client) : M value :=
  _make_request self [("mode", PStr "app"); ("action", PStr "retrieve")].

(** [int((time.time() - start_time) * 1000)] *)
Definition elapsed_ms (start_time : Q) : M value :=
  t <- now ;; ret (PInt (int_of_Q ((t - start_time) * 1000))).

(** the [try] block of [health_check] (lines 120-144) *)
Definition health_check_body (self : Client) (start_time : Q) : M value :=
  user_info <- get_user_info self ;;
  response_time <- elapsed_ms start_time ;;
  res <- lift (py_get user_info "result" (PDict [])) ;;
  status <- lift (py_get res "status" PNone) ;;
  if eq_str status "success" then
    user_data <- lift (py_get user_info "data" (PDict [])) ;;
    username <- lift (py_get user_data "email" (PStr "Unknown")) ;;
    premium <- lift (subscription <- py_get user_data "subscription" (PDict []) ;;
                     package <- py_get subscription "package" (PDict []) ;;
                     py_get package "premium" (PBool false))%result ;;
    remaining <- lift (requests <- py_get user_data "requests" (PDict []) ;;
                       streams <- py_get requests "streams" (PDict []) ;;
                       daily <- py_get streams "daily" (PDict []) ;;
                       py_get daily "remaining" (PInt 0))%result ;;
    ret (PDict [("status", PStr "healthy");
                ("message", PStr "Connected to Orionoid API");
                ("responseTime", response_time);
                ("userInfo", PDict [("username", username);
                                    ("premium", premium);
                                    ("apiCallsRemaining", remaining)])])
  else
    res <- lift (py_get user_info "result" (PDict [])) ;;
    error_msg <- lift (py_get res "message" (PStr "API returned error status")) ;;
    ret (PDict [("status", PStr "unhealthy");
                ("message", PStr ("Orionoid API error: " ++ str error_msg));
                ("responseTime", response_time);
                ("userInfo", PNone)]).

(** [health_check] (lines 109-166) *)
Definition health_check (self : Client) : M value :=
  start_time <- now ;;
  let health_result := [("status", PStr "unhealthy"); ("message", PStr "Unknown error");
                        ("responseTime", PNone); ("userInfo", PNone)] in
  try_except (health_check_body self start_time)
    (fun e =>
       let message :=
         match e with
         | TimeoutException _ => "Connection timeout"
         | HTTPStatusError code _ =>
             if (code =? 401) || (code =? 403)
             then "Authentication failed - invalid API keys"
             else "HTTP error " ++ str_of_Z code
         | ConnectError _ => "Cannot connect to Orionoid API"
         | _ => "Unexpected error: " ++ str_exn e
         end in
       response_time <- elapsed_ms start_time ;;
       ret (PDict (setitem "responseTime" response_time
                     (setitem "message" (PStr message) health_result)))).

End OrionoidClient.

(** ** main.py *)

Module Main.

Open Scope m_scope.

(** the parameters of [api_endpoint] (lines 230-241) as FastAPI hands them
    over; for a request without them FastAPI passes [limit = 100] and
    [offset = 0], and [None] for the other optional ones *)
Record Request : Type := {
  t : string;
  apikey : option string;
  q : option string;
  cat : option string;
  imdbid : option string;
  tvdbid : option string;
  tmdbid : option string;
  season : option Z;
  ep : option Z;
  limit : option Z;
  offset : option Z;
  extended : option Z
}.

(** What a handler returns.  A handler that raises [HTTPException] is answered
    by FastAPI with that status; any other exception leaving a handler is an
    HTTP 500. *)
Inductive HttpResponse : Type :=
| Response (content : element) (media_type : string)       (* status 200 *)
| JSONResponse (content : value) (status_code : value).

(** the globals as the module body leaves them (lines 25-29) *)
Definition initial_globals : Globals := {|
  orion_client := None;
  startup_time := None;
  last_successful_search := None;
  health_check_cache := None;
  health_check_cache_time := None
|}.

Definition opt_str_eqb (a b : option string) : bool :=
  match a, b with
  | Some x, Some y => String.eqb x y
  | None, None => true
  | _, _ => false
  end.

Definition Qlt_bool (x y : Q) : bool := negb (Qle_bool y x).

(** [[int(c) for c in cat.split(",") if c.isdigit()]] (line 273) *)
Definition categories (cat : string) : list Z :=
  map int_of_digits (filter isdigit (split "," cat)).

(** lines 273-277 *)
Definition media_type_of (cat : string) : string :=
  if existsb (fun c => (5000 <=? c) && (c <? 6000)) (categories cat) then "show" else "movie".

(** [for stream in streams: stream["_media_type"] = media_type] (lines 325-326, 332-333) *)
Fixpoint tag_each (media_type : string) (streams : list value) : result (list value) :=
  match streams with
  | [] => Ok []
  | stream :: rest =>
      (stream' <- py_setitem stream "_media_type" (PStr media_type) ;;
       rest' <- tag_each media_type rest ;;
       Ok (stream' :: rest'))%result
  end.

(** lines 323-327 and 330-334: the streams of one search, tagged, behind the
    streams collected so far *)
Definition add_streams (collected : list value) (search_results : option value)
    (media_type : string) : result (list value) :=
  match search_results with
  | None => Ok collected
  | Some found =>
      if truthy found then
        (res <- py_get found "result" (PDict []) ;;
         status <- py_get res "status" PNone ;;
         if eq_str status "success" then
           data <- py_get found "data" (PDict []) ;;
           streams <- py_get data "streams" (PList []) ;;
           records <- py_iter streams ;;
           tagged <- tag_each media_type records ;;
           Ok (collected ++ tagged)%list
         else Ok collected)%result
      else Ok collected
  end.

(** lines 314-340: the combined payload of the two searches *)
Definition combine_results (movie_results tv_results : option value) : result value :=
  (streams <- add_streams [] movie_results "movie" ;;
   streams <- add_streams streams tv_results "show" ;;
   match movie_results, tv_results with
   | None, None => Raise (Exception "Both movie and TV searches failed")
   | _, _ =>
       Ok (PDict [("result", PDict [("status", PStr "success")]);
                  ("data", PDict [("streams", PList streams);
                                  ("count", PInt (Z.of_nat (List.length streams)))])])
   end)%result.

(** [not any([query, imdb_id, tvdb_id, tmdb_id])] (line 400) *)
Definition no_criteria (query imdb_id tvdb_id tmdb_id : option string) : bool :=
  negb (truthy_opt query || truthy_opt imdb_id || truthy_opt tvdb_id || truthy_opt tmdb_id).

(** lines 406-408: the 'tt' prefix of an IMDb id is removed *)
Definition clean_imdb_id (imdb_id : option string) : option string :=
  match imdb_id with
  | Some id => if truthy_opt imdb_id && startswith id "tt"
               then Some (drop_chars 2 id) else imdb_id
  | None => imdb_id
  end.

(** lines 424-431: a payload that does not report success is an error, and
    the streams of one that does are counted for the log *)
Definition check_results (results : value) : result unit :=
  (res <- py_get results "result" (PDict []) ;;
   status <- py_get res "status" PNone ;;
   if negb (eq_str status "success") then
     res <- py_get results "result" (PDict []) ;;
     error_msg <- py_get res "message" (PStr "Unknown error") ;;
     Raise (Exception ("Orionoid API error: " ++ str error_msg))
   else
     data <- py_get results "data" (PDict []) ;;
     streams <- py_get data "streams" (PList []) ;;
     streams_count <- py_len streams ;;
     Ok tt)%result.

Section WithSettings.
Context (P : Platform) (settings : Settings).

(** [lifespan] up to its [yield] (lines 33-58); the connection test only logs *)
Definition lifespan_startup : M unit :=
  g <- get_globals ;;
  let client := OrionoidClient.__init__ (orionoid_app_api_key settings)
                                        (orionoid_user_api_key settings) in
  now_ <- now ;;
  _ <- put_globals {| orion_client := Some client;
                      startup_time := Some now_;
                      last_successful_search := last_successful_search g;
                      health_check_cache := health_check_cache g;
                      health_check_cache_time := health_check_cache_time g |} ;;
  try_except (_ <- OrionoidClient.get_user_info client ;; ret tt) (fun _ => ret tt).

(** [check_api_key] (lines 76-79) *)
Definition check_api_key (apikey : option string) : result unit :=
  if truthy_opt (prowlarr_api_key settings)
     && negb (opt_str_eqb apikey (prowlarr_api_key settings))
  then Raise (HTTPException 403 "Invalid API key")
  else Ok tt.

(** the [try] block of [health_check] (lines 137-153): the two sub-checks as
    the client's result fills them in, and the overall status so far *)
Definition upstream_checks (client : Client) (orionoid_check auth_check : dict)
    : M (dict * dict * string) :=
  health_result <- OrionoidClient.health_check client ;;
  status <- lift (py_getitem health_result "status") ;;
  let orionoid_check := setitem "status" status orionoid_check in
  message <- lift (py_getitem health_result "message") ;;
  let orionoid_check := setitem "message" message orionoid_check in
  response_time <- lift (py_getitem health_result "responseTime") ;;
  let orionoid_check := setitem "responseTime" response_time orionoid_check in
  status <- lift (py_getitem health_result "status") ;;
  if eq_str status "healthy" then
    let auth_check := setitem "status" (PStr "healthy") auth_check in
    let auth_check := setitem "message" (PStr "API keys are valid") auth_check in
    user_info <- lift (py_getitem health_result "userInfo") ;;
    let auth_check := setitem "userInfo" user_info auth_check in
    ret (orionoid_check, auth_check, "healthy")
  else
    let auth_check := setitem "status" (PStr "unhealthy") auth_check in
    message <- lift (py_getitem health_result "message") ;;
    let auth_check := setitem "message" message auth_check in
    ret (orionoid_check, auth_check, "unhealthy").

(** [any(check.get("status") == status for check in checks.values())] *)
Definition any_status (status : string) (checks : dict) : result bool :=
  fold_right (fun kv acc =>
                (s <- py_get (snd kv) "status" PNone ;;
                 rest <- acc ;;
                 Ok (eq_str s status || rest))%result)
             (Ok false) checks.

(** the end of [health_check] (lines 204-227): the response is built, cached
    unless it is unhealthy, and returned *)
Definition respond (overall_status : string) (checks : dict) (uptime : Z) : M HttpResponse :=
  timestamp <- now ;;
  let response := [("status", PStr overall_status);
                   ("timestamp", PStr (isoformat P timestamp));
                   ("version", PStr (__version__ P));
                   ("checks", PDict checks);
                   ("uptime", PInt uptime);
                   ("environment",
                    PDict [("host", PStr (service_host settings));
                           ("port", PInt (service_port settings));
                           ("logLevel", PStr (log_level settings))])] in
  let status_code := if String.eqb overall_status "unhealthy" then 503 else 200 in
  let response := setitem "_status_code" (PInt status_code) response in
  _ <- (if negb (String.eqb overall_status "unhealthy") then
          stored <- now ;;
          g <- get_globals ;;
          put_globals {| orion_client := orion_client g;
                         startup_time := startup_time g;
                         last_successful_search := last_successful_search g;
                         health_check_cache := Some (PDict response);
                         health_check_cache_time := Some stored |}
        else ret tt) ;;
  ret (JSONResponse (PDict response) (PInt status_code)).

(** [health_check] past its cache lookup (lines 111-227).  The [except]
    branch starts from the two sub-checks as they were before the [try]: the
    client's [health_check] either raises, before any assignment, or returns a
    dict with all four keys, after which nothing in the [try] block raises. *)
Definition fresh_health_check : M HttpResponse :=
  start_time <- now ;;
  g <- get_globals ;;
  let client_ok := match orion_client g with Some _ => true | None => false end in
  let dependencies_status := if client_ok then "healthy" else "unhealthy" in
  let overall_status := "healthy" in
  last_checked <- now ;;
  let orionoid_check := [("status", PStr "unhealthy"); ("message", PStr "Not checked");
                         ("responseTime", PNone);
                         ("lastChecked", PStr (isoformat P last_checked))] in
  let auth_check := [("status", PStr "unhealthy"); ("message", PStr "Not checked");
                     ("userInfo", PNone)] in
  checked <-
    match orion_client g with
    | Some client =>
        try_except (upstream_checks client orionoid_check auth_check)
          (fun e =>
             ret (setitem "message" (PStr ("Health check failed: " ++ str_exn e))
                    (setitem "status" (PStr "unhealthy") orionoid_check),
                  setitem "message" (PStr "Unable to verify authentication")
                    (setitem "status" (PStr "unhealthy") auth_check),
                  "unhealthy"))
    | None =>
        ret (setitem "message" (PStr "Orionoid client not initialized")
               (setitem "status" (PStr "unhealthy") orionoid_check),
             setitem "message" (PStr "Cannot check authentication - client not initialized")
               (setitem "status" (PStr "unhealthy") auth_check),
             "unhealthy")
    end ;;
  let '(orionoid_check, auth_check, overall_status) := checked in
  (* Check search capability *)
  search_check <-
    match last_successful_search g with
    | Some last =>
        let search_check := [("status", PStr "healthy");
                             ("message", PStr "Search functionality operational");
                             ("lastSuccessfulSearch", PStr (isoformat P last))] in
        now_ <- now ;;
        let time_since_search := (now_ - last)%Q in
        if Qlt_bool 300 time_since_search then
          ret (setitem "message"
                 (PStr ("No searches in " ++ str_of_Z (int_of_Q (time_since_search / 60))
                        ++ " minutes"))
                 (setitem "status" (PStr "degraded") search_check))
        else ret search_check
    | None =>
        ret [("status", PStr "degraded"); ("message", PStr "No searches performed yet");
             ("lastSuccessfulSearch", PNone)]
    end ;;
  let checks := [("orionoid_api", PDict orionoid_check);
                 ("authentication", PDict auth_check);
                 ("search_capability", PDict search_check);
                 ("dependencies",
                  PDict [("status", PStr dependencies_status);
                         ("httpClient", PStr (if client_ok then "connected"
                                              else "not initialized"));
                         ("xmlBuilder", PStr "operational")])] in
  any_unhealthy <- lift (any_status "unhealthy" checks) ;;
  any_degraded <- (if any_unhealthy then ret false
                   else lift (any_status "degraded" checks)) ;;
  let overall_status := if any_unhealthy then "unhealthy"
                        else if any_degraded then "degraded" else overall_status in
  uptime <- match startup_time g with
            | Some started =>
                if truthy_Q started then
                  now_ <- now ;; ret (int_of_Q (now_ - started))
                else ret 0
            | None => ret 0
            end ;;
  respond overall_status checks uptime.

(** the cache lookup of [health_check] (lines 103-105): the cached result if
    it may be served *)
Definition cached_result (force : bool) : M (option value) :=
  g <- get_globals ;;
  if negb force then
    match health_check_cache g, health_check_cache_time g with
    | Some cache, Some cache_time =>
        if truthy cache && truthy_Q cache_time then
          now_ <- now ;;
          ret (if Qlt_bool (now_ - cache_time) 30 then Some cache else None)
        else ret None
    | _, _ => ret None
    end
  else ret None.

(** [health_check] (lines 98-227) *)
Definition health_check (force : bool) : M HttpResponse :=
  hit <- cached_result force ;;
  match hit with
  | Some cache =>
      status_code <- lift (py_getitem cache "_status_code") ;;
      ret (JSONResponse cache status_code)
  | None => fresh_health_check
  end.

(** [min(limit or settings.default_search_limit, settings.max_search_limit)] (line 266) *)
Definition limit_results (limit : option Z) : Z :=
  Z.min (match limit with
         | Some n => if n =? 0 then default_search_limit settings else n
         | None => default_search_limit settings
         end)
        (max_search_limit settings).

(** [search_orionoid] (lines 386-436) *)
Definition search_orionoid (query imdb_id tvdb_id tmdb_id : option string)
    (media_type : string) (season episode : option Z) (limit : Z) : M value :=
  let empty := no_criteria query imdb_id tvdb_id tmdb_id in
  let query := if empty then Some "The Matrix" else query in
  let limit := if empty then 1 else limit in
  let imdb_id := clean_imdb_id imdb_id in
  g <- get_globals ;;
  match orion_client g with
  | None => raise (AttributeError PNone "search_streams")
  | Some client =>
      results <- OrionoidClient.search_streams client query imdb_id tvdb_id tmdb_id
                   media_type season episode limit None "best" ;;
      _ <- lift (check_results results) ;;
      now_ <- now ;;
      g <- get_globals ;;
      _ <- put_globals {| orion_client := orion_client g;
                          startup_time := startup_time g;
                          last_successful_search := Some now_;
                          health_check_cache := health_check_cache g;
                          health_check_cache_time := health_check_cache_time g |} ;;
      ret results
  end.

(** one of the two searches of lines 290-311: a failure is logged and gives [None] *)
Definition tolerated_search (r : Request) (media_type : string) (limit : Z) : M (option value) :=
  try_except
    (found <- search_orionoid (q r) (imdbid r) None None media_type None None (limit / 2) ;;
     ret (Some found))
    (fun _ => ret None).

(** the [search] branch of [api_endpoint] (lines 269-340) *)
Definition general_search (r : Request) (limit : Z) : M value :=
  if truthy_opt (cat r) then
    let media_type := media_type_of (match cat r with Some c => c | None => "" end) in
    search_orionoid (q r) (imdbid r) None None media_type None None limit
  else
    movie_results <- tolerated_search r "movie" limit ;;
    tv_results <- tolerated_search r "show" limit ;;
    lift (combine_results movie_results tv_results).

(** lines 370-374 *)
Definition render_results (results : value) (query_type : string) : M HttpResponse :=
  doc <- lift (TorznabBuilder.build_search_results P results query_type) ;;
  ret (Response doc "application/xml").

(** the [try] block of [api_endpoint] (lines 251-374) *)
Definition api_endpoint_body (r : Request) : M HttpResponse :=
  if String.eqb (t r) "caps" then
    ret (Response TorznabBuilder.build_capabilities "application/xml")
  else
    _ <- lift (check_api_key (apikey r)) ;;
    g <- get_globals ;;
    match orion_client g with
    | None => raise (HTTPException 503 "Orionoid client not initialized")
    | Some _ =>
        let limit := limit_results (limit r) in
        if String.eqb (t r) "search" then
          results <- general_search r limit ;;
          render_results results (t r)
        else if String.eqb (t r) "tvsearch" then
          results <- search_orionoid (q r) (imdbid r) (tvdbid r) None "show"
                       (season r) (ep r) limit ;;
          render_results results (t r)
        else if String.eqb (t r) "movie" then
          results <- search_orionoid (q r) (imdbid r) None (tmdbid r) "movie"
                       None None limit ;;
          render_results results (t r)
        else
          doc <- lift (TorznabBuilder.build_error 201
                         ("Incorrect parameter: unknown function '" ++ t r ++ "'")) ;;
          ret (Response doc "application/xml")
    end.

(** [api_endpoint] (lines 230-383): an [HTTPException] is re-raised, any
    other exception becomes the error document 100 *)
Definition api_endpoint (r : Request) : M HttpResponse :=
  try_except (api_endpoint_body r)
    (fun e =>
       match e with
       | HTTPException _ _ => raise e
       | _ =>
           doc <- lift (TorznabBuilder.build_error 100 (str_exn e)) ;;
           ret (Response doc "application/xml")
       end).

(** [api_endpoint_with_id] (lines 440-457) *)
Definition api_endpoint_with_id (indexer_id : string) (r : Request) : M HttpResponse :=
  api_endpoint r.

End WithSettings.

End Main.

(** ** Reading documents and records, for the statements below *)

(** a platform to evaluate examples on: a timestamp prints as its number *)
Definition sample_platform : Platform := {|
  pub_date := fun ts => Ok (str_of_Z ts);
  isoformat := fun _ => "1970-01-01T00:00:00+00:00";
  __version__ := "1.0.0"
|}.

(** the [item] elements of a search-results document *)
Definition items_of (doc : element) : list element :=
  match children_of doc with
  | channel :: _ => findall "item" channel
  | [] => []
  end.

(** the [total] attribute of the response element of a search-results document *)
Definition total_of (doc : element) : option string :=
  match children_of doc with
  | channel :: _ =>
      match findall (TorznabBuilder.newznab_ns ++ "response") channel with
      | response :: _ => attrib_get "total" (attrib_of response)
      | [] => None
      end
  | [] => None
  end.

(** the stream records of a provider payload: what the loop of
    [build_search_results] visits *)
Definition records_of (payload : value) : result (list value) :=
  (data <- py_get payload "data" (PDict []) ;;
   streams <- py_get data "streams" (PList []) ;;
   py_iter streams)%result.

(** a record with a quality and nothing else *)
Definition quality_only_record : value :=
  PDict [("video", PDict [("quality", PStr "hd1080")])].

(** a record as the provider sends them *)
Definition sample_record : value :=
  PDict [("id", PStr "0a1b2c");
         ("file", PDict [("name", PStr "The.Matrix.1999.mkv"); ("size", PInt 734003200);
                         ("hash", PStr "c0ffee")]);
         ("video", PDict [("quality", PStr "hd1080"); ("codec", PStr "h264")]);
         ("meta", PDict [("title", PStr "The Matrix"); ("imdb", PStr "0133093")]);
         ("links", PList [PStr "magnet:?xt=urn:btih:c0ffee"]);
         ("time", PDict [("added", PInt 1500000000)]);
         ("stream", PDict [("type", PStr "torrent"); ("seeds", PInt 12)])].

(** a record whose video group is [null] *)
Definition broken_record : value := PDict [("id", PStr "ffff"); ("video", PNone)].

(** the form [search_orionoid] posts for its arguments: the parameters of
    [search_streams] for the arguments as lines 399-408 adjust them, and the
    two keys [_make_request] adds *)
Definition request_form (client : Client)
    (query imdb_id tvdb_id tmdb_id : option string) (media_type : string)
    (season episode : option Z) (limit : Z) : dict :=
  let empty := Main.no_criteria query imdb_id tvdb_id tmdb_id in
  update
    (OrionoidClient.search_params
       (if empty then Some "The Matrix" else query) (Main.clean_imdb_id imdb_id)
       tvdb_id tmdb_id media_type season episode (if empty then 1 else limit) None "best")
    [("keyapp", PStr (app_key client)); ("keyuser", PStr (user_key client))].

(** the state after one more POST *)
Definition sending (form : dict) (s : State) : State :=
  {| globals := globals s; sent := (sent s ++ [form])%list; ticks := ticks s |}.

(** the state after a search has succeeded at the next reading of the clock *)
Definition searched (w : World) (s : State) : State :=
  {| globals := {| orion_client := orion_client (globals s);
                   startup_time := startup_time (globals s);
                   last_successful_search := Some (clock w (ticks s));
                   health_check_cache := health_check_cache (globals s);
                   health_check_cache_time := health_check_cache_time (globals s) |};
     sent := sent s;
     ticks := S (ticks s) |}.

(** what one of the two searches of a combined search leaves behind: the
    payload, unless the POST failed or the payload was refused *)
Definition survivor (a : answer) : option value :=
  match a with
  | Answer body =>
      match Main.check_results body with
      | Ok _ => Some body
      | Raise _ => None
      end
  | Failure _ => None
  end.

(** records tagged with a media type *)
Definition tagged (media_type : string) (records : list dict) : list value :=
  map (fun record => PDict (setitem "_media_type" (PStr media_type) record)) records.



(** an error document *)
Definition error_document (code : Z) (description : string) : element :=
  Element "error" [("code", str_of_Z code); ("description", description)] None [].

(** a process after start-up, with nothing cached and no search made *)
Definition started_state : State := {|
  globals := {| orion_client := Some (OrionoidClient.__init__ "WYC8JEBTCABDCB6SDNNGMJHP8AVSBEHV" "user");
                startup_time := Some (1 # 1)%Q;
                last_successful_search := None;
                health_check_cache := None;
                health_check_cache_time := None |};
  sent := [];
  ticks := 1
|}.

(** a process whose start-up has not run *)
Definition unstarted_state : State :=
  {| globals := Main.initial_globals; sent := []; ticks := 0 |}.

(** a provider that answers every POST with one record, and a clock that
    advances ten seconds with every reading *)
Definition sample_world : World := {|
  post := fun _ _ => Answer (PDict [("result", PDict [("status", PStr "success")]);
                                    ("data", PDict [("streams", PList [sample_record])])]);
  clock := fun n => (Z.of_nat (10 * n) # 1)%Q
|}.

(** a request for function [t] with query [q], category [cat], IMDb id
    [imdbid] and limit [limit], and nothing else *)
Definition request (t : string) (q cat imdbid : option string) (limit : option Z) : Main.Request := {|
  Main.t := t; Main.apikey := None; Main.q := q; Main.cat := cat; Main.imdbid := imdbid;
  Main.tvdbid := None; Main.tmdbid := None; Main.season := None; Main.ep := None;
  Main.limit := limit; Main.offset := Some 0; Main.extended := None
|}.

(** the field [key] of one group of a record when it holds a non-empty str *)
Definition group_text (group : value) (key : string) : option string :=
  match group with
  | PDict g =>
      match lookup key g with
      | Some (PStr s) => if String.eqb s "" then None else Some s
      | _ => None
      end
  | _ => None
  end.

(** the field [group.key] of a record when it holds a non-empty str *)
Definition text_field (stream : value) (group key : string) : option string :=
  match stream with
  | PDict d =>
      match lookup group d with
      | Some g => group_text g key
      | None => None
      end
  | _ => None
  end.

(** [b] is [a] with further children appended *)
Definition extends (a b : element) : Prop :=
  exists more, b = Element (tag_of a) (attrib_of a) (text_of a) (children_of a ++ more)%list.

(** an item element whose first child is the title element with text [t] *)
Definition titled (t : option string) (item : element) : Prop :=
  exists more, item = Element "item" [] None (Element "title" [] t [] :: more).

(** *** The category table in the words of the specification *)



(** *** The title in the words of the specification, and as the code builds it *)

Definition bracketed (tag : option string) : list string :=
  match tag with
  | Some x => ["[" ++ upper x ++ "]"]
  | None => []
  end.

(** the name, or ["Unknown"] in its place, followed by the tags *)
Definition title_with_unknown_name (filename source_title quality codec : option string) : string :=
  let name := match filename, source_title with
              | Some f, _ => f
              | None, Some s => s
              | None, None => "Unknown"
              end in
  join " " (name :: bracketed quality ++ bracketed codec)%list.

(** the name if there is one, followed by the tags; ["Unknown"] when that leaves nothing *)
Definition title_of_parts (filename source_title quality codec : option string) : string :=
  let name := match filename, source_title with
              | Some f, _ => [f]
              | None, Some s => [s]
              | None, None => []
              end in
  match (name ++ bracketed quality ++ bracketed codec)%list with
  | [] => "Unknown"
  | parts => join " " parts
  end.

(** *** Exceptions and the API boundary *)

(** fastapi's [HTTPException], which [api_endpoint] lets through *)
Definition is_http_exception (e : exn) : bool :=
  match e with
  | HTTPException _ _ => true
  | _ => false
  end.

(** the shipped settings with a shared secret configured *)
Definition secured_settings : Settings := {|
  orionoid_app_api_key := "WYC8JEBTCABDCB6SDNNGMJHP8AVSBEHV";
  orionoid_user_api_key := "user";
  service_port := 8080;
  service_host := "0.0.0.0";
  indexer_name := "Orionoid";
  indexer_description := "Orionoid Torznab Indexer";
  prowlarr_api_key := Some "s3cret";
  default_search_limit := 100;
  max_search_limit := 1000;
  log_level := "INFO";
  cache_ttl := 300
|}.

(** a computation that raises no [HTTPException] *)
Definition plain {A : Type} (r : result A) : Prop :=
  match r with
  | Ok _ => True
  | Raise e => is_http_exception e = false
  end.

(** what [api_endpoint] makes of the outcome of its [try] block *)
Definition handled (outcome : result Main.HttpResponse) : result Main.HttpResponse :=
  match outcome with
  | Ok response => Ok response
  | Raise (HTTPException status detail) => Raise (HTTPException status detail)
  | Raise e =>
      if xml_compatible (str_exn e)
      then Ok (Main.Response (error_document 100 (str_exn e)) "application/xml")
      else Raise (Exception lxml_refusal)
  end.

(** [api_endpoint_body] past its three guards *)
Definition dispatch (P : Platform) (settings : Settings) (r : Main.Request) : M Main.HttpResponse :=
  let limit := Main.limit_results settings (Main.limit r) in
  if String.eqb (Main.t r) "search" then
    mbind (Main.general_search r limit)
      (fun results => Main.render_results P results (Main.t r))
  else if String.eqb (Main.t r) "tvsearch" then
    mbind (Main.search_orionoid (Main.q r) (Main.imdbid r) (Main.tvdbid r) None "show"
             (Main.season r) (Main.ep r) limit)
      (fun results => Main.render_results P results (Main.t r))
  else if String.eqb (Main.t r) "movie" then
    mbind (Main.search_orionoid (Main.q r) (Main.imdbid r) None (Main.tmdbid r) "movie"
             None None limit)
      (fun results => Main.render_results P results (Main.t r))
  else
    mbind (lift (TorznabBuilder.build_error 201
                   ("Incorrect parameter: unknown function '" ++ Main.t r ++ "'")))
      (fun doc => ret (Main.Response doc "application/xml")).

(** the request [r] sent with the key [key] *)
Definition with_key (key : string) (r : Main.Request) : Main.Request := {|
  Main.t := Main.t r; Main.apikey := Some key; Main.q := Main.q r; Main.cat := Main.cat r;
  Main.imdbid := Main.imdbid r; Main.tvdbid := Main.tvdbid r; Main.tmdbid := Main.tmdbid r;
  Main.season := Main.season r; Main.ep := Main.ep r; Main.limit := Main.limit r;
  Main.offset := Main.offset r; Main.extended := Main.extended r
|}.

(** the form a [tvsearch] or [movie] request posts *)
Definition single_search_form (settings : Settings) (client : Client) (r : Main.Request) : dict :=
  if String.eqb (Main.t r) "tvsearch"
  then request_form client (Main.q r) (Main.imdbid r) (Main.tvdbid r) None "show"
         (Main.season r) (Main.ep r) (Main.limit_results settings (Main.limit r))
  else request_form client (Main.q r) (Main.imdbid r) None (Main.tmdbid r) "movie"
         None None (Main.limit_results settings (Main.limit r)).

(** a provider whose error message holds a control character *)
Definition garbled_world : World := {|
  post := fun _ _ =>
    Answer (PDict [("result", PDict [("status", PStr "error");
                                    ("message", PStr (String (ascii_of_nat 7) "busy"))])]);
  clock := fun n => (Z.of_nat n # 1)%Q
|}.

(** *** The health cache *)

(** the overall status of a health result *)
Definition status_of (content : value) : option value :=
  match content with
  | PDict d => lookup "status" d
  | _ => None
  end.

(** the content of a JSON response *)
Definition content_of (outcome : result Main.HttpResponse) : option value :=
  match outcome with
  | Ok (Main.JSONResponse content _) => Some content
  | _ => None
  end.

(** a health result whose status is not "unhealthy" and whose status code is 200 *)
Definition cacheable (content : value) : Prop :=
  (exists status, status_of content = Some (PStr status) /\ status <> "unhealthy") /\
  py_getitem content "_status_code" = Ok (PInt 200).

(** the cache holds nothing or a cacheable result *)
Definition cache_ok (g : Globals) : Prop :=
  match health_check_cache g with
  | Some content => cacheable content
  | None => True
  end.

(** the globals after [content] has been cached at [time] *)
Definition store (g : Globals) (content : value) (time : Q) : Globals := {|
  orion_client := orion_client g;
  startup_time := startup_time g;
  last_successful_search := last_successful_search g;
  health_check_cache := Some content;
  health_check_cache_time := Some time
|}.

(** the health cache: the cached result and the time it was cached at *)
Definition cache_of (g : Globals) : option value * option Q :=
  (health_check_cache g, health_check_cache_time g).

(** a computation that leaves [f] of the globals as it is *)
Definition keeps {X A : Type} (f : Globals -> X) (c : M A) : Prop :=
  forall w s, f (globals (snd (c w s))) = f (globals s).

(** a handler that changes the globals only by caching the cacheable result
    it returns with status code 200 *)
Definition caches_what_it_returns (c : M Main.HttpResponse) : Prop :=
  forall w s,
    globals (snd (c w s)) = globals s \/
    exists content time,
      fst (c w s) = Ok (Main.JSONResponse content (PInt 200)) /\
      cacheable content /\
      globals (snd (c w s)) = store (globals s) content time.

(** the states of a process: it starts with the globals of the module, and
    then runs its start-up and handles health checks and API requests *)
Inductive reachable (P : Platform) (settings : Settings) (w : World) : State -> Prop :=
| reach_start : forall s, globals s = Main.initial_globals -> reachable P settings w s
| reach_startup : forall s,
    reachable P settings w s ->
    reachable P settings w (snd (Main.lifespan_startup settings w s))
| reach_health : forall s force,
    reachable P settings w s ->
    reachable P settings w (snd (Main.health_check P settings force w s))
| reach_api : forall s r,
    reachable P settings w s ->
    reachable P settings w (snd (Main.api_endpoint P settings r w s)).

(** a provider that answers the first two POSTs and then times out, and a
    clock that advances one second with every reading *)
Definition failing_world : World := {|
  post := fun n _ =>
    if (n <? 2)%nat
    then Answer (PDict [("result", PDict [("status", PStr "success")]);
                        ("data", PDict [("email", PStr "user@example.org")])])
    else Failure (Timeout "timed out");
  clock := fun n => (Z.of_nat (S n) # 1)%Q
|}.

(** the state after one more reading of the clock *)
Definition ticked (s : State) : State :=
  {| globals := globals s; sent := sent s; ticks := S (ticks s) |}.

(** the process of the examples after start-up in the failing world *)
Definition after_startup : State :=
  snd (Main.lifespan_startup (default_settings "user") failing_world unstarted_state).

(** ... after a first health check, which comes out degraded and is cached *)
Definition after_first_check : State :=
  snd (Main.health_check sample_platform (default_settings "user") false failing_world after_startup).

(** ... after a forced health check, which comes out unhealthy *)
Definition after_forced_check : State :=
  snd (Main.health_check sample_platform (default_settings "user") true failing_world
         after_first_check).

(** ** Reading items, forms and health results *)

(** *** The parts of an item *)

(** [v.get(k, default)] where [v] is a dict, and [default] where it is not *)
Definition get_or (v : value) (k : string) (default : value) : value :=
  match py_get v k default with
  | Ok x => x
  | Raise _ => default
  end.

(** the text of a value that is a str *)
Definition text_value (v : value) : option string :=
  match v with
  | PStr s => Some s
  | _ => None
  end.

(** the first element of a list, [None] when there is none *)
Definition first_of (v : value) : value :=
  match getitem0 v with
  | Ok x => x
  | Raise _ => PNone
  end.

(** a child element that holds only text *)
Definition text_element (tag text : string) : element := Element tag [] (Some text) [].

(** a torznab attribute element *)
Definition attr_element (name value : string) : element :=
  Element (TorznabBuilder.torznab_ns ++ "attr") [("name", name); ("value", value)] None [].

(** the torznab attribute elements for names and values *)
Definition attr_elements (attrs : list (string * string)) : list element :=
  map (fun kv => attr_element (fst kv) (snd kv)) attrs.

(** the enclosure element of an item *)
Definition enclosure_element (url length type : string) : element :=
  Element "enclosure" [("url", url); ("length", length); ("type", type)] None [].

Definition opt_list {A B : Type} (f : A -> B) (o : option A) : list B :=
  match o with
  | Some a => [f a]
  | None => []
  end.

(** what varies between one item and another *)
Record item_parts : Type := {
  title_part : string;
  guid_part : option string;
  link_part : option string;
  date_part : option string;
  size_part : string;
  type_part : string;
  category_part : Z;
  seeders_part : option string;
  infohash_part : option string;
  imdbid_part : option string;
  tvdbid_part : option string;
  season_part : option string;
  episode_part : option string
}.

(** the torznab attributes of an item, as names and values in document order *)
Definition attrs_of_parts (p : item_parts) : list (string * string) :=
  ([("category", str_of_Z (category_part p)); ("size", size_part p)]
   ++ match seeders_part p with
      | Some n => [("seeders", n); ("peers", n)]
      | None => []
      end
   ++ opt_list (pair "infohash") (infohash_part p)
   ++ opt_list (pair "imdbid") (imdbid_part p)
   ++ opt_list (pair "tvdbid") (tvdbid_part p)
   ++ opt_list (pair "season") (season_part p)
   ++ opt_list (pair "episode") (episode_part p))%list.

(** the item element with these parts *)
Definition item_of_parts (p : item_parts) : element :=
  Element "item" [] None
    ([text_element "title" (title_part p);
      Element "guid" [("isPermaLink", "false")] (guid_part p) []]
     ++ opt_list (text_element "link") (link_part p)
     ++ [text_element "comments" "https://orionoid.com"]
     ++ opt_list (text_element "pubDate") (date_part p)
     ++ [text_element "size" (size_part p)]
     ++ opt_list (fun url => enclosure_element url (size_part p) (type_part p)) (link_part p)
     ++ attr_elements (attrs_of_parts p))%list.

(** the values of the torznab attributes of an item that are named [name] *)
Definition attr_values (name : string) (item : element) : list string :=
  flat_map (fun c => match attrib_get "name" (attrib_of c), attrib_get "value" (attrib_of c) with
                     | Some n, Some v => if String.eqb n name then [v] else []
                     | _, _ => []
                     end)
           (findall (TorznabBuilder.torznab_ns ++ "attr") item).

(** the parts of the item of a record, given its title, its category and the
    text of its date *)
Definition parts_of_record (stream : value) (query_type : string)
    (title : string) (category : Z) (date : option string) : item_parts :=
  let file_info := get_or stream "file" (PDict []) in
  let meta_info := get_or stream "meta" (PDict []) in
  let stream_info := get_or stream "stream" (PDict []) in
  let links := get_or stream "links" (PList []) in
  let size := get_or file_info "size" (PInt 0) in
  let torrent := eq_str (get_or stream_info "type" PNone) "torrent" in
  let hash := get_or file_info "hash" PNone in
  let imdb := get_or meta_info "imdb" PNone in
  let tvdb := get_or meta_info "tvdb" PNone in
  let episode_info := get_or meta_info "episode" PNone in
  let numbered := String.eqb query_type "tvsearch" && truthy episode_info in
  let season := get_or episode_info "season" PNone in
  let episode := get_or episode_info "episode" PNone in
  {| title_part := title;
     guid_part := text_value (get_or stream "id" (PStr ""));
     link_part := if truthy links then text_value (first_of links) else None;
     date_part := date;
     size_part := if truthy size then str size else "0";
     type_part := if torrent then "application/x-bittorrent" else "application/x-nzb";
     category_part := category;
     seeders_part := if torrent then Some (str (get_or stream_info "seeds" (PInt 0))) else None;
     infohash_part := if torrent && truthy hash then text_value hash else None;
     imdbid_part := if truthy imdb then text_value imdb else None;
     tvdbid_part := if truthy tvdb then Some (str tvdb) else None;
     season_part := if numbered && truthy season then Some (str season) else None;
     episode_part := if numbered && truthy episode then Some (str episode) else None |}.

(** when the date of a record is printed, and as what *)
Definition date_of_record (P : Platform) (stream : value) (date : option string) : Prop :=
  let time_info := get_or stream "time" (PDict []) in
  let added := get_or time_info "added" PNone in
  if truthy time_info && truthy added
  then exists ts text, TorznabBuilder.timestamp_of added = Ok ts /\ pub_date P ts = Ok text /\
                       date = Some text
  else date = None.

(** a record of an episode *)
Definition episode_record : value :=
  PDict [("id", PStr "e1");
         ("meta", PDict [("title", PStr "Show"); ("tvdb", PInt 4242);
                         ("episode", PDict [("season", PInt 2); ("episode", PInt 0)])])].

(** the ids of the categories and subcategories that a capabilities document lists *)
Definition listed_id (e : element) : list string :=
  match attrib_get "id" (attrib_of e) with
  | Some id => [id]
  | None => []
  end.
Definition advertised_categories (caps : element) : list string :=
  flat_map (fun categories =>
              flat_map (fun category =>
                          listed_id category ++ flat_map listed_id (findall "subcat" category))%list
                       (findall "category" categories))
           (findall "categories" caps).

(** *** Forms *)

(** a search criterion as it is sent: a str that is not empty *)
Definition criterion (c : option string) : option value :=
  match c with
  | Some s => if String.eqb s "" then None else Some (PStr s)
  | None => None
  end.

(** the parameters a search form can have *)
Definition search_keys : list string :=
  ["mode"; "action"; "type"; "limitcount"; "sort"; "query"; "idimdb"; "idtvdb"; "idtmdb";
   "numberseason"; "numberepisode"; "videoquality"; "protocoltorent"; "protocolnzb";
   "debridlookup"; "keyapp"; "keyuser"].

(** the outcome of a POST as [_make_request] passes it on *)
Definition outcome_of (a : answer) : result value :=
  match a with
  | Answer body => Ok body
  | Failure e => Raise (exn_of_transport e)
  end.

(** the form of a search: the parameters of [search_streams] and the two keys *)
Definition search_form (self : Client)
    (query imdb_id tvdb_id tmdb_id : option string) (media_type : string)
    (season episode : option Z) (limit : Z)
    (video_quality : option (list string)) (sort : string) : dict :=
  update (OrionoidClient.search_params query imdb_id tvdb_id tmdb_id media_type season episode
            limit video_quality sort)
    [("keyapp", PStr (app_key self)); ("keyuser", PStr (user_key self))].

(** a parameter that is set only when [b] holds *)
Definition put_if (b : bool) (k : string) (v : value) (d : dict) : dict :=
  if b then setitem k v d else d.

(** the numbers of an episode: set together, for a show, when both are given *)
Definition put_numbers (media_type : string) (season episode : option Z) (d : dict) : dict :=
  match season, episode with
  | Some s, Some e =>
      put_if (String.eqb media_type "show") "numberepisode" (PInt e)
        (put_if (String.eqb media_type "show") "numberseason" (PInt s) d)
  | _, _ => d
  end.

(** the quality filter: set when the list of qualities is not empty *)
Definition put_quality (video_quality : option (list string)) (d : dict) : dict :=
  match video_quality with
  | Some (q :: qs) => setitem "videoquality" (PStr (join "," (q :: qs))) d
  | _ => d
  end.

(** the form that asks for the account of the user *)
Definition user_form (self : Client) : dict :=
  update [("mode", PStr "user"); ("action", PStr "retrieve")]
    [("keyapp", PStr (app_key self)); ("keyuser", PStr (user_key self))].

(** the answer of the provider reports success *)
Definition reports_success (body : value) : bool :=
  match (res <- py_get body "result" (PDict []) ;; py_get res "status" PNone)%result with
  | Ok status => eq_str status "success"
  | Raise _ => false
  end.

(** the result of a health check of the client *)
Definition health_result (status message : string) (response_time : Z) (user_info : value)
    : value :=
  PDict [("status", PStr status); ("message", PStr message);
         ("responseTime", PInt response_time); ("userInfo", user_info)].

(** the message of the health check of the client for a failure of the transport *)
Definition failure_message (e : transport_error) : string :=
  match e with
  | Timeout _ => "Connection timeout"
  | BadStatus code _ =>
      if (code =? 401) || (code =? 403) then "Authentication failed - invalid API keys"
      else "HTTP error " ++ str_of_Z code
  | NoConnection _ => "Cannot connect to Orionoid API"
  | OtherFailure msg => "Unexpected error: " ++ msg
  end.

(** a JSON response whose status code is the one its content records, 503
    with an overall status of "unhealthy" and 200 with any other *)
Definition health_answer (response : Main.HttpResponse) : Prop :=
  exists content code,
    response = Main.JSONResponse content (PInt code) /\
    py_getitem content "_status_code" = Ok (PInt code) /\
    (code = 503 /\ status_of content = Some (PStr "unhealthy") \/
     code = 200 /\ exists status, status_of content = Some (PStr status) /\
                                  status <> "unhealthy").

(** the four checks of a health result *)
Definition checks_of (client_ok : bool) (orionoid_check auth_check search_check : dict)
    : list (string * dict) :=
  [("orionoid_api", orionoid_check);
   ("authentication", auth_check);
   ("search_capability", search_check);
   ("dependencies",
    [("status", PStr (if client_ok then "healthy" else "unhealthy"));
     ("httpClient", PStr (if client_ok then "connected" else "not initialized"));
     ("xmlBuilder", PStr "operational")])].

(** the checks as the values of the response *)
Definition check_values (checks : list (string * dict)) : dict :=
  map (fun kc => (fst kc, PDict (snd kc))) checks.

(** the globals after a successful search at [time] *)
Definition with_search (g : Globals) (time : Q) : Globals := {|
  orion_client := orion_client g;
  startup_time := startup_time g;
  last_successful_search := Some time;
  health_check_cache := health_check_cache g;
  health_check_cache_time := health_check_cache_time g
|}.

(** what start-up sets and no handler changes: the client and the time of
    start-up *)
Definition installed (g : Globals) : option Client * option Q :=
  (orion_client g, startup_time g).

(** two requests that agree on every parameter their function reads: the
    function, the key, the query, the IMDb id and the limit, and besides
    them the category for [search], the TVDB id and the numbers of the
    episode for [tvsearch], and the TMDB id for [movie] *)
Definition reads_alike (r r' : Main.Request) : Prop :=
  Main.t r = Main.t r' /\ Main.apikey r = Main.apikey r' /\ Main.q r = Main.q r' /\
  Main.imdbid r = Main.imdbid r' /\ Main.limit r = Main.limit r' /\
  (Main.t r = "search" -> Main.cat r = Main.cat r') /\
  (Main.t r = "tvsearch" ->
   Main.tvdbid r = Main.tvdbid r' /\ Main.season r = Main.season r' /\ Main.ep r = Main.ep r') /\
  (Main.t r = "movie" -> Main.tmdbid r = Main.tmdbid r').

(** a form that carries the configured keys *)
Definition carries_keys (settings : Settings) (form : dict) : Prop :=
  lookup "keyapp" form = Some (PStr (orionoid_app_api_key settings)) /\
  lookup "keyuser" form = Some (PStr (orionoid_user_api_key settings)).

(** one step of a process: start-up, a health check or a request to the API *)
Inductive step (P : Platform) (settings : Settings) (w : World) (s : State) : State -> Prop :=
| step_startup : step P settings w s (snd (Main.lifespan_startup settings w s))
| step_health : forall force, step P settings w s (snd (Main.health_check P settings force w s))
| step_api : forall r, step P settings w s (snd (Main.api_endpoint P settings r w s)).

(** a search-results document: the header of the channel, with the total
    in its response element, and the items *)
Definition feed (total : nat) (items : list element) : element :=
  Element "rss" [("version", "2.0")] None
    [Element "channel" [] None
       ([ Element "title" [] (Some "Orionoid Torznab") [];
          Element "description" [] (Some "Orionoid Torznab Feed") [];
          Element "link" [] (Some "https://orionoid.com") [];
          Element (TorznabBuilder.newznab_ns ++ "response")
            [("offset", "0"); ("total", str_of_Z (Z.of_nat total))] None [] ]
        ++ items)%list].

(** a provider that refuses every search *)
Definition refusing_world : World := {|
  post := fun _ _ =>
    Answer (PDict [("result", PDict [("status", PStr "error");
                                    ("message", PStr "Invalid user key")])]);
  clock := fun n => (Z.of_nat n # 1)%Q
|}.

(** * Properties *)

(** ** Fallible computations *)

Lemma bind_ok {A B : Type} (c : result A) (k : A -> result B) (a : A) :
  c = Ok a -> bind c k = k a.
Proof. intros ->. reflexivity. Qed.

Lemma bind_inv {A B : Type} (c : result A) (k : A -> result B) (b : B) :
  bind c k = Ok b -> exists a, c = Ok a /\ k a = Ok b.
Proof. destruct c as [a|e]; simpl; [eauto | discriminate]. Qed.

(** ** The shape of a rendered item *)

Lemma text_field_group stream group key info :
  py_get stream group (PDict []) = Ok info ->
  text_field stream group key = group_text info key.
Proof.
  destruct stream; simpl; try discriminate.
  destruct (lookup group d) as [x|]; intros [= <-]; reflexivity.
Qed.

Lemma upper_eq_empty s : String.eqb (upper s) "" = String.eqb s "".
Proof. destruct s; reflexivity. Qed.

Lemma strs_from_strings i ss : strs_from i (map PStr ss) = Ok ss.
Proof.
  revert i. induction ss as [|s ss IH]; intros i; simpl; [reflexivity|].
  rewrite IH. reflexivity.
Qed.

Lemma py_join_strings sep ss : py_join sep (map PStr ss) = Ok (join sep ss).
Proof. unfold py_join. rewrite strs_from_strings. reflexivity. Qed.

(** the quality or codec of [build_title]: read, upper-cased, bracketed *)
Lemma tag_spec video_info key v up :
  py_get video_info key (PStr "") = Ok v ->
  py_upper v = Ok up ->
  (if truthy (PStr up) then [PStr ("[" ++ up ++ "]")] else []) =
  map PStr (bracketed (group_text video_info key)).
Proof.
  destruct video_info; simpl; try discriminate.
  destruct (lookup key d) as [x|]; intros [= <-].
  - destruct x; simpl; try discriminate. intros [= <-].
    rewrite upper_eq_empty. destruct (String.eqb s ""); reflexivity.
  - simpl. intros [= <-]. reflexivity.
Qed.

Lemma name_spec file_info meta_info parts :
  bind (py_get file_info "name" PNone)
    (fun name => if truthy name then Ok [name]
                 else bind (py_get meta_info "title" PNone)
                        (fun meta_title => Ok (if truthy meta_title then [meta_title] else [])))
  = Ok parts ->
  (exists v, parts = [v] /\ forall s, v = PStr s ->
     parts = map PStr (match group_text file_info "name", group_text meta_info "title" with
                       | Some f, _ => [f] | None, Some t => [t] | None, None => [] end))
  \/ parts = [] /\ group_text file_info "name" = None /\ group_text meta_info "title" = None.
Proof.
  destruct file_info; simpl; try discriminate.
  destruct (lookup "name" d) as [name|] eqn:Hname.
  - destruct (truthy name) eqn:Tname.
    + intros [= <-]. left. exists name. split; [reflexivity|].
      intros s ->. simpl in Tname. destruct (String.eqb s ""); [discriminate|reflexivity].
    + assert (Hnone : match name with PStr s => if String.eqb s "" then None else Some s | _ => None end = None).
      { destruct name; try reflexivity. simpl in Tname. destruct (String.eqb s ""); [reflexivity|discriminate]. }
      destruct meta_info; simpl; try discriminate.
      destruct (lookup "title" d0) as [mt|] eqn:Hmt.
      * destruct (truthy mt) eqn:Tmt; intros [= <-].
        -- left. exists mt. split; [reflexivity|]. intros s ->.
           simpl in Tmt. destruct name; try (destruct (String.eqb s "") ; [discriminate|reflexivity]).
           rewrite Hnone. destruct (String.eqb s "") ; [discriminate|reflexivity].
        -- right. repeat split; try reflexivity.
           ++ destruct name; try reflexivity. exact Hnone.
           ++ destruct mt; try reflexivity. simpl in Tmt. destruct (String.eqb s ""); [reflexivity|discriminate].
      * simpl. intros [= <-]. right. repeat split; try reflexivity.
        destruct name; try reflexivity. exact Hnone.
  - simpl. destruct meta_info; simpl; try discriminate.
    destruct (lookup "title" d0) as [mt|] eqn:Hmt.
    + destruct (truthy mt) eqn:Tmt; intros [= <-].
      * left. exists mt. split; [reflexivity|]. intros s ->.
        simpl in Tmt. destruct (String.eqb s ""); [discriminate|reflexivity].
      * right. repeat split; try reflexivity.
        destruct mt; try reflexivity. simpl in Tmt. destruct (String.eqb s ""); [reflexivity|discriminate].
    + simpl. intros [= <-]. right. repeat split; reflexivity.
Qed.

Lemma build_title_spec file_info video_info meta_info title :
  TorznabBuilder.build_title file_info video_info meta_info = Ok title ->
  title = title_of_parts (group_text file_info "name") (group_text meta_info "title")
            (group_text video_info "quality") (group_text video_info "codec").
Proof.
  unfold TorznabBuilder.build_title. intros H.
  apply bind_inv in H as (name & Hname & H).
  apply bind_inv in H as (parts & Hparts & H).
  apply bind_inv in H as (q & Hq & H).
  apply bind_inv in H as (quality & Hquality & H).
  apply bind_inv in H as (c & Hc & H).
  apply bind_inv in H as (codec & Hcodec & H).
  pose proof (tag_spec _ _ _ _ Hq Hquality) as Tq.
  pose proof (tag_spec _ _ _ _ Hc Hcodec) as Tc.
  assert (Hname' :
    bind (py_get file_info "name" PNone)
      (fun name => if truthy name then Ok [name]
                   else bind (py_get meta_info "title" PNone)
                          (fun meta_title => Ok (if truthy meta_title then [meta_title] else [])))
    = Ok parts) by (rewrite Hname; exact Hparts).
  apply name_spec in Hname'.
  set (tq := bracketed (group_text video_info "quality")) in *.
  set (tc := bracketed (group_text video_info "codec")) in *.
  assert (Hall : (if truthy (PStr codec)
                  then ((if truthy (PStr quality)
                         then (parts ++ [PStr ("[" ++ quality ++ "]")])%list else parts)
                        ++ [PStr ("[" ++ codec ++ "]")])%list
                  else (if truthy (PStr quality)
                        then (parts ++ [PStr ("[" ++ quality ++ "]")])%list else parts))
                 = (parts ++ map PStr tq ++ map PStr tc)%list).
  { rewrite <- Tq, <- Tc.
    destruct (truthy (PStr codec)), (truthy (PStr quality));
      rewrite <- ?app_assoc, ?app_nil_r; reflexivity. }
  rewrite Hall in H. clear Hall Tq Tc.
  unfold title_of_parts. fold tq tc.
  destruct Hname' as [(v & -> & Hv) | (-> & -> & ->)].
  - cbn [app truthy] in H.
    destruct v; try (unfold py_join in H; simpl in H; discriminate).
    specialize (Hv s eq_refl).
    change ([PStr s] ++ map PStr tq ++ map PStr tc)%list with (PStr s :: map PStr tq ++ map PStr tc)%list in H.
    destruct (group_text file_info "name") as [f|], (group_text meta_info "title") as [t|];
      simpl in Hv; try discriminate Hv; injection Hv as ->;
      rewrite <- map_app in H;
      change (PStr ?x :: map PStr ?l) with (map PStr (x :: l)) in H;
      rewrite py_join_strings in H; injection H as <-; reflexivity.
  - cbn [app] in H. rewrite <- map_app in H.
    destruct (tq ++ tc)%list as [|p ps] eqn:E.
    + simpl in H. injection H as <-. reflexivity.
    + cbn [truthy map] in H.
      change (PStr p :: map PStr ps) with (map PStr (p :: ps)) in H.
      rewrite py_join_strings in H. injection H as <-. reflexivity.
Qed.

Lemma extends_refl a : extends a a.
Proof. exists []. destruct a. simpl. rewrite app_nil_r. reflexivity. Qed.

Lemma extends_trans a b c : extends a b -> extends b c -> extends a c.
Proof.
  intros [m1 ->] [m2 ->]. exists (m1 ++ m2)%list. simpl. rewrite app_assoc. reflexivity.
Qed.

Lemma extends_append a e : extends a (append a e).
Proof. exists [e]. destruct a. reflexivity. Qed.

Lemma sub_text_extends item tag v item' :
  TorznabBuilder.sub_text item tag v = Ok item' -> extends item item'.
Proof.
  unfold TorznabBuilder.sub_text. intros H.
  apply bind_inv in H as (e & _ & [= <-]). apply extends_append.
Qed.

Lemma torznab_attr_extends item name v item' :
  TorznabBuilder.torznab_attr item name v = Ok item' -> extends item item'.
Proof.
  unfold TorznabBuilder.torznab_attr. intros H.
  apply bind_inv in H as (a & _ & H).
  apply bind_inv in H as (a' & _ & [= <-]). apply extends_append.
Qed.

(** [extends p x] from the equation [E] of one stage of [_build_item],
    which says that the stage, started on [p], ended with [x] *)
Ltac leaf E :=
  first
    [ exact (sub_text_extends _ _ _ _ E)
    | exact (torznab_attr_extends _ _ _ _ E)
    | eapply extends_trans;
      [ apply extends_append
      | first [ exact (sub_text_extends _ _ _ _ E)
              | exact (torznab_attr_extends _ _ _ _ E) ] ] ].

Ltac stage E :=
  lazymatch type of E with
  | Ok _ = Ok _ =>
      injection E as <-; first [ apply extends_refl | apply extends_append ]
  | (if ?b then _ else _) = Ok _ => revert E; destruct b; intro E; stage E
  | bind _ _ = Ok _ =>
      let x := fresh "x" in
      let E' := fresh "E" in
      apply bind_inv in E as (x & E' & E);
      first [ eapply extends_trans; [ solve [stage E'] | ]; stage E | stage E ]
  | _ => leaf E
  end.

Lemma titled_extends t a b : titled t a -> extends a b -> titled t b.
Proof. intros [m ->] [m' ->]. exists (m ++ m')%list. reflexivity. Qed.

Ltac advance H :=
  let x := fresh "x" in
  let E := fresh "E" in
  cbv zeta in H;
  apply bind_inv in H as (x & E & H);
  try match goal with
      | I : titled ?t ?p |- _ =>
          assert (titled t x) by (apply (titled_extends t p x I); stage E);
          clear I
      end.

Lemma build_item_body_shape P stream query_type item :
  TorznabBuilder._build_item_body P stream query_type = Ok item ->
  exists file_info video_info meta_info title,
    py_get stream "file" (PDict []) = Ok file_info /\
    py_get stream "video" (PDict []) = Ok video_info /\
    py_get stream "meta" (PDict []) = Ok meta_info /\
    TorznabBuilder.build_title file_info video_info meta_info = Ok title /\
    titled (Some title) item.
Proof.
  unfold TorznabBuilder._build_item_body. intros H. cbv zeta in H.
  apply bind_inv in H as (file_info & Hfile & H).
  apply bind_inv in H as (video_info & Hvideo & H).
  apply bind_inv in H as (audio_info & _ & H).
  apply bind_inv in H as (meta_info & Hmeta & H).
  apply bind_inv in H as (title & Htitle & H).
  apply bind_inv in H as (item1 & Hitem1 & H).
  exists file_info, video_info, meta_info, title.
  repeat (split; [assumption|]).
  assert (H1 : titled (Some title) item1).
  { unfold TorznabBuilder.sub_text in Hitem1. apply bind_inv in Hitem1 as (e & He & [= <-]).
    unfold set_text, new_element in He. simpl in He.
    apply bind_inv in He as (s & Hs & [= <-]).
    unfold xml_string in Hs. destruct (xml_compatible title); [|discriminate].
    injection Hs as <-. exists []. reflexivity. }
  clear Hitem1.
  do 20 advance H.
  match goal with I : titled _ ?p |- _ => apply (titled_extends _ p _ I) end.
  stage H.

Qed.

(** ** Category inference *)


(** a record gets a category only if it has the shape the theorem asks for *)
Lemma determine_category_inv stream query_type category :
  TorznabBuilder._determine_category stream query_type = Ok category ->
  exists video_info quality,
    py_get stream "video" (PDict []) = Ok video_info /\
    py_get video_info "quality" (PStr "") = Ok (PStr quality) /\
    (query_type = "tvsearch" \/
     exists meta episode, py_get stream "meta" (PDict []) = Ok meta /\
                          py_get meta "episode" PNone = Ok episode).
Proof.
  unfold TorznabBuilder._determine_category. intros H.
  apply bind_inv in H as (video_info & Hvideo & H).
  apply bind_inv in H as (q & Hq & H).
  apply bind_inv in H as (quality & Hquality & H).
  apply bind_inv in H as (is_tv & Htv & _).
  destruct q; try discriminate Hquality.
  exists video_info, s. repeat split; try assumption.
  destruct (String.eqb_spec query_type "tvsearch") as [->|_]; [left; reflexivity|right].
  apply bind_inv in Htv as (meta & Hmeta & Htv).
  apply bind_inv in Htv as (episode & Hepisode & _). eauto.
Qed.


(** the three examples of the specification *)
Example category_2160p_tvsearch :
  TorznabBuilder._determine_category (PDict [("video", PDict [("quality", PStr "2160p")])]) "tvsearch"
  = Ok 5080.
Proof. reflexivity. Qed.

Example category_720p_movie :
  TorznabBuilder._determine_category (PDict [("video", PDict [("quality", PStr "720p")])]) "movie"
  = Ok 2040.
Proof. reflexivity. Qed.

Example category_empty_movie :
  TorznabBuilder._determine_category (PDict [("video", PDict [("quality", PStr "")])]) "movie"
  = Ok 2000.
Proof. reflexivity. Qed.

(** the tag a combined search puts on a record is not read: a record tagged
    as a show without episode metadata keeps its movie category *)
Example category_of_tagged_show :
  TorznabBuilder._determine_category
    (PDict [("video", PDict [("quality", PStr "hd720")]); ("_media_type", PStr "show")]) "search"
  = Ok 2040.
Proof. reflexivity. Qed.

(** ** Titles *)

(** C4, as the specification states it, fails: a record with a quality and
    neither file name nor source title is rendered with the bracketed
    quality alone as its title, not with "Unknown". *)
Lemma title_of_quality_only_record :
  text_field quality_only_record "file" "name" = None /\
  text_field quality_only_record "meta" "title" = None /\
  option_map (findtext "title")
    (TorznabBuilder._build_item sample_platform quality_only_record "search")
    = Some (Some "[HD1080]") /\
  title_with_unknown_name None None (Some "hd1080") None = "Unknown [HD1080]".
Proof. repeat split; reflexivity. Qed.

(** C4 (amended). The title of a rendered record is made of the file name if
    there is one, else the source title if there is one, then the quality
    and the codec, each upper-cased in brackets, for those that are present,
    joined by single spaces; it is "Unknown" when none of the four is
    present. *)
Theorem item_title :
  forall (P : Platform) (stream : value) (query_type : string) (item : element),
    TorznabBuilder._build_item P stream query_type = Some item ->
    findtext "title" item =
      Some (title_of_parts (text_field stream "file" "name")
                           (text_field stream "meta" "title")
                           (text_field stream "video" "quality")
                           (text_field stream "video" "codec")) /\
    (text_field stream "file" "name" = None ->
     text_field stream "meta" "title" = None ->
     text_field stream "video" "quality" = None ->
     text_field stream "video" "codec" = None ->
     findtext "title" item = Some "Unknown").
Proof.
  intros P stream query_type item H.
  unfold TorznabBuilder._build_item in H.
  destruct (TorznabBuilder._build_item_body P stream query_type) as [item'|] eqn:Hbody;
    [injection H as ->|discriminate].
  apply build_item_body_shape in Hbody
    as (file_info & video_info & meta_info & title & Hf & Hv & Hm & Ht & [more ->]).
  apply build_title_spec in Ht.
  rewrite (text_field_group _ _ "name" _ Hf), (text_field_group _ _ "title" _ Hm),
    (text_field_group _ _ "quality" _ Hv), (text_field_group _ _ "codec" _ Hv).
  assert (Hfind : findtext "title" (Element "item" [] None (Element "title" [] (Some title) [] :: more))
                  = Some title) by reflexivity.
  rewrite Hfind, <- Ht. split; [reflexivity|].
  intros N1 N2 N3 N4. rewrite Ht, N1, N2, N3, N4. reflexivity.
Qed.

Lemma item_title_witness :
  exists item,
    TorznabBuilder._build_item sample_platform sample_record "search" = Some item /\
    findtext "title" item = Some "The.Matrix.1999.mkv [HD1080] [H264]".
Proof.
  eexists. split.
  - vm_compute. reflexivity.
  - exact (proj1 (item_title sample_platform sample_record "search" _ eq_refl)).
Defined.

(** ** Search-results documents *)

Lemma xml_compatible_uint d : xml_compatible (NilEmpty.string_of_uint d) = true.
Proof. induction d; simpl; auto. Qed.

Lemma xml_compatible_str_of_Z n : xml_compatible (str_of_Z n) = true.
Proof.
  unfold str_of_Z, NilZero.string_of_int.
  assert (Hu : forall d, xml_compatible (NilZero.string_of_uint d) = true).
  { intros d. unfold NilZero.string_of_uint.
    destruct d; try reflexivity; apply (xml_compatible_uint (_ d)). }
  destruct (Z.to_int n) as [d|d].
  - apply Hu.
  - change (xml_compatible (String "-" (NilZero.string_of_uint d)))
      with (xml_char_ok "-" && xml_compatible (NilZero.string_of_uint d)).
    rewrite Hu. reflexivity.
Qed.

Lemma build_item_tag P stream query_type item :
  TorznabBuilder._build_item P stream query_type = Some item -> tag_of item = "item".
Proof.
  unfold TorznabBuilder._build_item.
  destruct (TorznabBuilder._build_item_body P stream query_type) as [item'|] eqn:Hbody;
    [intros [= <-]|discriminate].
  apply build_item_body_shape in Hbody as (_ & _ & _ & t & _ & _ & _ & _ & [more ->]).
  reflexivity.
Qed.

Lemma build_items_tags P records query_type :
  filter (fun c => String.eqb (tag_of c) "item") (TorznabBuilder.build_items P records query_type)
  = TorznabBuilder.build_items P records query_type.
Proof.
  induction records as [|r rs IH]; simpl; [reflexivity|].
  destruct (TorznabBuilder._build_item P r query_type) as [item|] eqn:E; [|exact IH].
  simpl. rewrite (build_item_tag _ _ _ _ E). simpl. rewrite IH. reflexivity.
Qed.

Lemma build_items_app P before after query_type :
  TorznabBuilder.build_items P (before ++ after)%list query_type
  = (TorznabBuilder.build_items P before query_type
     ++ TorznabBuilder.build_items P after query_type)%list.
Proof.
  induction before as [|r rs IH]; simpl; [reflexivity|].
  destruct (TorznabBuilder._build_item P r query_type); rewrite IH; reflexivity.
Qed.

Lemma build_items_in P records query_type record item :
  In record records ->
  TorznabBuilder._build_item P record query_type = Some item ->
  In item (TorznabBuilder.build_items P records query_type).
Proof.
  induction records as [|r rs IH]; simpl; [tauto|].
  intros [-> | Hin] Hitem.
  - rewrite Hitem. left. reflexivity.
  - destruct (TorznabBuilder._build_item P r query_type); [right|]; auto.
Qed.

Lemma build_items_length P records query_type :
  (List.length (TorznabBuilder.build_items P records query_type) <= List.length records)%nat.
Proof.
  induction records as [|r rs IH]; simpl; [lia|].
  destruct (TorznabBuilder._build_item P r query_type); simpl; lia.
Qed.

Lemma build_items_shorter P records query_type record :
  In record records ->
  TorznabBuilder._build_item P record query_type = None ->
  (List.length (TorznabBuilder.build_items P records query_type) < List.length records)%nat.
Proof.
  induction records as [|r rs IH]; simpl; [tauto|].
  intros [-> | Hin] Hnone.
  - rewrite Hnone. pose proof (build_items_length P rs query_type). lia.
  - specialize (IH Hin Hnone).
    destruct (TorznabBuilder._build_item P r query_type); simpl; lia.
Qed.

Lemma chars_length s : List.length (chars s) = String.length s.
Proof. induction s; simpl; auto. Qed.

Lemma py_iter_len v records :
  py_iter v = Ok records -> py_len v = Ok (Z.of_nat (List.length records)).
Proof.
  destruct v; simpl; try discriminate; intros [= <-].
  - rewrite chars_length. reflexivity.
  - reflexivity.
  - rewrite length_map. reflexivity.
Qed.

(** the document [build_search_results] makes of a payload whose records can be visited *)
Lemma build_search_results_records P payload query_type records :
  records_of payload = Ok records ->
  TorznabBuilder.build_search_results P payload query_type =
    Ok (Element "rss" [("version", "2.0")] None
          [Element "channel" [] None
             ([ Element "title" [] (Some "Orionoid Torznab") [];
                Element "description" [] (Some "Orionoid Torznab Feed") [];
                Element "link" [] (Some "https://orionoid.com") [];
                Element (TorznabBuilder.newznab_ns ++ "response")
                  [("offset", "0"); ("total", str_of_Z (Z.of_nat (List.length records)))] None [] ]
              ++ TorznabBuilder.build_items P records query_type)%list]).
Proof.
  unfold records_of. intros H.
  apply bind_inv in H as (data & Hdata & H).
  apply bind_inv in H as (streams & Hstreams & Hiter).
  unfold TorznabBuilder.build_search_results.
  rewrite !(bind_ok _ _ _ Hdata), !(bind_ok _ _ _ Hstreams).
  rewrite (bind_ok _ _ _ (py_iter_len _ _ Hiter)).
  unfold set_attr, new_element, xml_string.
  change (xml_compatible "0") with true. rewrite xml_compatible_str_of_Z.
  cbn [bind]. rewrite (bind_ok _ _ _ Hdata), (bind_ok _ _ _ Hstreams), (bind_ok _ _ _ Hiter).
  reflexivity.
Qed.

Lemma build_search_results_inv P payload query_type doc :
  TorznabBuilder.build_search_results P payload query_type = Ok doc ->
  exists records, records_of payload = Ok records.
Proof.
  unfold TorznabBuilder.build_search_results, records_of. intros H.
  apply bind_inv in H as (data & Hdata & H).
  apply bind_inv in H as (streams & Hstreams & H).
  apply bind_inv in H as (total & _ & H).
  apply bind_inv in H as (r1 & _ & H).
  apply bind_inv in H as (r2 & _ & H).
  rewrite (bind_ok _ _ _ Hdata), (bind_ok _ _ _ Hstreams) in H.
  apply bind_inv in H as (records & Hiter & _).
  exists records. rewrite (bind_ok _ _ _ Hdata), (bind_ok _ _ _ Hstreams). exact Hiter.
Qed.

Lemma items_of_results P payload query_type records doc :
  records_of payload = Ok records ->
  TorznabBuilder.build_search_results P payload query_type = Ok doc ->
  items_of doc = TorznabBuilder.build_items P records query_type /\
  total_of doc = Some (str_of_Z (Z.of_nat (List.length records))).
Proof.
  intros Hrec Hdoc. rewrite (build_search_results_records _ _ _ _ Hrec) in Hdoc.
  injection Hdoc as <-. split.
  - unfold items_of, findall. cbn [children_of app filter tag_of String.eqb Ascii.eqb Bool.eqb].
    simpl. apply build_items_tags.
  - reflexivity.
Qed.

(** C7. A record whose item construction raises is skipped: the document is
    still produced, its items are those of the records before the failing
    one followed by those of the records after it, and every other record
    of the batch that constructs has its item in the document. *)
Theorem failing_record_is_skipped :
  forall (P : Platform) (payload : value) (query_type : string)
         (before after : list value) (bad : value) (e : exn),
    records_of payload = Ok (before ++ bad :: after)%list ->
    TorznabBuilder._build_item_body P bad query_type = Raise e ->
    exists doc,
      TorznabBuilder.build_search_results P payload query_type = Ok doc /\
      items_of doc = (TorznabBuilder.build_items P before query_type
                      ++ TorznabBuilder.build_items P after query_type)%list /\
      (forall record item,
          In record (before ++ after)%list ->
          TorznabBuilder._build_item P record query_type = Some item ->
          In item (items_of doc)).
Proof.
  intros P payload query_type before after bad e Hrecords Hbad.
  eexists. split; [exact (build_search_results_records P _ query_type _ Hrecords)|].
  destruct (items_of_results P _ query_type _ _ Hrecords
              (build_search_results_records P _ query_type _ Hrecords)) as [Hitems _].
  assert (Hskip : TorznabBuilder.build_items P (before ++ bad :: after)%list query_type
                  = TorznabBuilder.build_items P (before ++ after)%list query_type).
  { rewrite !build_items_app. simpl. unfold TorznabBuilder._build_item at 1.
    rewrite Hbad. reflexivity. }
  rewrite Hitems, Hskip. split.
  - apply build_items_app.
  - intros record item Hin Hitem. exact (build_items_in P _ query_type record item Hin Hitem).
Qed.

Lemma failing_record_is_skipped_witness :
  exists doc,
    TorznabBuilder.build_search_results sample_platform
      (PDict [("data", PDict [("streams", PList [sample_record; broken_record; quality_only_record])])])
      "search" = Ok doc /\
    List.length (items_of doc) = 2%nat.
Proof.
  destruct (failing_record_is_skipped sample_platform
              (PDict [("data", PDict [("streams",
                        PList [sample_record; broken_record; quality_only_record])])])
              "search" [sample_record] [quality_only_record] broken_record
              (AttributeError PNone "get") eq_refl eq_refl) as (doc & Hdoc & Hitems & _).
  exists doc. split; [exact Hdoc|]. rewrite Hitems. reflexivity.
Defined.

(** C10. The total attribute of a search-results document is the number of
    stream records of the payload, whatever becomes of the records; the
    document never has more items than that, and has fewer as soon as one
    record fails item construction. *)
Theorem total_counts_every_record :
  forall (P : Platform) (payload : value) (query_type : string) (doc : element),
    TorznabBuilder.build_search_results P payload query_type = Ok doc ->
    exists records,
      records_of payload = Ok records /\
      total_of doc = Some (str_of_Z (Z.of_nat (List.length records))) /\
      (List.length (items_of doc) <= List.length records)%nat /\
      ((exists record, In record records /\
                       TorznabBuilder._build_item P record query_type = None) ->
       (List.length (items_of doc) < List.length records)%nat).
Proof.
  intros P payload query_type doc Hdoc.
  destruct (build_search_results_inv _ _ _ _ Hdoc) as [records Hrecords].
  destruct (items_of_results _ _ _ _ _ Hrecords Hdoc) as [Hitems Htotal].
  exists records. rewrite Hitems. repeat split.
  - exact Hrecords.
  - exact Htotal.
  - apply build_items_length.
  - intros (record & Hin & Hnone). exact (build_items_shorter _ _ _ record Hin Hnone).
Qed.

Lemma total_counts_every_record_witness :
  exists doc,
    TorznabBuilder.build_search_results sample_platform
      (PDict [("data", PDict [("streams", PList [sample_record; broken_record])])])
      "search" = Ok doc /\
    total_of doc = Some "2" /\ List.length (items_of doc) = 1%nat.
Proof.
  eexists. split; [vm_compute; reflexivity|].
  destruct (total_counts_every_record sample_platform
              (PDict [("data", PDict [("streams", PList [sample_record; broken_record])])])
              "search" _ eq_refl) as (records & Hrecords & Htotal & _).
  split; [|reflexivity].
  injection Hrecords as <-. exact Htotal.
Defined.

(** ** Searches sent upstream *)

Lemma search_orionoid_run :
  forall (query imdb_id tvdb_id tmdb_id : option string) (media_type : string)
         (season episode : option Z) (limit : Z) (w : World) (s : State) (client : Client),
    orion_client (globals s) = Some client ->
    Main.search_orionoid query imdb_id tvdb_id tmdb_id media_type season episode limit w s =
      let form := request_form client query imdb_id tvdb_id tmdb_id media_type season episode limit in
      match post w (List.length (sent s)) form with
      | Answer body =>
          match Main.check_results body with
          | Ok _ => (Ok body, searched w (sending form s))
          | Raise e => (Raise e, sending form s)
          end
      | Failure e => (Raise (exn_of_transport e), sending form s)
      end.
Proof.
  intros query imdb_id tvdb_id tmdb_id media_type season episode limit w s client Hclient.
  unfold Main.search_orionoid, mbind, get_globals. rewrite Hclient.
  unfold OrionoidClient.search_streams, OrionoidClient._make_request, http_post, request_form.
  cbv zeta.
  destruct (post w _ _) as [body|e]; [|reflexivity].
  unfold lift. destruct (Main.check_results body) as [u|e]; reflexivity.
Qed.

Lemma search_orionoid_sent :
  forall query imdb_id tvdb_id tmdb_id media_type season episode limit w s client,
    orion_client (globals s) = Some client ->
    let s' := snd (Main.search_orionoid query imdb_id tvdb_id tmdb_id media_type season episode limit w s) in
    sent s' = (sent s ++ [request_form client query imdb_id tvdb_id tmdb_id media_type season episode limit])%list
    /\ orion_client (globals s') = Some client.
Proof.
  intros query imdb_id tvdb_id tmdb_id media_type season episode limit w s client Hclient.
  rewrite (search_orionoid_run _ _ _ _ _ _ _ _ w s client Hclient). cbv zeta.
  destruct (post w _ _) as [body|e]; [destruct (Main.check_results body)|];
    simpl; auto.
Qed.

(** the answer counts as a success exactly when it leaves a survivor *)
Lemma search_orionoid_result :
  forall query imdb_id tvdb_id tmdb_id media_type season episode limit w s client,
    orion_client (globals s) = Some client ->
    let form := request_form client query imdb_id tvdb_id tmdb_id media_type season episode limit in
    match fst (Main.search_orionoid query imdb_id tvdb_id tmdb_id media_type season episode limit w s) with
    | Ok body => survivor (post w (List.length (sent s)) form) = Some body
    | Raise _ => survivor (post w (List.length (sent s)) form) = None
    end.
Proof.
  intros query imdb_id tvdb_id tmdb_id media_type season episode limit w s client Hclient.
  rewrite (search_orionoid_run _ _ _ _ _ _ _ _ w s client Hclient). cbv zeta.
  unfold survivor.
  destruct (post w _ _) as [body|e]; [destruct (Main.check_results body)|]; reflexivity.
Qed.

Lemma tolerated_search_run :
  forall r media_type limit w s client,
    orion_client (globals s) = Some client ->
    let form := request_form client (Main.q r) (Main.imdbid r) None None media_type None None (limit / 2) in
    let out := Main.tolerated_search r media_type limit w s in
    fst out = Ok (survivor (post w (List.length (sent s)) form)) /\
    sent (snd out) = (sent s ++ [form])%list /\
    orion_client (globals (snd out)) = Some client.
Proof.
  intros r media_type limit w s client Hclient. cbv zeta.
  unfold Main.tolerated_search, try_except, mbind, ret.
  pose proof (search_orionoid_sent (Main.q r) (Main.imdbid r) None None media_type None None
                (limit / 2) w s client Hclient) as [Hsent Hkeep].
  pose proof (search_orionoid_result (Main.q r) (Main.imdbid r) None None media_type None None
                (limit / 2) w s client Hclient) as Hres.
  cbv zeta in Hsent, Hkeep, Hres.
  destruct (Main.search_orionoid (Main.q r) (Main.imdbid r) None None media_type None None
              (limit / 2) w s) as [[body|e] s']; simpl in *; rewrite Hres; auto.
Qed.


Lemma general_search_both :
  forall r limit w s client,
    orion_client (globals s) = Some client ->
    truthy_opt (Main.cat r) = false ->
    let n := List.length (sent s) in
    let movie := request_form client (Main.q r) (Main.imdbid r) None None "movie" None None (limit / 2) in
    let show := request_form client (Main.q r) (Main.imdbid r) None None "show" None None (limit / 2) in
    let out := Main.general_search r limit w s in
    fst out = Main.combine_results (survivor (post w n movie)) (survivor (post w (S n) show)) /\
    sent (snd out) = (sent s ++ [movie; show])%list.
Proof.
  intros r limit w s client Hclient Hcat. cbv zeta.
  unfold Main.general_search. rewrite Hcat. unfold mbind.
  pose proof (tolerated_search_run r "movie" limit w s client Hclient) as (H1 & S1 & K1).
  cbv zeta in H1, S1, K1.
  destruct (Main.tolerated_search r "movie" limit w s) as [m s1]. simpl in H1, S1, K1. subst m.
  pose proof (tolerated_search_run r "show" limit w s1 client K1) as (H2 & S2 & K2).
  cbv zeta in H2, S2, K2.
  destruct (Main.tolerated_search r "show" limit w s1) as [t s2]. simpl in H2, S2, K2. subst t.
  unfold lift. simpl. rewrite S2. rewrite S1 at 1. rewrite S1.
  rewrite length_app, Nat.add_comm, <- app_assoc. simpl. auto.
Qed.








Lemma combine_results_both_failed :
  Main.combine_results None None = Raise (Exception "Both movie and TV searches failed").
Proof. reflexivity. Qed.

Lemma lookup_setitem_same k v d : lookup k (setitem k v d) = Some v.
Proof.
  induction d as [|[k' v'] d IH]; simpl.
  - rewrite String.eqb_refl. reflexivity.
  - destruct (String.eqb k' k) eqn:E; simpl; rewrite ?String.eqb_refl, ?E; auto.
Qed.

Lemma lookup_setitem_other k k' v d :
  String.eqb k' k = false -> lookup k (setitem k' v d) = lookup k d.
Proof.
  intros Hk. induction d as [|[k0 v0] d IH]; simpl.
  - rewrite Hk. reflexivity.
  - destruct (String.eqb k0 k') eqn:E; simpl.
    + apply String.eqb_eq in E. subst k0. rewrite Hk. reflexivity.
    + rewrite IH. reflexivity.
Qed.



Lemma request_form_limitcount client query imdb_id tvdb_id tmdb_id media_type season episode limit :
  lookup "limitcount"
    (request_form client query imdb_id tvdb_id tmdb_id media_type season episode limit)
  = Some (PInt (if Main.no_criteria query imdb_id tvdb_id tmdb_id then 1 else limit)).
Proof.
  unfold request_form, OrionoidClient.search_params, update; cbn [fold_left fst snd].
  repeat (rewrite lookup_setitem_other by reflexivity).
  repeat match goal with
         | |- context [lookup _ (match ?x with Some _ => _ | None => _ end)] => destruct x
         | |- context [lookup _ (if ?b then _ else _)] => destruct b
         | |- _ => rewrite lookup_setitem_other by reflexivity
         end.
  all: reflexivity.
Qed.

Lemma request_form_idimdb client query imdb_id tvdb_id tmdb_id media_type season episode limit :
  lookup "idimdb"
    (request_form client query imdb_id tvdb_id tmdb_id media_type season episode limit)
  = match Main.clean_imdb_id imdb_id with
    | Some id => if String.eqb id "" then None else Some (PStr id)
    | None => None
    end.
Proof.
  unfold request_form, OrionoidClient.search_params, update; cbn [fold_left fst snd].
  generalize (Main.clean_imdb_id imdb_id) as cleaned.
  generalize (if Main.no_criteria query imdb_id tvdb_id tmdb_id then Some "The Matrix" else query) as query'.
  generalize (if Main.no_criteria query imdb_id tvdb_id tmdb_id then 1 else limit) as limit'.
  intros limit' query' cleaned.
  repeat (rewrite lookup_setitem_other by reflexivity).
  destruct season, episode; try destruct (String.eqb media_type "show");
    repeat (rewrite lookup_setitem_other by reflexivity);
    destruct (truthy_opt tmdb_id); repeat (rewrite lookup_setitem_other by reflexivity);
    destruct (truthy_opt tvdb_id); repeat (rewrite lookup_setitem_other by reflexivity);
    destruct cleaned as [id|]; simpl truthy_opt;
    try (destruct (String.eqb id ""); simpl negb);
    rewrite ?lookup_setitem_same;
    try reflexivity;
    destruct (truthy_opt query'); repeat (rewrite lookup_setitem_other by reflexivity);
    reflexivity.
Qed.

Lemma clean_imdb_id_tt (rest : string) :
  Main.clean_imdb_id (Some ("tt" ++ rest)) = Some rest.
Proof. reflexivity. Qed.

Lemma clean_imdb_id_spec (imdb_id : option string) :
  Main.clean_imdb_id imdb_id =
    match imdb_id with
    | Some id => Some (if startswith id "tt" then drop_chars 2 id else id)
    | None => None
    end.
Proof.
  destruct imdb_id as [id|]; [|reflexivity]. unfold Main.clean_imdb_id.
  destruct id as [|c id]; [reflexivity|]. simpl truthy_opt.
  destruct (startswith (String c id) "tt"); reflexivity.
Qed.

Lemma plain_bind {A B : Type} (c : result A) (k : A -> result B) :
  plain c -> (forall a, plain (k a)) -> plain (bind c k).
Proof. destruct c; simpl; auto. Qed.

Lemma plain_ok {A : Type} (a : A) : plain (Ok a).
Proof. exact I. Qed.

Lemma plain_exception {A : Type} (msg : string) : plain (@Raise A (Exception msg)).
Proof. reflexivity. Qed.

Lemma plain_py_get v k d : plain (py_get v k d).
Proof. destruct v; reflexivity || exact I. Qed.

Lemma plain_py_len v : plain (py_len v).
Proof. destruct v; reflexivity || exact I. Qed.

Lemma plain_py_iter v : plain (py_iter v).
Proof. destruct v; reflexivity || exact I. Qed.

Lemma plain_py_setitem v k x : plain (py_setitem v k x).
Proof. destruct v; reflexivity || exact I. Qed.

Lemma plain_xml_string v : plain (xml_string v).
Proof. destruct v; simpl; try reflexivity. destruct (xml_compatible s); reflexivity || exact I. Qed.

Lemma plain_set_attr e k v : plain (set_attr e k v).
Proof.
  destruct e. unfold set_attr. apply plain_bind; [apply plain_xml_string|intros; exact I].
Qed.

Lemma plain_tag_each media_type streams : plain (Main.tag_each media_type streams).
Proof.
  induction streams as [|x xs IH]; simpl; [exact I|].
  apply plain_bind; [apply plain_py_setitem|intros].
  apply plain_bind; [exact IH|intros; exact I].
Qed.

Ltac plain_steps :=
  repeat first
    [ exact I
    | reflexivity
    | apply plain_py_get | apply plain_py_len | apply plain_py_iter
    | apply plain_set_attr | apply plain_tag_each
    | apply plain_bind; [ | intros ]
    | match goal with
      | |- plain (if ?b then _ else _) => destruct b
      | |- plain (match ?x with Some _ => _ | None => _ end) => destruct x
      | |- plain (let 'Element _ _ _ _ := ?e in _) => destruct e
      end ].

Lemma plain_check_results body : plain (Main.check_results body).
Proof. unfold Main.check_results. plain_steps. Qed.

Lemma plain_add_streams collected found media_type :
  plain (Main.add_streams collected found media_type).
Proof. unfold Main.add_streams. plain_steps. Qed.

Lemma plain_combine_results m t : plain (Main.combine_results m t).
Proof.
  unfold Main.combine_results.
  apply plain_bind; [apply plain_add_streams|intros].
  apply plain_bind; [apply plain_add_streams|intros].
  destruct m, t; reflexivity || exact I.
Qed.

Lemma plain_build_search_results P payload query_type :
  plain (TorznabBuilder.build_search_results P payload query_type).
Proof. unfold TorznabBuilder.build_search_results. plain_steps. Qed.

Lemma plain_build_error code description : plain (TorznabBuilder.build_error code description).
Proof. unfold TorznabBuilder.build_error. plain_steps. Qed.

Lemma plain_transport e : is_http_exception (exn_of_transport e) = false.
Proof. destruct e; reflexivity. Qed.

Lemma plain_search_orionoid query imdb_id tvdb_id tmdb_id media_type season episode limit w s client :
  orion_client (globals s) = Some client ->
  plain (fst (Main.search_orionoid query imdb_id tvdb_id tmdb_id media_type season episode limit w s)).
Proof.
  intros Hclient. rewrite (search_orionoid_run _ _ _ _ _ _ _ _ w s client Hclient). cbv zeta.
  destruct (post w _ _) as [body|e]; simpl; [|apply plain_transport].
  pose proof (plain_check_results body) as Hp.
  destruct (Main.check_results body); simpl; [exact I|exact Hp].
Qed.

Lemma plain_general_search r limit w s client :
  orion_client (globals s) = Some client ->
  plain (fst (Main.general_search r limit w s)).
Proof.
  intros Hclient. destruct (truthy_opt (Main.cat r)) eqn:Hcat.
  - unfold Main.general_search. rewrite Hcat.
    apply (plain_search_orionoid _ _ _ _ _ _ _ _ w s client Hclient).
  - destruct (general_search_both r limit w s client Hclient Hcat) as [-> _].
    apply plain_combine_results.
Qed.

Lemma xml_compatible_app a b :
  xml_compatible (a ++ b) = xml_compatible a && xml_compatible b.
Proof.
  unfold xml_compatible. induction a as [|c a IH]; simpl; [reflexivity|].
  rewrite IH, andb_assoc. reflexivity.
Qed.

Lemma build_error_run code description :
  TorznabBuilder.build_error code description =
    if xml_compatible description then Ok (error_document code description)
    else Raise (Exception lxml_refusal).
Proof.
  unfold TorznabBuilder.build_error, set_attr, new_element, xml_string.
  rewrite xml_compatible_str_of_Z. cbn [bind].
  destruct (xml_compatible description); reflexivity.
Qed.

Lemma api_endpoint_handled P settings r w s :
  Main.api_endpoint P settings r w s =
    (handled (fst (Main.api_endpoint_body P settings r w s)),
     snd (Main.api_endpoint_body P settings r w s)).
Proof.
  unfold Main.api_endpoint, try_except.
  destruct (Main.api_endpoint_body P settings r w s) as [[response|e] s']; [reflexivity|].
  destruct e; simpl; unfold mbind, lift, raise, ret; try reflexivity;
    rewrite build_error_run; destruct (xml_compatible _); reflexivity.
Qed.

Lemma render_results_run P results query_type w s :
  Main.render_results P results query_type w s =
    (match TorznabBuilder.build_search_results P results query_type with
     | Ok doc => Ok (Main.Response doc "application/xml")
     | Raise e => Raise e
     end, s).
Proof.
  unfold Main.render_results, mbind, lift, ret.
  destruct (TorznabBuilder.build_search_results P results query_type); reflexivity.
Qed.

Lemma api_endpoint_body_caps P settings r w s :
  Main.t r = "caps" ->
  Main.api_endpoint_body P settings r w s =
    (Ok (Main.Response TorznabBuilder.build_capabilities "application/xml"), s).
Proof. intros H. unfold Main.api_endpoint_body. rewrite H. reflexivity. Qed.

Lemma api_endpoint_body_forbidden P settings r w s e :
  Main.t r <> "caps" ->
  Main.check_api_key settings (Main.apikey r) = Raise e ->
  Main.api_endpoint_body P settings r w s = (Raise e, s).
Proof.
  intros Ht Hkey. unfold Main.api_endpoint_body.
  destruct (String.eqb_spec (Main.t r) "caps"); [contradiction|].
  unfold mbind, lift. rewrite Hkey. reflexivity.
Qed.

Lemma api_endpoint_body_no_client P settings r w s :
  Main.t r <> "caps" ->
  Main.check_api_key settings (Main.apikey r) = Ok tt ->
  orion_client (globals s) = None ->
  Main.api_endpoint_body P settings r w s =
    (Raise (HTTPException 503 "Orionoid client not initialized"), s).
Proof.
  intros Ht Hkey Hclient. unfold Main.api_endpoint_body.
  destruct (String.eqb_spec (Main.t r) "caps"); [contradiction|].
  unfold mbind, lift, get_globals. rewrite Hkey, Hclient. reflexivity.
Qed.

Lemma api_endpoint_body_dispatch P settings r w s client :
  Main.t r <> "caps" ->
  Main.check_api_key settings (Main.apikey r) = Ok tt ->
  orion_client (globals s) = Some client ->
  Main.api_endpoint_body P settings r w s = dispatch P settings r w s.
Proof.
  intros Ht Hkey Hclient. unfold Main.api_endpoint_body, dispatch.
  destruct (String.eqb_spec (Main.t r) "caps"); [contradiction|].
  unfold mbind at 1, lift at 1. rewrite Hkey.
  unfold mbind at 1, get_globals. rewrite Hclient. reflexivity.
Qed.

Lemma mbind_render P (c : M value) query_type w s :
  mbind c (fun results => Main.render_results P results query_type) w s =
    (match fst (c w s) with
     | Ok results =>
         match TorznabBuilder.build_search_results P results query_type with
         | Ok doc => Ok (Main.Response doc "application/xml")
         | Raise e => Raise e
         end
     | Raise e => Raise e
     end, snd (c w s)).
Proof.
  unfold mbind. destruct (c w s) as [[results|e] s']; [|reflexivity].
  rewrite render_results_run. reflexivity.
Qed.

Lemma plain_dispatch P settings r w s client :
  orion_client (globals s) = Some client ->
  plain (fst (dispatch P settings r w s)).
Proof.
  intros Hclient. unfold dispatch. cbv zeta.
  destruct (String.eqb (Main.t r) "search");
    [|destruct (String.eqb (Main.t r) "tvsearch");
      [|destruct (String.eqb (Main.t r) "movie")]].
  - rewrite mbind_render. simpl.
    pose proof (plain_general_search r (Main.limit_results settings (Main.limit r)) w s client Hclient) as Hp.
    destruct (fst (Main.general_search _ _ w s)) as [results|e]; [|exact Hp].
    pose proof (plain_build_search_results P results (Main.t r)) as Hb.
    destruct (TorznabBuilder.build_search_results P results (Main.t r)); [exact I|exact Hb].
  - rewrite mbind_render. simpl.
    pose proof (plain_search_orionoid (Main.q r) (Main.imdbid r) (Main.tvdbid r) None "show"
                  (Main.season r) (Main.ep r) (Main.limit_results settings (Main.limit r))
                  w s client Hclient) as Hp.
    destruct (fst (Main.search_orionoid _ _ _ _ _ _ _ _ w s)) as [results|e]; [|exact Hp].
    pose proof (plain_build_search_results P results (Main.t r)) as Hb.
    destruct (TorznabBuilder.build_search_results P results (Main.t r)); [exact I|exact Hb].
  - rewrite mbind_render. simpl.
    pose proof (plain_search_orionoid (Main.q r) (Main.imdbid r) None (Main.tmdbid r) "movie"
                  None None (Main.limit_results settings (Main.limit r))
                  w s client Hclient) as Hp.
    destruct (fst (Main.search_orionoid _ _ _ _ _ _ _ _ w s)) as [results|e]; [|exact Hp].
    pose proof (plain_build_search_results P results (Main.t r)) as Hb.
    destruct (TorznabBuilder.build_search_results P results (Main.t r)); [exact I|exact Hb].
  - unfold mbind, lift, ret. rewrite build_error_run.
    destruct (xml_compatible _); reflexivity || exact I.
Qed.

(** ** Authentication *)

Lemma check_api_key_cases settings apikey :
  Main.check_api_key settings apikey = Ok tt \/
  Main.check_api_key settings apikey = Raise (HTTPException 403 "Invalid API key").
Proof. unfold Main.check_api_key. destruct (_ && _); auto. Qed.

Lemma api_endpoint_not_forbidden P settings r w s :
  Main.check_api_key settings (Main.apikey r) = Ok tt ->
  forall detail, fst (Main.api_endpoint P settings r w s) <> Raise (HTTPException 403 detail).
Proof.
  intros Hkey detail. rewrite api_endpoint_handled. cbn [fst].
  destruct (String.eqb_spec (Main.t r) "caps") as [Ht|Ht].
  - rewrite (api_endpoint_body_caps _ _ _ _ _ Ht). discriminate.
  - destruct (orion_client (globals s)) as [client|] eqn:Hclient.
    + rewrite (api_endpoint_body_dispatch _ _ _ _ _ client Ht Hkey Hclient).
      pose proof (plain_dispatch P settings r w s client Hclient) as Hp.
      destruct (fst (dispatch P settings r w s)) as [response|e]; [discriminate|].
      simpl in Hp. destruct e; try discriminate Hp; simpl;
        destruct (xml_compatible _); discriminate.
    + rewrite (api_endpoint_body_no_client _ _ _ _ _ Ht Hkey Hclient). discriminate.
Qed.

(** C8. The function [caps] is answered with the capabilities document
    whatever the key and the configured secret.  For every other function,
    when a (non-empty) secret is configured and the key of the request is
    not that secret, the request is rejected with status 403 and the process
    is left as it was: nothing was sent upstream, nothing rendered.  When no
    secret is configured (none, or the empty string), the key check passes
    for every key, the absent one included, and the request is never
    answered with 403. *)
Theorem api_key_is_checked_except_for_caps :
  forall (P : Platform) (settings : Settings) (r : Main.Request) (w : World) (s : State),
    (Main.t r = "caps" ->
     Main.api_endpoint P settings r w s =
       (Ok (Main.Response TorznabBuilder.build_capabilities "application/xml"), s)) /\
    (Main.t r <> "caps" ->
     forall secret,
       prowlarr_api_key settings = Some secret -> secret <> "" ->
       Main.apikey r <> Some secret ->
       Main.api_endpoint P settings r w s = (Raise (HTTPException 403 "Invalid API key"), s)) /\
    (truthy_opt (prowlarr_api_key settings) = false ->
     Main.check_api_key settings (Main.apikey r) = Ok tt /\
     forall detail,
       fst (Main.api_endpoint P settings r w s) <> Raise (HTTPException 403 detail)).
Proof.
  intros P settings r w s. repeat split.
  - intros Ht. rewrite api_endpoint_handled, (api_endpoint_body_caps _ _ _ _ _ Ht). reflexivity.
  - intros Ht secret Hsecret Hnonempty Hkey.
    assert (Hcheck : Main.check_api_key settings (Main.apikey r)
                     = Raise (HTTPException 403 "Invalid API key")).
    { unfold Main.check_api_key. rewrite Hsecret. simpl.
      destruct (String.eqb_spec secret ""); [contradiction|]. simpl.
      destruct (Main.apikey r) as [key|]; simpl; [|reflexivity].
      destruct (String.eqb_spec key secret); [subst; contradiction|reflexivity]. }
    rewrite api_endpoint_handled, (api_endpoint_body_forbidden _ _ _ _ _ _ Ht Hcheck).
    reflexivity.
  - unfold Main.check_api_key. rewrite H. reflexivity.
  - apply api_endpoint_not_forbidden. unfold Main.check_api_key. rewrite H. reflexivity.
Qed.

Lemma api_key_is_checked_except_for_caps_witness :
  Main.api_endpoint sample_platform secured_settings
    (request "caps" None None None (Some 100)) sample_world started_state
  = (Ok (Main.Response TorznabBuilder.build_capabilities "application/xml"), started_state) /\
  Main.api_endpoint sample_platform secured_settings
    (with_key "guess" (request "search" (Some "matrix") None None (Some 100)))
    sample_world started_state
  = (Raise (HTTPException 403 "Invalid API key"), started_state).
Proof.
  split.
  - exact (proj1 (api_key_is_checked_except_for_caps sample_platform secured_settings
                    (request "caps" None None None (Some 100)) sample_world started_state)
             eq_refl).
  - refine (proj1 (proj2 (api_key_is_checked_except_for_caps sample_platform secured_settings
                    (with_key "guess" (request "search" (Some "matrix") None None (Some 100)))
                    sample_world started_state)) _ "s3cret" eq_refl _ _); discriminate.
Defined.

(** ** Errors at the API boundary *)

Lemma dispatch_unknown P settings r w s :
  Main.t r <> "search" -> Main.t r <> "tvsearch" -> Main.t r <> "movie" ->
  dispatch P settings r w s =
    (if xml_compatible (Main.t r)
     then Ok (Main.Response
                (error_document 201 ("Incorrect parameter: unknown function '" ++ Main.t r ++ "'"))
                "application/xml")
     else Raise (Exception lxml_refusal), s).
Proof.
  intros H1 H2 H3. unfold dispatch. cbv zeta.
  destruct (String.eqb_spec (Main.t r) "search"); [contradiction|].
  destruct (String.eqb_spec (Main.t r) "tvsearch"); [contradiction|].
  destruct (String.eqb_spec (Main.t r) "movie"); [contradiction|].
  unfold mbind, lift, ret. rewrite build_error_run.
  rewrite !xml_compatible_app.
  change (xml_compatible "Incorrect parameter: unknown function '") with true.
  change (xml_compatible "'") with true.
  rewrite andb_true_r. cbn [andb].
  destruct (xml_compatible (Main.t r)); reflexivity.
Qed.

Lemma dispatch_response P settings r w s client response :
  orion_client (globals s) = Some client ->
  fst (dispatch P settings r w s) = Ok response ->
  exists doc, response = Main.Response doc "application/xml".
Proof.
  intros Hclient. unfold dispatch. cbv zeta.
  destruct (String.eqb (Main.t r) "search");
    [|destruct (String.eqb (Main.t r) "tvsearch");
      [|destruct (String.eqb (Main.t r) "movie")]];
    try (rewrite mbind_render; cbn [fst];
         match goal with
         | |- match fst ?c with _ => _ end = _ -> _ =>
             destruct (fst c) as [results|e]; [|discriminate];
             destruct (TorznabBuilder.build_search_results P results (Main.t r));
             [intros [= <-]; eauto|discriminate]
         end).
  unfold mbind, lift, ret. destruct (TorznabBuilder.build_error _ _); simpl;
    [intros [= <-]; eauto|discriminate].
Qed.

Lemma handled_response outcome response :
  handled outcome = Ok response ->
  outcome = Ok response \/
  exists e, outcome = Raise e /\
            response = Main.Response (error_document 100 (str_exn e)) "application/xml".
Proof.
  destruct outcome as [x|e]; simpl.
  - intros [= <-]. auto.
  - destruct e; try discriminate;
      (destruct (xml_compatible _); [intros [= <-]; right; eauto|discriminate]).
Qed.

Lemma handled_failure outcome e :
  plain outcome ->
  outcome = Raise e ->
  handled outcome =
    if xml_compatible (str_exn e)
    then Ok (Main.Response (error_document 100 (str_exn e)) "application/xml")
    else Raise (Exception lxml_refusal).
Proof. intros Hp ->. simpl in Hp. destruct e; try discriminate Hp; reflexivity. Qed.

Lemma dispatch_single_search P settings r w s client :
  Main.t r = "tvsearch" \/ Main.t r = "movie" ->
  orion_client (globals s) = Some client ->
  let form := single_search_form settings client r in
  sent (snd (dispatch P settings r w s)) = (sent s ++ [form])%list /\
  forall e, post w (List.length (sent s)) form = Failure e ->
            fst (dispatch P settings r w s) = Raise (exn_of_transport e).
Proof.
  intros Ht Hclient. cbv zeta. unfold dispatch, single_search_form. cbv zeta.
  destruct Ht as [Ht|Ht]; rewrite Ht; cbn [String.eqb Ascii.eqb Bool.eqb];
    rewrite mbind_render; cbn [fst snd];
    rewrite (search_orionoid_run _ _ _ _ _ _ _ _ w s client Hclient); cbv zeta.
  - split.
    + destruct (post w _ _) as [body|e]; [destruct (Main.check_results body)|]; reflexivity.
    + intros e ->. reflexivity.
  - split.
    + destruct (post w _ _) as [body|e]; [destruct (Main.check_results body)|]; reflexivity.
    + intros e ->. reflexivity.
Qed.

(** the answers to a request that gets past the three guards of [api_endpoint] *)
Lemma api_endpoint_with_client :
  forall (P : Platform) (settings : Settings) (r : Main.Request) (w : World) (s : State),
    (Main.t r = "caps" \/
     (Main.check_api_key settings (Main.apikey r) = Ok tt /\
      orion_client (globals s) <> None)) ->
    let outcome := fst (Main.api_endpoint P settings r w s) in
    let attempt := fst (Main.api_endpoint_body P settings r w s) in
    (forall status detail, outcome <> Raise (HTTPException status detail)) /\
    (forall response, outcome = Ok response ->
                      exists doc, response = Main.Response doc "application/xml") /\
    (Main.t r <> "caps" -> Main.t r <> "search" ->
     Main.t r <> "tvsearch" -> Main.t r <> "movie" ->
     xml_compatible (Main.t r) = true ->
     Main.api_endpoint P settings r w s =
       (Ok (Main.Response
              (error_document 201 ("Incorrect parameter: unknown function '" ++ Main.t r ++ "'"))
              "application/xml"), s)) /\
    (forall e, attempt = Raise e -> xml_compatible (str_exn e) = true ->
               outcome = Ok (Main.Response (error_document 100 (str_exn e)) "application/xml")) /\
    (forall client e,
        Main.t r = "tvsearch" \/ Main.t r = "movie" ->
        orion_client (globals s) = Some client ->
        post w (List.length (sent s)) (single_search_form settings client r) = Failure e ->
        attempt = Raise (exn_of_transport e)) /\
    (forall e, outcome = Raise e ->
               e = Exception lxml_refusal /\
               exists e0, attempt = Raise e0 /\ xml_compatible (str_exn e0) = false).
Proof.
  intros P settings r w s Hin. cbv zeta.
  rewrite api_endpoint_handled. cbn [fst].
  assert (Hplain : plain (fst (Main.api_endpoint_body P settings r w s)) /\
                   forall response, fst (Main.api_endpoint_body P settings r w s) = Ok response ->
                        exists doc, response = Main.Response doc "application/xml").
  { destruct (String.eqb_spec (Main.t r) "caps") as [Ht|Ht].
    - rewrite (api_endpoint_body_caps _ _ _ _ _ Ht). split; [exact I|].
      intros response [= <-]. eauto.
    - destruct Hin as [Hcaps|[Hkey Hclient]]; [contradiction|].
      destruct (orion_client (globals s)) as [client|] eqn:Hc; [|contradiction].
      rewrite (api_endpoint_body_dispatch _ _ _ _ _ client Ht Hkey Hc). split.
      + exact (plain_dispatch P settings r w s client Hc).
      + intros response. exact (dispatch_response P settings r w s client response Hc). }
  destruct Hplain as [Hplain Hbody].
  split; [|split; [|split; [|split; [|split]]]].
  - intros status detail.
    destruct (fst (Main.api_endpoint_body P settings r w s)) as [response|e]; [discriminate|].
    simpl in Hplain. destruct e; try discriminate Hplain; simpl;
      destruct (xml_compatible _); discriminate.
  - intros response Hresponse. apply handled_response in Hresponse as [Hok|(e & _ & ->)].
    + exact (Hbody response Hok).
    + eauto.
  - intros Ht H1 H2 H3 Hxml.
    destruct Hin as [Hcaps|[Hkey Hclient]]; [contradiction|].
    destruct (orion_client (globals s)) as [client|] eqn:Hc; [|contradiction].
    rewrite (api_endpoint_body_dispatch _ _ _ _ _ client Ht Hkey Hc).
    rewrite (dispatch_unknown P settings r w s H1 H2 H3), Hxml. reflexivity.
  - intros e He Hxml. rewrite (handled_failure _ e Hplain He), Hxml. reflexivity.
  - intros client e Ht Hc Hpost.
    assert (Hnot : Main.t r <> "caps") by (destruct Ht as [-> | ->]; discriminate).
    destruct Hin as [Hcaps|[Hkey _]]; [contradiction|].
    rewrite (api_endpoint_body_dispatch _ _ _ _ _ client Hnot Hkey Hc).
    exact (proj2 (dispatch_single_search P settings r w s client Ht Hc) e Hpost).
  - intros e He.
    destruct (fst (Main.api_endpoint_body P settings r w s)) as [response|e0] eqn:Hout;
      [discriminate|].
    rewrite (handled_failure _ e0 Hplain eq_refl) in He.
    destruct (xml_compatible (str_exn e0)) eqn:Hxml; [discriminate|].
    injection He as <-. split; [reflexivity|]. exists e0. split; [reflexivity|exact Hxml].
Qed.

(** C5 (amended). For a request that is for [caps] or passes the key check.
    While the client is not initialised, a request for any function but
    [caps] is rejected at the HTTP level with status 503.  Otherwise the
    request is never rejected at the HTTP level; every response is an XML
    body; an unknown function is answered with the error document 201 and
    nothing is sent upstream; a failure of the processing, an upstream
    failure of a [tvsearch] or [movie] search among them, is answered with
    the error document 100 that carries the message of the failure; all this
    for function names and messages that lxml accepts as attribute text.
    The one way to end without a body is a failure whose message lxml
    refuses. *)
Theorem api_endpoint_answers_in_xml :
  forall (P : Platform) (settings : Settings) (r : Main.Request) (w : World) (s : State),
    Main.t r = "caps" \/ Main.check_api_key settings (Main.apikey r) = Ok tt ->
    let outcome := fst (Main.api_endpoint P settings r w s) in
    let attempt := fst (Main.api_endpoint_body P settings r w s) in
    (Main.t r <> "caps" -> orion_client (globals s) = None ->
     Main.api_endpoint P settings r w s =
       (Raise (HTTPException 503 "Orionoid client not initialized"), s)) /\
    (Main.t r = "caps" \/ orion_client (globals s) <> None ->
     (forall status detail, outcome <> Raise (HTTPException status detail)) /\
     (forall response, outcome = Ok response ->
                       exists doc, response = Main.Response doc "application/xml") /\
     (Main.t r <> "caps" -> Main.t r <> "search" ->
      Main.t r <> "tvsearch" -> Main.t r <> "movie" ->
      xml_compatible (Main.t r) = true ->
      Main.api_endpoint P settings r w s =
        (Ok (Main.Response
               (error_document 201 ("Incorrect parameter: unknown function '" ++ Main.t r ++ "'"))
               "application/xml"), s)) /\
     (forall e, attempt = Raise e -> xml_compatible (str_exn e) = true ->
                outcome = Ok (Main.Response (error_document 100 (str_exn e)) "application/xml")) /\
     (forall client e,
         Main.t r = "tvsearch" \/ Main.t r = "movie" ->
         orion_client (globals s) = Some client ->
         post w (List.length (sent s)) (single_search_form settings client r) = Failure e ->
         attempt = Raise (exn_of_transport e)) /\
     (forall e, outcome = Raise e ->
                e = Exception lxml_refusal /\
                exists e0, attempt = Raise e0 /\ xml_compatible (str_exn e0) = false)).
Proof.
  intros P settings r w s Hauth. cbv zeta. split.
  - intros Ht Hclient.
    destruct Hauth as [Hcaps|Hkey]; [contradiction|].
    rewrite api_endpoint_handled, (api_endpoint_body_no_client _ _ _ _ _ Ht Hkey Hclient).
    reflexivity.
  - intros Hready.
    apply (api_endpoint_with_client P settings r w s).
    destruct Hready as [Hcaps|Hclient]; [left; exact Hcaps|].
    destruct Hauth as [Hcaps|Hkey]; [left; exact Hcaps|right; split; assumption].
Qed.

Lemma api_endpoint_answers_in_xml_witness :
  Main.api_endpoint sample_platform (default_settings "user")
    (request "bogus" None None None (Some 100)) sample_world started_state
  = (Ok (Main.Response
           (error_document 201 "Incorrect parameter: unknown function 'bogus'")
           "application/xml"), started_state).
Proof.
  refine (proj1 (proj2 (proj2
            (proj2 (api_endpoint_answers_in_xml sample_platform (default_settings "user")
                      (request "bogus" None None None (Some 100)) sample_world started_state
                      (or_intror eq_refl))
               (or_intror _)))) _ _ _ _ eq_refl); discriminate.
Defined.

(** C5, as the specification states it, fails: while the client is not
    initialised, a request that passes authentication is rejected at the
    HTTP level with status 503, whatever its function; an unknown function
    gets no error document then. *)
Lemma unknown_function_without_client :
  Main.check_api_key (default_settings "user") None = Ok tt /\
  Main.api_endpoint sample_platform (default_settings "user")
    (request "bogus" None None None (Some 100)) sample_world unstarted_state
  = (Raise (HTTPException 503 "Orionoid client not initialized"), unstarted_state).
Proof. split; reflexivity. Qed.

(** a failure whose message lxml refuses leaves [api_endpoint] as an
    exception, which the server answers with status 500 *)
Example failure_with_control_character :
  fst (Main.api_endpoint sample_platform (default_settings "user")
         (request "movie" (Some "matrix") None None (Some 100)) garbled_world started_state)
  = Raise (Exception lxml_refusal).
Proof. reflexivity. Qed.

(** ** Routing of [search] *)






(** a category parameter that is present and empty is treated as an absent one *)
Example combined_search_for_empty_category :
  map (lookup "type")
    (sent (snd (Main.api_endpoint sample_platform (default_settings "user")
                  (request "search" (Some "matrix") (Some "") None (Some 100))
                  sample_world started_state)))
  = [Some (PStr "movie"); Some (PStr "show")].
Proof. reflexivity. Qed.

(** ** The result limit *)

Lemma api_endpoint_single_search P settings r w s client :
  Main.t r = "tvsearch" \/ Main.t r = "movie" ->
  Main.check_api_key settings (Main.apikey r) = Ok tt ->
  orion_client (globals s) = Some client ->
  sent (snd (Main.api_endpoint P settings r w s))
  = (sent s ++ [single_search_form settings client r])%list.
Proof.
  intros Ht Hkey Hclient.
  assert (Hnot : Main.t r <> "caps") by (destruct Ht as [-> | ->]; discriminate).
  rewrite api_endpoint_handled, (api_endpoint_body_dispatch _ _ _ _ _ client Hnot Hkey Hclient).
  exact (proj1 (dispatch_single_search P settings r w s client Ht Hclient)).
Qed.

Lemma single_search_form_limitcount settings client r :
  lookup "limitcount" (single_search_form settings client r) =
    Some (PInt (if (if String.eqb (Main.t r) "tvsearch"
                    then Main.no_criteria (Main.q r) (Main.imdbid r) (Main.tvdbid r) None
                    else Main.no_criteria (Main.q r) (Main.imdbid r) None (Main.tmdbid r))
                then 1 else Main.limit_results settings (Main.limit r))).
Proof.
  unfold single_search_form.
  destruct (String.eqb (Main.t r) "tvsearch"); apply request_form_limitcount.
Qed.

(** C3 (amended). With a default and a maximum limit of at least 1: an absent
    or zero limit is replaced by the default limit, capped at the maximum; a
    limit that is not negative gives a limit within [1, maxSearchLimit]; a
    negative limit is kept as it is; and the limit so computed is the one a
    [tvsearch] or [movie] request with a query or an IMDb id sends
    upstream. *)
Theorem limit_is_capped :
  forall (settings : Settings) (limit : option Z),
    1 <= default_search_limit settings ->
    1 <= max_search_limit settings ->
    let sent_limit := Main.limit_results settings limit in
    (limit = None \/ limit = Some 0 ->
     sent_limit = Z.min (default_search_limit settings) (max_search_limit settings)) /\
    ((forall n, limit = Some n -> 0 <= n) ->
     1 <= sent_limit <= max_search_limit settings) /\
    (forall n, limit = Some n -> n < 0 -> sent_limit = n) /\
    (forall (P : Platform) (r : Main.Request) (w : World) (s : State) (client : Client),
        Main.limit r = limit ->
        Main.t r = "tvsearch" \/ Main.t r = "movie" ->
        Main.check_api_key settings (Main.apikey r) = Ok tt ->
        orion_client (globals s) = Some client ->
        truthy_opt (Main.q r) = true \/ truthy_opt (Main.imdbid r) = true ->
        exists form,
          sent (snd (Main.api_endpoint P settings r w s)) = (sent s ++ [form])%list /\
          lookup "limitcount" form = Some (PInt sent_limit)).
Proof.
  intros settings limit Hdefault Hmax. cbv zeta. unfold Main.limit_results.
  repeat split.
  - intros [-> | ->]; reflexivity.
  - destruct limit as [n|]; [|lia].
    specialize (H n eq_refl). destruct (Z.eqb_spec n 0); lia.
  - destruct limit as [n|]; [|lia].
    specialize (H n eq_refl). destruct (Z.eqb_spec n 0); lia.
  - intros n -> Hn. destruct (Z.eqb_spec n 0); lia.
  - intros P r w s client Hlimit Ht Hkey Hclient Hcriteria.
    exists (single_search_form settings client r). split.
    + exact (api_endpoint_single_search P settings r w s client Ht Hkey Hclient).
    + rewrite single_search_form_limitcount. unfold Main.limit_results. rewrite Hlimit.
      assert (Hsome : forall a b, Main.no_criteria (Main.q r) (Main.imdbid r) a b = false).
      { intros a b. unfold Main.no_criteria.
        destruct Hcriteria as [-> | ->]; rewrite ?orb_true_r; reflexivity. }
      rewrite !Hsome. destruct (String.eqb (Main.t r) "tvsearch"); reflexivity.
Qed.

Lemma limit_is_capped_witness :
  Main.limit_results (default_settings "user") (Some 5000) = 1000 /\
  Main.limit_results (default_settings "user") (Some 0) = 100 /\
  Main.limit_results (default_settings "user") None = 100.
Proof.
  pose proof (limit_is_capped (default_settings "user") (Some 5000)
                ltac:(simpl; lia) ltac:(simpl; lia)) as H5000.
  pose proof (limit_is_capped (default_settings "user") (Some 0)
                ltac:(simpl; lia) ltac:(simpl; lia)) as H0.
  pose proof (limit_is_capped (default_settings "user") None
                ltac:(simpl; lia) ltac:(simpl; lia)) as Hnone.
  cbv zeta in H5000, H0, Hnone.
  split; [reflexivity|]. split.
  - exact (proj1 H0 (or_intror eq_refl)).
  - exact (proj1 Hnone (or_introl eq_refl)).
Defined.

(** C3, as the specification states it, fails: a negative limit is neither
    replaced by the default nor raised to 1; it is sent upstream as it is. *)
Lemma negative_limit_is_sent :
  map (lookup "limitcount")
    (sent (snd (Main.api_endpoint sample_platform (default_settings "user")
                  (request "movie" (Some "matrix") None None (Some (-5)))
                  sample_world started_state)))
  = [Some (PInt (-5))].
Proof. reflexivity. Qed.

(** the two halves of a combined search for one result have limit zero *)
Example half_of_limit_one :
  map (lookup "limitcount")
    (sent (snd (Main.api_endpoint sample_platform (default_settings "user")
                  (request "search" (Some "matrix") None None (Some 1))
                  sample_world started_state)))
  = [Some (PInt 0); Some (PInt 0)].
Proof. reflexivity. Qed.

(** ** IMDb identifiers *)

(** C9 (amended). The IMDb id sent upstream is the id of the request without
    its leading "tt", when it has one, and the id as it is otherwise; no id
    is sent when the request has none or when what would be sent is
    empty. *)
Theorem imdb_id_sent_upstream :
  forall (query imdb_id tvdb_id tmdb_id : option string) (media_type : string)
         (season episode : option Z) (limit : Z) (w : World) (s : State) (client : Client),
    orion_client (globals s) = Some client ->
    exists form,
      sent (snd (Main.search_orionoid query imdb_id tvdb_id tmdb_id media_type
                   season episode limit w s)) = (sent s ++ [form])%list /\
      lookup "idimdb" form =
        match imdb_id with
        | Some id =>
            let bare := if startswith id "tt" then drop_chars 2 id else id in
            if String.eqb bare "" then None else Some (PStr bare)
        | None => None
        end.
Proof.
  intros query imdb_id tvdb_id tmdb_id media_type season episode limit w s client Hclient.
  eexists. split.
  - exact (proj1 (search_orionoid_sent query imdb_id tvdb_id tmdb_id media_type season
                    episode limit w s client Hclient)).
  - rewrite request_form_idimdb, clean_imdb_id_spec. destruct imdb_id; reflexivity.
Qed.

Lemma imdb_id_sent_upstream_witness :
  map (lookup "idimdb")
    (sent (snd (Main.search_orionoid None (Some "tt0133093") None None "movie" None None 100
                  sample_world started_state)))
  = [Some (PStr "0133093")].
Proof.
  destruct (imdb_id_sent_upstream None (Some "tt0133093") None None "movie" None None 100
              sample_world started_state
              (OrionoidClient.__init__ "WYC8JEBTCABDCB6SDNNGMJHP8AVSBEHV" "user") eq_refl)
    as (form & Hsent & Hid).
  rewrite Hsent. simpl. rewrite Hid. reflexivity.
Defined.

(** C9, as the specification states it, fails: only the prefix "tt" is
    removed; an identifier with another two-letter prefix is sent as it is. *)
Lemma other_prefix_is_not_stripped :
  map (lookup "idimdb")
    (sent (snd (Main.search_orionoid None (Some "nm0000123") None None "movie" None None 100
                  sample_world started_state)))
  = [Some (PStr "nm0000123")] /\
  drop_chars 2 "nm0000123" = "0000123".
Proof. split; reflexivity. Qed.

Example imdb_id_without_prefix :
  map (lookup "idimdb")
    (sent (snd (Main.search_orionoid None (Some "0133093") None None "movie" None None 100
                  sample_world started_state)))
  = [Some (PStr "0133093")].
Proof. reflexivity. Qed.

Example imdb_id_empty :
  map (lookup "idimdb")
    (sent (snd (Main.search_orionoid (Some "matrix") (Some "") None None "movie" None None 100
                  sample_world started_state)))
  = [None].
Proof. reflexivity. Qed.

(** ** The health cache *)

Section Keeping.
Context {X : Type} (f : Globals -> X).

Lemma keeps_ret {A : Type} (a : A) : keeps f (ret a).
Proof. intros w s. reflexivity. Qed.

Lemma keeps_raise {A : Type} (e : exn) : keeps f (@raise A e).
Proof. intros w s. reflexivity. Qed.

Lemma keeps_lift {A : Type} (r : result A) : keeps f (lift r).
Proof. intros w s. reflexivity. Qed.

Lemma keeps_now : keeps f now.
Proof. intros w s. reflexivity. Qed.

Lemma keeps_get_globals : keeps f get_globals.
Proof. intros w s. reflexivity. Qed.

Lemma keeps_http_post form : keeps f (http_post form).
Proof. intros w s. reflexivity. Qed.

Lemma keeps_mbind {A B : Type} (c : M A) (k : A -> M B) :
  keeps f c -> (forall a, keeps f (k a)) -> keeps f (mbind c k).
Proof.
  intros Hc Hk w s. unfold mbind. specialize (Hc w s).
  destruct (c w s) as [[a|e] s']; simpl in *; [|exact Hc].
  rewrite (Hk a w s'). exact Hc.
Qed.

Lemma keeps_try_except {A : Type} (c : M A) (h : exn -> M A) :
  keeps f c -> (forall e, keeps f (h e)) -> keeps f (try_except c h).
Proof.
  intros Hc Hh w s. unfold try_except. specialize (Hc w s).
  destruct (c w s) as [[a|e] s']; simpl in *; [exact Hc|].
  rewrite (Hh e w s'). exact Hc.
Qed.

End Keeping.

Ltac keeps_steps :=
  repeat first
    [ apply keeps_ret | apply keeps_raise | apply keeps_lift | apply keeps_now
    | apply keeps_get_globals | apply keeps_http_post
    | apply keeps_mbind; [ | intros ]
    | apply keeps_try_except; [ | intros ]
    | match goal with
      | |- keeps _ (if ?b then _ else _) => destruct b
      | |- keeps _ (match ?x with Some _ => _ | None => _ end) => destruct x
      | |- keeps _ (let '(_, _) := ?x in _) => destruct x
      end ].

Lemma keeps_client_health_check {X : Type} (f : Globals -> X) client :
  keeps f (OrionoidClient.health_check client).
Proof.
  unfold OrionoidClient.health_check, OrionoidClient.health_check_body,
    OrionoidClient.elapsed_ms, OrionoidClient.get_user_info, OrionoidClient._make_request.
  keeps_steps.
Qed.

Lemma keeps_upstream_checks {X : Type} (f : Globals -> X) client orionoid_check auth_check :
  keeps f (Main.upstream_checks client orionoid_check auth_check).
Proof.
  unfold Main.upstream_checks.
  apply keeps_mbind; [apply keeps_client_health_check|intros].
  keeps_steps.
Qed.

Lemma keeps_cached_result {X : Type} (f : Globals -> X) force :
  keeps f (Main.cached_result force).
Proof. unfold Main.cached_result. keeps_steps. Qed.

Lemma caches_mbind {A : Type} (c : M A) (k : A -> M Main.HttpResponse) :
  keeps (fun g => g) c ->
  (forall a, caches_what_it_returns (k a)) ->
  caches_what_it_returns (mbind c k).
Proof.
  intros Hc Hk w s. unfold mbind. specialize (Hc w s).
  destruct (c w s) as [[a|e] s']; simpl in *; [|left; exact Hc].
  rewrite <- Hc. exact (Hk a w s').
Qed.

Lemma caches_respond P settings overall_status checks uptime :
  caches_what_it_returns (Main.respond P settings overall_status checks uptime).
Proof.
  intros w s. unfold Main.respond, mbind, now, get_globals, put_globals, ret.
  destruct (String.eqb overall_status "unhealthy") eqn:E; simpl.
  - left. reflexivity.
  - right. eexists. eexists. split; [reflexivity|]. split; [|reflexivity].
    split; [|reflexivity].
    exists overall_status. split; [reflexivity|].
    intros ->. discriminate E.
Qed.

Lemma caches_fresh_health_check P settings :
  caches_what_it_returns (Main.fresh_health_check P settings).
Proof.
  unfold Main.fresh_health_check.
  apply caches_mbind; [keeps_steps|intros start_time].
  apply caches_mbind; [keeps_steps|intros g].
  cbv zeta.
  apply caches_mbind; [keeps_steps|intros last_checked].
  apply caches_mbind.
  { destruct (orion_client g); [|keeps_steps].
    apply keeps_try_except; [apply keeps_upstream_checks|intros; keeps_steps]. }
  intros [[orionoid_check auth_check] overall_status].
  apply caches_mbind; [keeps_steps|intros search_check].
  apply caches_mbind; [keeps_steps|intros any_unhealthy].
  apply caches_mbind; [keeps_steps|intros any_degraded].
  apply caches_mbind; [keeps_steps|intros uptime].
  apply caches_respond.
Qed.

Lemma caches_keeps (c : M Main.HttpResponse) :
  keeps (fun g => g) c -> caches_what_it_returns c.
Proof. intros Hc w s. left. exact (Hc w s). Qed.

Lemma caches_health_check P settings force :
  caches_what_it_returns (Main.health_check P settings force).
Proof.
  unfold Main.health_check.
  apply caches_mbind; [apply keeps_cached_result|intros [cache|]].
  - apply caches_keeps. keeps_steps.
  - apply caches_fresh_health_check.
Qed.

(** an update of the globals that leaves [f] of them as it is *)
Lemma keeps_update {X A : Type} (f : Globals -> X) (u : Globals -> Globals) (k : unit -> M A) :
  (forall g, f (u g) = f g) ->
  (forall x, keeps f (k x)) ->
  keeps f (mbind get_globals (fun g => mbind (put_globals (u g)) k)).
Proof.
  intros Hu Hk w s. unfold mbind, get_globals, put_globals. cbn [fst snd].
  rewrite (Hk tt w _). cbn [globals]. apply Hu.
Qed.

Lemma keeps_search_orionoid query imdb_id tvdb_id tmdb_id media_type season episode limit :
  keeps cache_of
    (Main.search_orionoid query imdb_id tvdb_id tmdb_id media_type season episode limit).
Proof.
  unfold Main.search_orionoid. cbv zeta.
  apply keeps_mbind; [apply keeps_get_globals|intros g].
  destruct (orion_client g); [|apply keeps_raise].
  apply keeps_mbind; [unfold OrionoidClient.search_streams, OrionoidClient._make_request;
                      apply keeps_http_post|intros results].
  apply keeps_mbind; [apply keeps_lift|intros _].
  apply keeps_mbind; [apply keeps_now|intros now_].
  apply (keeps_update cache_of
           (fun g => {| orion_client := orion_client g;
                        startup_time := startup_time g;
                        last_successful_search := Some now_;
                        health_check_cache := health_check_cache g;
                        health_check_cache_time := health_check_cache_time g |})).
  - reflexivity.
  - intros _. apply keeps_ret.
Qed.

Lemma keeps_general_search r limit : keeps cache_of (Main.general_search r limit).
Proof.
  unfold Main.general_search, Main.tolerated_search.
  destruct (truthy_opt (Main.cat r)); [apply keeps_search_orionoid|].
  repeat first [ apply keeps_search_orionoid | apply keeps_ret | apply keeps_lift
               | apply keeps_mbind; [ | intros ]
               | apply keeps_try_except; [ | intros ] ].
Qed.

Lemma keeps_api_endpoint P settings r : keeps cache_of (Main.api_endpoint P settings r).
Proof.
  unfold Main.api_endpoint, Main.api_endpoint_body, Main.render_results.
  repeat first [ apply keeps_search_orionoid | apply keeps_general_search
               | apply keeps_ret | apply keeps_lift | apply keeps_raise
               | apply keeps_get_globals
               | apply keeps_mbind; [ | intros ]
               | apply keeps_try_except; [ | intros ]
               | match goal with
                 | |- keeps _ (if ?b then _ else _) => destruct b
                 | |- keeps _ (match ?x with Some _ => _ | None => _ end) => destruct x
                 | |- keeps _ (match ?e with HTTPException _ _ => _ | _ => _ end) => destruct e
                 end ].
Qed.

Lemma keeps_lifespan_startup settings : keeps cache_of (Main.lifespan_startup settings).
Proof.
  intros w s. unfold Main.lifespan_startup, mbind, get_globals, now, put_globals,
    try_except, OrionoidClient.get_user_info, OrionoidClient._make_request, http_post, ret.
  cbn [fst snd globals sent ticks].
  destruct (post w _ _); reflexivity.
Qed.

Lemma cache_ok_keeps g g' : cache_of g' = cache_of g -> cache_ok g -> cache_ok g'.
Proof. unfold cache_of, cache_ok. intros [= -> _]. auto. Qed.

Lemma reachable_cache_ok P settings w s : reachable P settings w s -> cache_ok (globals s).
Proof.
  induction 1 as [s Hs|s _ IH|s force _ IH|s r _ IH].
  - rewrite Hs. exact I.
  - exact (cache_ok_keeps _ _ (keeps_lifespan_startup settings w s) IH).
  - destruct (caches_health_check P settings force w s) as [Hsame|(content & time & _ & Hc & Hg)].
    + rewrite Hsame. exact IH.
    + rewrite Hg. exact Hc.
  - exact (cache_ok_keeps _ _ (keeps_api_endpoint P settings r w s) IH).
Qed.

Lemma cacheable_truthy content : cacheable content -> truthy content = true.
Proof.
  intros [(status & Hstatus & _) _]. destruct content; try discriminate.
  destruct d; [discriminate|reflexivity].
Qed.

Lemma cached_result_forced w s : Main.cached_result true w s = (Ok None, s).
Proof. reflexivity. Qed.

Lemma cached_result_hit w s cache cache_time :
  health_check_cache (globals s) = Some cache ->
  health_check_cache_time (globals s) = Some cache_time ->
  truthy cache = true ->
  truthy_Q cache_time = true ->
  Main.Qlt_bool (clock w (ticks s) - cache_time) 30 = true ->
  Main.cached_result false w s = (Ok (Some cache), ticked s).
Proof.
  intros Hcache Htime Hc Ht Hage.
  unfold Main.cached_result, mbind, get_globals, now, ret. cbn [negb fst snd].
  rewrite Hcache, Htime, Hc, Ht. cbn [andb]. rewrite Hage. reflexivity.
Qed.

(** what [cached_result] returns is what is cached *)
Lemma cached_result_some force w s cache :
  fst (Main.cached_result force w s) = Ok (Some cache) ->
  health_check_cache (globals s) = Some cache.
Proof.
  unfold Main.cached_result, mbind, get_globals, now, ret. cbn [fst snd].
  destruct force; cbn [negb]; [discriminate|].
  destruct (health_check_cache (globals s)) as [c|]; [|discriminate].
  destruct (health_check_cache_time (globals s)) as [t|]; [|discriminate].
  destruct (truthy c && truthy_Q t); [|discriminate]. cbn [fst].
  destruct (Main.Qlt_bool _ _); [intros [= <-]; reflexivity|discriminate].
Qed.

Lemma cached_result_outcome force w s :
  exists hit, fst (Main.cached_result force w s) = Ok hit.
Proof.
  unfold Main.cached_result, mbind, get_globals, now, ret. cbn [fst snd].
  destruct (negb force); [|eexists; reflexivity].
  destruct (health_check_cache (globals s)) as [c|]; [|eexists; reflexivity].
  destruct (health_check_cache_time (globals s)) as [t|]; [|eexists; reflexivity].
  destruct (truthy c && truthy_Q t); eexists; reflexivity.
Qed.

(** a miss stays a miss while the cache stays the same and the clock does not run backwards *)
Lemma cached_result_miss_later w s s2 :
  fst (Main.cached_result false w s) = Ok None ->
  cache_of (globals s2) = cache_of (globals s) ->
  (clock w (ticks s) <= clock w (ticks s2))%Q ->
  fst (Main.cached_result false w s2) = Ok None.
Proof.
  unfold cache_of. intros Hmiss [= Hcache Htime] Hclock. revert Hmiss.
  unfold Main.cached_result, mbind, get_globals, now, ret. cbn [negb fst snd].
  rewrite Hcache, Htime.
  destruct (health_check_cache (globals s)) as [c|]; [|reflexivity].
  destruct (health_check_cache_time (globals s)) as [t|]; [|reflexivity].
  destruct (truthy c && truthy_Q t); [|reflexivity]. cbn [fst].
  unfold Main.Qlt_bool.
  destruct (Qle_bool 30 (clock w (ticks s) - t)) eqn:E; cbn [negb]; [intros _|discriminate].
  apply Qle_bool_iff in E.
  assert (E2 : Qle_bool 30 (clock w (ticks s2) - t) = true) by (apply Qle_bool_iff; lra).
  rewrite E2. reflexivity.
Qed.

Lemma health_check_run P settings force w s :
  Main.health_check P settings force w s =
    match Main.cached_result force w s with
    | (Ok (Some cache), s') =>
        (match py_getitem cache "_status_code" with
         | Ok code => Ok (Main.JSONResponse cache code)
         | Raise e => Raise e
         end, s')
    | (Ok None, s') => Main.fresh_health_check P settings w s'
    | (Raise e, s') => (Raise e, s')
    end.
Proof.
  unfold Main.health_check, mbind at 1.
  destruct (Main.cached_result force w s) as [[[cache|]|e] s']; try reflexivity.
  unfold mbind, lift, ret. destruct (py_getitem cache "_status_code"); reflexivity.
Qed.

Lemma unhealthy_is_not_cacheable content :
  status_of content = Some (PStr "unhealthy") -> ~ cacheable content.
Proof.
  intros Hs [(status & Hstatus & Hne) _]. rewrite Hs in Hstatus.
  injection Hstatus as <-. contradiction.
Qed.

(** C6 (amended). In every state the process can reach: an unforced call made
    while a result is cached (at a time other than the epoch) and less than
    30 seconds old returns the cached result with status code 200, the code
    it was first returned with, and does nothing but read the clock; a
    forced call always recomputes; a call changes the globals only by
    caching the result it returns, and only a result whose status is not
    "unhealthy", returned with code 200; an unhealthy result is not cached
    and leaves the cache as it was, so that after an unhealthy result of an
    unforced call every later unforced call rechecks for as long as the
    cache stays as it is and the clock does not run backwards. *)
Theorem health_cache :
  forall (P : Platform) (settings : Settings) (w : World) (s : State) (force : bool),
    reachable P settings w s ->
    let out := Main.health_check P settings force w s in
    (forall cache cache_time,
        force = false ->
        health_check_cache (globals s) = Some cache ->
        health_check_cache_time (globals s) = Some cache_time ->
        truthy_Q cache_time = true ->
        Main.Qlt_bool (clock w (ticks s) - cache_time) 30 = true ->
        out = (Ok (Main.JSONResponse cache (PInt 200)), ticked s)) /\
    (force = true -> out = Main.fresh_health_check P settings w s) /\
    (globals (snd out) = globals s \/
     exists content time,
       fst out = Ok (Main.JSONResponse content (PInt 200)) /\
       cacheable content /\
       globals (snd out) = store (globals s) content time) /\
    (forall content code,
        fst out = Ok (Main.JSONResponse content code) ->
        status_of content = Some (PStr "unhealthy") ->
        globals (snd out) = globals s /\
        (force = false ->
         forall s2,
           cache_of (globals s2) = cache_of (globals (snd out)) ->
           (clock w (ticks s) <= clock w (ticks s2))%Q ->
           fst (Main.cached_result false w s2) = Ok None)).
Proof.
  intros P settings w s force Hreach. cbv zeta.
  pose proof (reachable_cache_ok P settings w s Hreach) as Hok.
  pose proof (caches_health_check P settings force w s) as Hcaches.
  split; [|split; [|split]].
  - intros cache cache_time -> Hcache Htime Ht Hage.
    unfold cache_ok in Hok. rewrite Hcache in Hok.
    rewrite health_check_run,
      (cached_result_hit w s cache cache_time Hcache Htime (cacheable_truthy _ Hok) Ht Hage).
    rewrite (proj2 Hok). reflexivity.
  - intros ->. rewrite health_check_run, cached_result_forced. reflexivity.
  - exact Hcaches.
  - intros content code Hout Hunhealthy.
    assert (Hsame : globals (snd (Main.health_check P settings force w s)) = globals s).
    { destruct Hcaches as [Hsame|(content' & time & Hout' & Hc & _)]; [exact Hsame|].
      rewrite Hout in Hout'. injection Hout' as <- _.
      destruct (unhealthy_is_not_cacheable _ Hunhealthy Hc). }
    split; [exact Hsame|].
    intros -> s2 Hcache Hclock. rewrite Hsame in Hcache.
    apply (cached_result_miss_later w s s2); [|exact Hcache|exact Hclock].
    destruct (cached_result_outcome false w s) as [[cache|] Hhit]; [|exact Hhit].
    exfalso.
    pose proof (cached_result_some false w s cache Hhit) as Hcached.
    unfold cache_ok in Hok. rewrite Hcached in Hok.
    rewrite health_check_run in Hout.
    destruct (Main.cached_result false w s) as [r s']. cbn [fst] in Hhit. subst r.
    rewrite (proj2 Hok) in Hout. cbn [fst] in Hout. injection Hout as <- _.
    exact (unhealthy_is_not_cacheable _ Hunhealthy Hok).
Qed.

Lemma reachable_after_first_check :
  reachable sample_platform (default_settings "user") failing_world after_first_check.
Proof.
  apply reach_health, reach_startup, reach_start. reflexivity.
Defined.

Lemma health_cache_witness :
  fst (Main.health_check sample_platform (default_settings "user") false failing_world
         after_first_check)
  = fst (Main.health_check sample_platform (default_settings "user") false failing_world
           after_startup) /\
  sent (snd (Main.health_check sample_platform (default_settings "user") false failing_world
               after_first_check)) = sent after_first_check.
Proof.
  pose proof (proj1 (health_cache sample_platform (default_settings "user") failing_world
                       after_first_check false reachable_after_first_check)
                _ (8 # 1)%Q eq_refl eq_refl eq_refl eq_refl eq_refl) as H.
  rewrite H. split; reflexivity.
Defined.

(** C6, as the specification states it, fails: an unhealthy result of a
    forced call leaves the older cached result in place, and the next
    unforced call returns that cached result without any recheck. *)
Lemma cache_served_after_unhealthy_result :
  option_map status_of
    (content_of (fst (Main.health_check sample_platform (default_settings "user") true
                        failing_world after_first_check)))
  = Some (Some (PStr "unhealthy")) /\
  fst (Main.health_check sample_platform (default_settings "user") false failing_world
         after_forced_check)
  = fst (Main.health_check sample_platform (default_settings "user") false failing_world
           after_startup) /\
  sent (snd (Main.health_check sample_platform (default_settings "user") false failing_world
               after_forced_check)) = sent after_forced_check.
Proof. repeat split; vm_compute; reflexivity. Qed.

(** * Further properties of the code *)

(** ** The layout of an item *)

Lemma py_get_get_or v k default x : py_get v k default = Ok x -> get_or v k default = x.
Proof. unfold get_or. intros ->. reflexivity. Qed.

Lemma xml_string_inv v s : xml_string v = Ok s -> v = PStr s.
Proof.
  destruct v; simpl; try discriminate.
  destruct (xml_compatible s0); [intros [= <-]; reflexivity|discriminate].
Qed.

Lemma set_attr_inv t a x c k v e :
  set_attr (Element t a x c) k v = Ok e ->
  exists s, v = PStr s /\ e = Element t (attrib_set k s a) x c.
Proof.
  unfold set_attr. intros H. apply bind_inv in H as (s & Hs & [= <-]).
  exists s. split; [exact (xml_string_inv v s Hs)|reflexivity].
Qed.

Lemma set_text_inv t a x c v e :
  set_text (Element t a x c) v = Ok e ->
  (v = PNone \/ exists s, v = PStr s) /\ e = Element t a (text_value v) c.
Proof.
  unfold set_text. destruct v; simpl; try discriminate.
  - intros [= <-]. auto.
  - destruct (xml_compatible s); simpl; [intros [= <-]; eauto|discriminate].
Qed.

Lemma sub_text_inv t a x c tag v item :
  TorznabBuilder.sub_text (Element t a x c) tag v = Ok item ->
  (v = PNone \/ exists s, v = PStr s) /\
  item = Element t a x (c ++ [Element tag [] (text_value v) []])%list.
Proof.
  unfold TorznabBuilder.sub_text, new_element. intros H.
  apply bind_inv in H as (e & He & [= <-]).
  apply set_text_inv in He as [Hv ->]. split; [exact Hv|reflexivity].
Qed.

Lemma sub_text_str t a x c tag s item :
  TorznabBuilder.sub_text (Element t a x c) tag (PStr s) = Ok item ->
  item = Element t a x (c ++ [text_element tag s])%list.
Proof. intros H. apply sub_text_inv in H as [_ ->]. reflexivity. Qed.

Lemma torznab_attr_inv t a x c name v item :
  TorznabBuilder.torznab_attr (Element t a x c) name v = Ok item ->
  exists s, v = PStr s /\ item = Element t a x (c ++ [attr_element name s])%list.
Proof.
  unfold TorznabBuilder.torznab_attr, new_element. intros H.
  apply bind_inv in H as (e1 & H1 & H).
  apply bind_inv in H as (e2 & H2 & [= <-]).
  apply set_attr_inv in H1 as (n & [= <-] & ->).
  apply set_attr_inv in H2 as (s & -> & ->).
  exists s. split; reflexivity.
Qed.

Lemma torznab_attr_str t a x c name s item :
  TorznabBuilder.torznab_attr (Element t a x c) name (PStr s) = Ok item ->
  item = Element t a x (c ++ [attr_element name s])%list.
Proof. intros H. apply torznab_attr_inv in H as (s' & [= <-] & ->). reflexivity. Qed.

(** an attribute that is written only when [b] holds *)
Lemma optional_attr t a x c (b : bool) name v item :
  (if b then TorznabBuilder.torznab_attr (Element t a x c) name v else Ok (Element t a x c)) = Ok item ->
  item = Element t a x
           (c ++ attr_elements (opt_list (pair name) (if b then text_value v else None)))%list.
Proof.
  destruct b.
  - intros H. apply torznab_attr_inv in H as (s & -> & ->). reflexivity.
  - intros [= <-]. simpl. rewrite app_nil_r. reflexivity.
Qed.

Lemma optional_attr_str t a x c (b : bool) name s item :
  (if b then TorznabBuilder.torznab_attr (Element t a x c) name (PStr s)
   else Ok (Element t a x c)) = Ok item ->
  item = Element t a x (c ++ attr_elements (opt_list (pair name) (if b then Some s else None)))%list.
Proof.
  intros H. apply optional_attr in H. rewrite H. destruct b; reflexivity.
Qed.

Lemma link_stage t a x c links item :
  (if truthy links
   then link0 <- getitem0 links ;; TorznabBuilder.sub_text (Element t a x c) "link" link0
   else Ok (Element t a x c)) = Ok item ->
  (truthy links = true -> exists url, first_of links = PStr url) ->
  item = Element t a x
           (c ++ opt_list (text_element "link")
                   (if truthy links then text_value (first_of links) else None))%list.
Proof.
  intros H Hurl. destruct (truthy links).
  - destruct (Hurl eq_refl) as (url & Hfirst). rewrite Hfirst.
    apply bind_inv in H as (link0 & E0 & H).
    unfold first_of in Hfirst. rewrite E0 in Hfirst. subst link0.
    apply sub_text_str in H. exact H.
  - injection H as <-. cbn [opt_list]. rewrite app_nil_r. reflexivity.
Qed.

Lemma enclosure_stage t a x c links size_text stream item :
  (if truthy links
   then link0 <- getitem0 links ;;
        enclosure <- set_attr (new_element "enclosure") "url" link0 ;;
        enclosure <- set_attr enclosure "length" (PStr size_text) ;;
        stream_info <- py_get stream "stream" (PDict []) ;;
        ty <- py_get stream_info "type" PNone ;;
        enclosure <- set_attr enclosure "type"
                       (PStr (if eq_str ty "torrent" then "application/x-bittorrent"
                              else "application/x-nzb")) ;;
        Ok (append (Element t a x c) enclosure)
   else Ok (Element t a x c)) = Ok item ->
  (truthy links = true -> exists url, first_of links = PStr url) /\
  item = Element t a x
           (c ++ opt_list
                   (fun url =>
                      enclosure_element url size_text
                        (if eq_str (get_or (get_or stream "stream" (PDict [])) "type" PNone) "torrent"
                         then "application/x-bittorrent" else "application/x-nzb"))
                   (if truthy links then text_value (first_of links) else None))%list.
Proof.
  intros H. destruct (truthy links).
  - apply bind_inv in H as (link0 & E0 & H).
    apply bind_inv in H as (e1 & E1 & H).
    apply bind_inv in H as (e2 & E2 & H).
    apply bind_inv in H as (stream_info & Hstream & H). apply py_get_get_or in Hstream.
    apply bind_inv in H as (ty & Hty & H). apply py_get_get_or in Hty.
    apply bind_inv in H as (e3 & E3 & [= <-]).
    unfold new_element in E1. apply set_attr_inv in E1 as (url & -> & ->).
    apply set_attr_inv in E2 as (s2 & [= <-] & ->).
    apply set_attr_inv in E3 as (s3 & [= <-] & ->).
    unfold first_of. rewrite E0, Hstream, Hty. split; [eauto|reflexivity].
  - injection H as <-. split; [discriminate|].
    cbn [opt_list]. rewrite app_nil_r. reflexivity.
Qed.

Lemma date_stage P t a x c stream time_info item :
  get_or stream "time" (PDict []) = time_info ->
  (if truthy time_info
   then added <- py_get time_info "added" PNone ;;
        if truthy added
        then ts <- TorznabBuilder.timestamp_of added ;;
             text <- pub_date P ts ;;
             TorznabBuilder.sub_text (Element t a x c) "pubDate" (PStr text)
        else Ok (Element t a x c)
   else Ok (Element t a x c)) = Ok item ->
  exists date,
    date_of_record P stream date /\
    item = Element t a x (c ++ opt_list (text_element "pubDate") date)%list.
Proof.
  intros Htime H. unfold date_of_record. cbv zeta. rewrite Htime.
  destruct (truthy time_info).
  - apply bind_inv in H as (added & Hadded & H). apply py_get_get_or in Hadded.
    rewrite Hadded. destruct (truthy added); cbn [andb].
    + apply bind_inv in H as (ts & Hts & H).
      apply bind_inv in H as (text & Htext & H).
      apply sub_text_str in H. exists (Some text). split; [eauto|exact H].
    + injection H as <-. exists None. split; [reflexivity|].
      cbn [opt_list]. rewrite app_nil_r. reflexivity.
  - injection H as <-. exists None. split; [reflexivity|].
    cbn [opt_list]. rewrite app_nil_r. reflexivity.
Qed.

Lemma seeders_stage t a x c ty stream_info item :
  (if eq_str ty "torrent"
   then seeders <- py_get stream_info "seeds" (PInt 0) ;;
        item <- TorznabBuilder.torznab_attr (Element t a x c) "seeders" (PStr (str seeders)) ;;
        TorznabBuilder.torznab_attr item "peers" (PStr (str seeders))
   else Ok (Element t a x c)) = Ok item ->
  item = Element t a x
           (c ++ attr_elements
                   match (if eq_str ty "torrent"
                          then Some (str (get_or stream_info "seeds" (PInt 0))) else None) with
                   | Some n => [("seeders", n); ("peers", n)]
                   | None => []
                   end)%list.
Proof.
  intros H. destruct (eq_str ty "torrent").
  - apply bind_inv in H as (seeders & Hseeds & H). apply py_get_get_or in Hseeds.
    apply bind_inv in H as (item1 & E1 & H).
    apply torznab_attr_str in E1. subst item1.
    apply torznab_attr_str in H. rewrite H, Hseeds, <- app_assoc. reflexivity.
  - injection H as <-. cbn [attr_elements map]. rewrite app_nil_r. reflexivity.
Qed.

Lemma infohash_stage t a x c ty file_info item :
  (if eq_str ty "torrent"
   then hash <- py_get file_info "hash" PNone ;;
        if truthy hash then TorznabBuilder.torznab_attr (Element t a x c) "infohash" hash
        else Ok (Element t a x c)
   else Ok (Element t a x c)) = Ok item ->
  item = Element t a x
           (c ++ attr_elements
                   (opt_list (pair "infohash")
                      (if eq_str ty "torrent" && truthy (get_or file_info "hash" PNone)
                       then text_value (get_or file_info "hash" PNone) else None)))%list.
Proof.
  intros H. destruct (eq_str ty "torrent"); cbn [andb].
  - apply bind_inv in H as (hash & Hhash & H). apply py_get_get_or in Hhash.
    rewrite Hhash. exact (optional_attr _ _ _ _ _ _ _ _ H).
  - injection H as <-. cbn [attr_elements opt_list map]. rewrite app_nil_r. reflexivity.
Qed.

Lemma episode_stage t a x c query_type meta_info item :
  (if String.eqb query_type "tvsearch"
   then episode_info <- py_get meta_info "episode" PNone ;;
        if truthy episode_info
        then season <- py_get episode_info "season" PNone ;;
             item <- (if truthy season
                      then TorznabBuilder.torznab_attr (Element t a x c) "season" (PStr (str season))
                      else Ok (Element t a x c)) ;;
             episode <- py_get episode_info "episode" PNone ;;
             if truthy episode
             then TorznabBuilder.torznab_attr item "episode" (PStr (str episode))
             else Ok item
        else Ok (Element t a x c)
   else Ok (Element t a x c)) = Ok item ->
  let episode_info := get_or meta_info "episode" PNone in
  let numbered := String.eqb query_type "tvsearch" && truthy episode_info in
  let season := get_or episode_info "season" PNone in
  let episode := get_or episode_info "episode" PNone in
  item = Element t a x
           (c ++ attr_elements
                   (opt_list (pair "season")
                      (if numbered && truthy season then Some (str season) else None)
                    ++ opt_list (pair "episode")
                         (if numbered && truthy episode then Some (str episode) else None)))%list.
Proof.
  intros H. cbv zeta. destruct (String.eqb query_type "tvsearch"); cbn [andb].
  - apply bind_inv in H as (episode_info & Hinfo & H). apply py_get_get_or in Hinfo.
    rewrite Hinfo. destruct (truthy episode_info); cbn [andb].
    + apply bind_inv in H as (season & Hseason & H). apply py_get_get_or in Hseason.
      apply bind_inv in H as (item1 & E1 & H).
      apply bind_inv in H as (episode & Hepisode & H). apply py_get_get_or in Hepisode.
      apply optional_attr_str in E1. subst item1.
      apply optional_attr_str in H. rewrite H, Hseason, Hepisode, <- app_assoc.
      unfold attr_elements. rewrite map_app. reflexivity.
    + injection H as <-. cbn [attr_elements opt_list map app]. rewrite app_nil_r. reflexivity.
  - injection H as <-. cbn [attr_elements opt_list map app]. rewrite app_nil_r. reflexivity.
Qed.

(** the equations of the stages of [_build_item_body], one after another *)
Ltac peel_item H :=
  unfold TorznabBuilder._build_item_body in H; cbv zeta in H;
  apply bind_inv in H as (?file_info & ?Hfile & H);
  apply bind_inv in H as (?video_info & ?Hvideo & H);
  apply bind_inv in H as (?audio_info & _ & H);
  apply bind_inv in H as (?meta_info & ?Hmeta & H);
  apply bind_inv in H as (?title & ?Htitle & H);
  apply bind_inv in H as (?item1 & ?Etitle & H);
  apply bind_inv in H as (?guid & ?Hguid & H);
  apply bind_inv in H as (?guid1 & ?Eguid & H);
  apply bind_inv in H as (?guid2 & ?Epermalink & H);
  apply bind_inv in H as (?links & ?Hlinks & H);
  apply bind_inv in H as (?item2 & ?Elink & H);
  apply bind_inv in H as (?item3 & ?Ecomments & H);
  apply bind_inv in H as (?time_info & ?Htime & H);
  apply bind_inv in H as (?item4 & ?Edate & H);
  apply bind_inv in H as (?size & ?Hsize & H);
  apply bind_inv in H as (?item5 & ?Esize & H);
  apply bind_inv in H as (?item6 & ?Eenclosure & H);
  apply bind_inv in H as (?category & ?Hcategory & H);
  apply bind_inv in H as (?item7 & ?Ecat & H);
  apply bind_inv in H as (?item8 & ?Esizeattr & H);
  apply bind_inv in H as (?stream_info & ?Hstream & H);
  apply bind_inv in H as (?ty & ?Hty & H);
  apply bind_inv in H as (?item9 & ?Eseeds & H);
  apply bind_inv in H as (?item10 & ?Ehash & H);
  apply bind_inv in H as (?imdb & ?Himdb & H);
  apply bind_inv in H as (?item11 & ?Eimdb & H);
  apply bind_inv in H as (?tvdb & ?Htvdb & H);
  apply bind_inv in H as (?item12 & ?Etvdb & H).

Lemma py_get_dict v k default x : py_get v k default = Ok x -> exists d, v = PDict d.
Proof. destruct v; try discriminate. eauto. Qed.

Lemma build_title_video file_info video_info meta_info title :
  TorznabBuilder.build_title file_info video_info meta_info = Ok title ->
  exists d, video_info = PDict d.
Proof.
  unfold TorznabBuilder.build_title. intros H.
  apply bind_inv in H as (name & _ & H).
  apply bind_inv in H as (parts & _ & H).
  apply bind_inv in H as (q & Hq & _).
  exact (py_get_dict _ _ _ _ Hq).
Qed.

(** what the record of a rendered item is like: the record and the groups
    that are read from it are dicts, and the values copied into the
    document are strs *)
Lemma build_item_body_values P stream query_type item :
  TorznabBuilder._build_item_body P stream query_type = Ok item ->
  (exists d, stream = PDict d) /\
  (forall group, In group ["file"; "video"; "meta"; "stream"] ->
                 exists d, get_or stream group (PDict []) = PDict d) /\
  (let imdb := get_or (get_or stream "meta" (PDict [])) "imdb" PNone in
   truthy imdb = true -> exists s, imdb = PStr s) /\
  (let hash := get_or (get_or stream "file" (PDict [])) "hash" PNone in
   eq_str (get_or (get_or stream "stream" (PDict [])) "type" PNone) "torrent" = true ->
   truthy hash = true -> exists s, hash = PStr s).
Proof.
  intros H. peel_item H.
  pose proof (py_get_dict _ _ _ _ Hfile) as Hdict.
  apply py_get_get_or in Hfile, Hvideo, Hmeta, Hstream.
  pose proof (py_get_dict _ _ _ _ Hsize) as Dfile.
  pose proof (build_title_video _ _ _ _ Htitle) as Dvideo.
  pose proof (py_get_dict _ _ _ _ Himdb) as Dmeta.
  pose proof (py_get_dict _ _ _ _ Hty) as Dstream.
  apply py_get_get_or in Hty, Himdb.
  split; [exact Hdict|]. split; [|split].
  - intros group [<-|[<-|[<-|[<-|[]]]]].
    + rewrite Hfile. exact Dfile.
    + rewrite Hvideo. exact Dvideo.
    + rewrite Hmeta. exact Dmeta.
    + rewrite Hstream. exact Dstream.
  - cbv zeta. rewrite Hmeta, Himdb. intros Htrue. rewrite Htrue in Eimdb.
    destruct item10 as [t a x c].
    apply torznab_attr_inv in Eimdb as (s & -> & _). eauto.
  - cbv zeta. rewrite Hfile, Hstream, Hty. intros Htorrent Htrue. rewrite Htorrent in Ehash.
    apply bind_inv in Ehash as (hash & Hhash & Ehash). apply py_get_get_or in Hhash.
    rewrite Hhash in Htrue. rewrite Htrue in Ehash. rewrite Hhash.
    destruct item9 as [t a x c].
    apply torznab_attr_inv in Ehash as (s & -> & _). eauto.
Qed.

Lemma build_item_body_parts P stream query_type item :
  TorznabBuilder._build_item_body P stream query_type = Ok item ->
  exists title category date,
    TorznabBuilder.build_title (get_or stream "file" (PDict [])) (get_or stream "video" (PDict []))
      (get_or stream "meta" (PDict [])) = Ok title /\
    TorznabBuilder._determine_category stream query_type = Ok category /\
    date_of_record P stream date /\
    (truthy (get_or stream "links" (PList [])) = true ->
     exists url, first_of (get_or stream "links" (PList [])) = PStr url) /\
    item = item_of_parts (parts_of_record stream query_type title category date).
Proof.
  intros H. peel_item H.
  apply py_get_get_or in Hfile, Hvideo, Hmeta, Hguid, Hlinks, Htime, Hsize, Hstream, Hty,
    Himdb, Htvdb.
  unfold new_element in Etitle. apply sub_text_str in Etitle. subst item1.
  unfold new_element in Eguid. apply set_text_inv in Eguid as [_ ->].
  apply set_attr_inv in Epermalink as (s & [= <-] & ->).
  cbn [append attrib_set app] in *.
  assert (Hurl : truthy links = true -> exists url, first_of links = PStr url).
  { destruct item5 as [t5 a5 x5 c5]. exact (proj1 (enclosure_stage _ _ _ _ _ _ _ _ Eenclosure)). }
  apply (fun E => link_stage _ _ _ _ _ _ E Hurl) in Elink. subst item2.
  apply sub_text_str in Ecomments. subst item3.
  apply (date_stage P _ _ _ _ stream time_info _ Htime) in Edate as (date & Hdate & ->).
  apply sub_text_str in Esize. subst item5.
  apply enclosure_stage in Eenclosure as [_ ->].
  apply torznab_attr_str in Ecat. subst item7.
  apply torznab_attr_str in Esizeattr. subst item8.
  apply seeders_stage in Eseeds. subst item9.
  apply infohash_stage in Ehash. subst item10.
  apply optional_attr in Eimdb. subst item11.
  apply optional_attr_str in Etvdb. subst item12.
  apply episode_stage in H. cbv zeta in H.
  exists title, category, date.
  rewrite Hfile, Hvideo, Hmeta, Hlinks.
  repeat (split; [assumption|]).
  rewrite H. unfold item_of_parts, parts_of_record, attrs_of_parts. cbv zeta.
  cbn [title_part guid_part link_part date_part size_part type_part category_part
       seeders_part infohash_part imdbid_part tvdbid_part season_part episode_part].
  rewrite Hfile, Hmeta, Hlinks, Hguid, Hsize, Hstream, Hty, Himdb, Htvdb.
  unfold attr_elements. rewrite !map_app. cbn [map fst snd].
  rewrite <- !app_assoc. cbn [app]. reflexivity.
Qed.

(** ** Reading an item *)

Lemma findall_children tag t a x c :
  findall tag (Element t a x c) = filter (fun e => String.eqb (tag_of e) tag) c.
Proof. reflexivity. Qed.

Lemma filter_attr_elements tag attrs :
  String.eqb (TorznabBuilder.torznab_ns ++ "attr") tag = false ->
  filter (fun e => String.eqb (tag_of e) tag) (attr_elements attrs) = [].
Proof.
  intros Htag. induction attrs as [|kv attrs IH]; [reflexivity|].
  cbn [attr_elements map filter attr_element tag_of]. rewrite Htag. exact IH.
Qed.

Lemma filter_attr_elements_all attrs :
  filter (fun e => String.eqb (tag_of e) (TorznabBuilder.torznab_ns ++ "attr"))
    (attr_elements attrs) = attr_elements attrs.
Proof.
  induction attrs as [|kv attrs IH]; [reflexivity|].
  cbn [attr_elements map filter attr_element tag_of]. rewrite String.eqb_refl.
  f_equal. exact IH.
Qed.

(** the children of an item that are not torznab attributes *)
Lemma findall_item_of_parts tag p :
  String.eqb (TorznabBuilder.torznab_ns ++ "attr") tag = false ->
  findall tag (item_of_parts p) =
    filter (fun e => String.eqb (tag_of e) tag)
      ([text_element "title" (title_part p);
        Element "guid" [("isPermaLink", "false")] (guid_part p) []]
       ++ opt_list (text_element "link") (link_part p)
       ++ [text_element "comments" "https://orionoid.com"]
       ++ opt_list (text_element "pubDate") (date_part p)
       ++ [text_element "size" (size_part p)]
       ++ opt_list (fun url => enclosure_element url (size_part p) (type_part p)) (link_part p))%list.
Proof.
  intros Htag. unfold item_of_parts. rewrite findall_children.
  rewrite !filter_app.
  rewrite (filter_attr_elements tag _ Htag), app_nil_r. reflexivity.
Qed.

Lemma attr_values_attr_elements name attrs :
  flat_map (fun c => match attrib_get "name" (attrib_of c), attrib_get "value" (attrib_of c) with
                     | Some n, Some v => if String.eqb n name then [v] else []
                     | _, _ => []
                     end)
           (attr_elements attrs)
  = map snd (filter (fun kv => String.eqb (fst kv) name) attrs).
Proof.
  induction attrs as [|[n v] attrs IH]; [reflexivity|].
  cbn [attr_elements map flat_map filter fst snd].
  change (attrib_get "name" (attrib_of (attr_element n v))) with (Some n).
  change (attrib_get "value" (attrib_of (attr_element n v))) with (Some v).
  fold (attr_elements attrs). rewrite IH.
  destruct (String.eqb n name); reflexivity.
Qed.

Lemma attr_values_item_of_parts name p :
  attr_values name (item_of_parts p) =
    map snd (filter (fun kv => String.eqb (fst kv) name) (attrs_of_parts p)).
Proof.
  unfold attr_values, item_of_parts. rewrite findall_children.
  rewrite !filter_app.
  rewrite filter_attr_elements_all.
  replace (filter _ (opt_list (text_element "link") (link_part p))) with (@nil element)
    by (destruct (link_part p); reflexivity).
  replace (filter _ (opt_list (text_element "pubDate") (date_part p))) with (@nil element)
    by (destruct (date_part p); reflexivity).
  replace (filter _ (opt_list (fun url => enclosure_element url (size_part p) (type_part p))
                       (link_part p))) with (@nil element)
    by (destruct (link_part p); reflexivity).
  change (filter _ [text_element "title" (title_part p);
                    Element "guid" [("isPermaLink", "false")] (guid_part p) []])
    with (@nil element).
  change (filter _ [text_element "comments" "https://orionoid.com"]) with (@nil element).
  change (filter _ [text_element "size" (size_part p)]) with (@nil element).
  cbn [app]. apply attr_values_attr_elements.
Qed.

Lemma build_item_parts P stream query_type item :
  TorznabBuilder._build_item P stream query_type = Some item ->
  TorznabBuilder._build_item_body P stream query_type = Ok item.
Proof.
  unfold TorznabBuilder._build_item.
  destruct (TorznabBuilder._build_item_body P stream query_type); [intros [= <-]; reflexivity|discriminate].
Qed.

Ltac attr_cases p :=
  rewrite attr_values_item_of_parts; unfold attrs_of_parts;
  destruct (seeders_part p), (infohash_part p), (imdbid_part p), (tvdbid_part p),
    (season_part p), (episode_part p); reflexivity.

Lemma attr_values_category p :
  attr_values "category" (item_of_parts p) = [str_of_Z (category_part p)].
Proof. attr_cases p. Qed.

Lemma attr_values_size p : attr_values "size" (item_of_parts p) = [size_part p].
Proof. attr_cases p. Qed.

Lemma attr_values_seeders p :
  attr_values "seeders" (item_of_parts p) = opt_list (fun n => n) (seeders_part p).
Proof. attr_cases p. Qed.

Lemma attr_values_peers p :
  attr_values "peers" (item_of_parts p) = opt_list (fun n => n) (seeders_part p).
Proof. attr_cases p. Qed.

Lemma attr_values_infohash p :
  attr_values "infohash" (item_of_parts p) = opt_list (fun n => n) (infohash_part p).
Proof. attr_cases p. Qed.

Lemma attr_values_imdbid p :
  attr_values "imdbid" (item_of_parts p) = opt_list (fun n => n) (imdbid_part p).
Proof. attr_cases p. Qed.

Lemma attr_values_tvdbid p :
  attr_values "tvdbid" (item_of_parts p) = opt_list (fun n => n) (tvdbid_part p).
Proof. attr_cases p. Qed.

Lemma attr_values_season p :
  attr_values "season" (item_of_parts p) = opt_list (fun n => n) (season_part p).
Proof. attr_cases p. Qed.

Lemma attr_values_episode p :
  attr_values "episode" (item_of_parts p) = opt_list (fun n => n) (episode_part p).
Proof. attr_cases p. Qed.

Lemma findall_link p :
  findall "link" (item_of_parts p) = opt_list (text_element "link") (link_part p).
Proof.
  rewrite findall_item_of_parts by reflexivity.
  destruct (link_part p), (date_part p); reflexivity.
Qed.

Lemma findall_enclosure p :
  findall "enclosure" (item_of_parts p) =
    opt_list (fun url => enclosure_element url (size_part p) (type_part p)) (link_part p).
Proof.
  rewrite findall_item_of_parts by reflexivity.
  destruct (link_part p), (date_part p); reflexivity.
Qed.

Lemma findall_guid p :
  findall "guid" (item_of_parts p) = [Element "guid" [("isPermaLink", "false")] (guid_part p) []].
Proof.
  rewrite findall_item_of_parts by reflexivity.
  destruct (link_part p), (date_part p); reflexivity.
Qed.

Lemma findall_size p :
  findall "size" (item_of_parts p) = [text_element "size" (size_part p)].
Proof.
  rewrite findall_item_of_parts by reflexivity.
  destruct (link_part p), (date_part p); reflexivity.
Qed.

Lemma findall_pubDate p :
  findall "pubDate" (item_of_parts p) = opt_list (text_element "pubDate") (date_part p).
Proof.
  rewrite findall_item_of_parts by reflexivity.
  destruct (link_part p), (date_part p); reflexivity.
Qed.

(** ** What an item says about its record *)

(** X1. An item has a link and an enclosure together or not at all: none of
    the two when the record has no links, and otherwise one link, whose
    text is the first of the links, and one enclosure, whose url is that
    link, whose length is the size of the file as the size element prints
    it, and whose type is that of a torrent exactly for a stream of type
    "torrent". *)
Theorem link_and_enclosure :
  forall (P : Platform) (stream : value) (query_type : string) (item : element),
    TorznabBuilder._build_item P stream query_type = Some item ->
    let links := get_or stream "links" (PList []) in
    let size := get_or (get_or stream "file" (PDict [])) "size" (PInt 0) in
    let type := get_or (get_or stream "stream" (PDict [])) "type" PNone in
    (truthy links = false -> findall "link" item = [] /\ findall "enclosure" item = []) /\
    (truthy links = true ->
     exists url,
       first_of links = PStr url /\
       findall "link" item = [text_element "link" url] /\
       findall "enclosure" item =
         [enclosure_element url (if truthy size then str size else "0")
            (if eq_str type "torrent" then "application/x-bittorrent"
             else "application/x-nzb")]).
Proof.
  intros P stream query_type item H. cbv zeta.
  apply build_item_parts, build_item_body_parts in H
    as (title & category & date & _ & _ & _ & Hurl & ->).
  rewrite findall_link, findall_enclosure. unfold parts_of_record. cbv zeta.
  cbn [link_part size_part type_part]. split.
  - intros ->. split; reflexivity.
  - intros Hlinks. destruct (Hurl Hlinks) as (url & Hfirst).
    exists url. rewrite Hlinks, Hfirst. repeat split.
Qed.

Lemma link_and_enclosure_witness :
  exists item,
    TorznabBuilder._build_item sample_platform sample_record "movie" = Some item /\
    findall "enclosure" item =
      [enclosure_element "magnet:?xt=urn:btih:c0ffee" "734003200" "application/x-bittorrent"].
Proof.
  eexists. split.
  - vm_compute. reflexivity.
  - destruct (proj2 (link_and_enclosure sample_platform sample_record "movie" _ eq_refl) eq_refl)
      as (url & Hurl & _ & Henclosure).
    injection Hurl as <-. exact Henclosure.
Defined.

(** X2. The size of the file is written three times and always the same:
    as the text of the size element, as the torznab attribute [size] and as
    the length of the enclosure, when there is one.  It is [str] of the
    size of the record, and "0" when the record has no size or one that is
    zero, null or otherwise false. *)
Theorem size_is_written_alike :
  forall (P : Platform) (stream : value) (query_type : string) (item : element),
    TorznabBuilder._build_item P stream query_type = Some item ->
    let size := get_or (get_or stream "file" (PDict [])) "size" (PInt 0) in
    let size_text := if truthy size then str size else "0" in
    findall "size" item = [text_element "size" size_text] /\
    attr_values "size" item = [size_text] /\
    (forall enclosure, In enclosure (findall "enclosure" item) ->
                       attrib_get "length" (attrib_of enclosure) = Some size_text).
Proof.
  intros P stream query_type item H. cbv zeta.
  apply build_item_parts, build_item_body_parts in H
    as (title & category & date & _ & _ & _ & _ & ->).
  rewrite findall_size, attr_values_size, findall_enclosure.
  split; [reflexivity|]. split; [reflexivity|].
  intros enclosure. destruct (link_part _); [|intros []].
  intros [<-|[]]. reflexivity.
Qed.

Lemma size_is_written_alike_witness :
  exists item,
    TorznabBuilder._build_item sample_platform quality_only_record "movie" = Some item /\
    findall "size" item = [text_element "size" "0"] /\ attr_values "size" item = ["0"].
Proof.
  eexists. split.
  - vm_compute. reflexivity.
  - destruct (size_is_written_alike sample_platform quality_only_record "movie" _ eq_refl)
      as (Hsize & Hattr & _).
    split; [exact Hsize|exact Hattr].
Defined.

(** X3. An item carries the torznab attributes [seeders] and [peers]
    exactly when its stream is of type "torrent"; the two then have the
    same value, the seeds of the stream, "0" when the stream has none. *)
Theorem seeders_and_peers :
  forall (P : Platform) (stream : value) (query_type : string) (item : element),
    TorznabBuilder._build_item P stream query_type = Some item ->
    let stream_info := get_or stream "stream" (PDict []) in
    let shown := if eq_str (get_or stream_info "type" PNone) "torrent"
                 then [str (get_or stream_info "seeds" (PInt 0))] else [] in
    attr_values "seeders" item = shown /\ attr_values "peers" item = shown.
Proof.
  intros P stream query_type item H. cbv zeta.
  apply build_item_parts, build_item_body_parts in H
    as (title & category & date & _ & _ & _ & _ & ->).
  rewrite attr_values_seeders, attr_values_peers. unfold parts_of_record. cbv zeta.
  cbn [seeders_part]. destruct (eq_str _ "torrent"); split; reflexivity.
Qed.

Lemma seeders_and_peers_witness :
  exists item,
    TorznabBuilder._build_item sample_platform sample_record "movie" = Some item /\
    attr_values "seeders" item = ["12"] /\ attr_values "peers" item = ["12"].
Proof.
  eexists. split.
  - vm_compute. reflexivity.
  - exact (seeders_and_peers sample_platform sample_record "movie" _ eq_refl).
Defined.

(** X4. The season and the episode of a record are written, as torznab
    attributes, only in answer to [tvsearch]: for every other function an
    item has neither, whatever episode metadata its record carries.  In
    answer to [tvsearch] each is written when the record has episode
    metadata and the number is not zero or missing. *)
Theorem season_and_episode :
  forall (P : Platform) (stream : value) (query_type : string) (item : element),
    TorznabBuilder._build_item P stream query_type = Some item ->
    let episode_info := get_or (get_or stream "meta" (PDict [])) "episode" PNone in
    let shown key :=
      if String.eqb query_type "tvsearch" && truthy episode_info
         && truthy (get_or episode_info key PNone)
      then [str (get_or episode_info key PNone)] else [] in
    attr_values "season" item = shown "season" /\
    attr_values "episode" item = shown "episode" /\
    (query_type <> "tvsearch" ->
     attr_values "season" item = [] /\ attr_values "episode" item = []).
Proof.
  intros P stream query_type item H. cbv zeta.
  apply build_item_parts, build_item_body_parts in H
    as (title & category & date & _ & _ & _ & _ & ->).
  rewrite attr_values_season, attr_values_episode. unfold parts_of_record. cbv zeta.
  cbn [season_part episode_part].
  split; [|split].
  - destruct (_ && truthy (get_or _ "season" PNone)); reflexivity.
  - destruct (_ && truthy (get_or _ "episode" PNone)); reflexivity.
  - intros Hq. destruct (String.eqb_spec query_type "tvsearch"); [contradiction|].
    split; reflexivity.
Qed.

Lemma season_and_episode_witness :
  (exists item,
      TorznabBuilder._build_item sample_platform episode_record "tvsearch" = Some item /\
      attr_values "season" item = ["2"] /\ attr_values "episode" item = []) /\
  (exists item,
      TorznabBuilder._build_item sample_platform episode_record "search" = Some item /\
      attr_values "season" item = [] /\ attr_values "episode" item = []).
Proof.
  split; eexists; (split; [vm_compute; reflexivity|]).
  - destruct (season_and_episode sample_platform episode_record "tvsearch" _ eq_refl)
      as (Hseason & Hepisode & _).
    split; [exact Hseason|exact Hepisode].
  - refine (proj2 (proj2 (season_and_episode sample_platform episode_record "search" _ eq_refl)) _).
    discriminate.
Defined.

(** X5. The identifiers of an item are those of its record, copied as they
    are: the text of the guid element, which is never a permalink, is the id
    of the record; the attribute [imdbid] is the IMDb id, [tvdbid] is [str]
    of the TVDB id, each when the record has one; [infohash] is the hash of
    the file, when it has one, and only for a stream of type "torrent". *)
Theorem item_identifiers :
  forall (P : Platform) (stream : value) (query_type : string) (item : element),
    TorznabBuilder._build_item P stream query_type = Some item ->
    let file_info := get_or stream "file" (PDict []) in
    let meta_info := get_or stream "meta" (PDict []) in
    let torrent := eq_str (get_or (get_or stream "stream" (PDict [])) "type" PNone) "torrent" in
    let hash := get_or file_info "hash" PNone in
    let imdb := get_or meta_info "imdb" PNone in
    let tvdb := get_or meta_info "tvdb" PNone in
    findall "guid" item =
      [Element "guid" [("isPermaLink", "false")] (text_value (get_or stream "id" (PStr ""))) []] /\
    (if truthy imdb then exists s, imdb = PStr s /\ attr_values "imdbid" item = [s]
     else attr_values "imdbid" item = []) /\
    attr_values "tvdbid" item = (if truthy tvdb then [str tvdb] else []) /\
    (if torrent && truthy hash then exists s, hash = PStr s /\ attr_values "infohash" item = [s]
     else attr_values "infohash" item = []).
Proof.
  intros P stream query_type item H. cbv zeta.
  apply build_item_parts in H.
  destruct (build_item_body_values P stream query_type item H) as (_ & _ & Himdb & Hhash).
  cbv zeta in Himdb, Hhash.
  apply build_item_body_parts in H as (title & category & date & _ & _ & _ & _ & ->).
  rewrite findall_guid, attr_values_imdbid, attr_values_tvdbid, attr_values_infohash.
  unfold parts_of_record. cbv zeta.
  cbn [guid_part imdbid_part tvdbid_part infohash_part].
  split; [reflexivity|]. split; [|split].
  - destruct (truthy (get_or (get_or stream "meta" (PDict [])) "imdb" PNone)); [|reflexivity].
    destruct (Himdb eq_refl) as (s & Hs). exists s. rewrite Hs. split; reflexivity.
  - destruct (truthy (get_or (get_or stream "meta" (PDict [])) "tvdb" PNone)); reflexivity.
  - destruct (eq_str _ "torrent"); cbn [andb]; [|reflexivity].
    destruct (truthy (get_or (get_or stream "file" (PDict [])) "hash" PNone)); [|reflexivity].
    destruct (Hhash eq_refl eq_refl) as (s & Hs). exists s. rewrite Hs. split; reflexivity.
Qed.

Lemma item_identifiers_witness :
  exists item,
    TorznabBuilder._build_item sample_platform sample_record "movie" = Some item /\
    findall "guid" item = [Element "guid" [("isPermaLink", "false")] (Some "0a1b2c") []] /\
    attr_values "tvdbid" item = [].
Proof.
  eexists. split.
  - vm_compute. reflexivity.
  - destruct (item_identifiers sample_platform sample_record "movie" _ eq_refl)
      as (Hguid & _ & Htvdb & _).
    split; [exact Hguid|exact Htvdb].
Defined.

(** X6. An item has a publication date exactly when the record has time
    information with an [added] that is not zero or missing: its text is
    what the platform prints for that timestamp.  A record whose [added]
    is true and not a number, or a timestamp the platform cannot print,
    gives no item at all. *)
Theorem publication_date :
  forall (P : Platform) (stream : value) (query_type : string),
    let time_info := get_or stream "time" (PDict []) in
    let added := get_or time_info "added" PNone in
    (forall item,
        TorznabBuilder._build_item P stream query_type = Some item ->
        if truthy time_info && truthy added
        then exists ts text,
               TorznabBuilder.timestamp_of added = Ok ts /\ pub_date P ts = Ok text /\
               findall "pubDate" item = [text_element "pubDate" text]
        else findall "pubDate" item = []) /\
    (truthy time_info && truthy added = true ->
     (forall ts, TorznabBuilder.timestamp_of added = Ok ts -> exists e, pub_date P ts = Raise e) ->
     TorznabBuilder._build_item P stream query_type = None).
Proof.
  intros P stream query_type. cbv zeta. split.
  - intros item H.
    apply build_item_parts, build_item_body_parts in H
      as (title & category & date & _ & _ & Hdate & _ & ->).
    rewrite findall_pubDate. unfold date_of_record in Hdate. cbv zeta in Hdate.
    destruct (truthy _ && truthy _).
    + destruct Hdate as (ts & text & Hts & Htext & ->). exists ts, text. auto.
    + rewrite Hdate. reflexivity.
  - intros Htrue Hfails.
    destruct (TorznabBuilder._build_item P stream query_type) as [item|] eqn:H; [|reflexivity].
    apply build_item_parts, build_item_body_parts in H
      as (title & category & date & _ & _ & Hdate & _ & _).
    unfold date_of_record in Hdate. cbv zeta in Hdate. rewrite Htrue in Hdate.
    destruct Hdate as (ts & text & Hts & Htext & _).
    destruct (Hfails ts Hts) as (e & He). congruence.
Qed.

Lemma publication_date_witness :
  exists item,
    TorznabBuilder._build_item sample_platform sample_record "movie" = Some item /\
    findall "pubDate" item = [text_element "pubDate" "1500000000"].
Proof.
  eexists. split.
  - vm_compute. reflexivity.
  - destruct (proj1 (publication_date sample_platform sample_record "movie") _ eq_refl)
      as (ts & text & Hts & Htext & Hfound).
    injection Hts as <-. injection Htext as <-. exact Hfound.
Defined.

(** ** Categories *)

Lemma determine_category_values stream query_type category :
  TorznabBuilder._determine_category stream query_type = Ok category ->
  In category [2000; 2030; 2040; 2060; 5000; 5030; 5040; 5080].
Proof.
  unfold TorznabBuilder._determine_category. intros H.
  apply bind_inv in H as (video_info & _ & H).
  apply bind_inv in H as (q & _ & H).
  apply bind_inv in H as (quality & _ & H).
  apply bind_inv in H as (is_tv & _ & H).
  repeat match type of H with
         | (if ?b then _ else _) = _ => destruct b
         end;
    injection H as <-; destruct is_tv; simpl; tauto.
Qed.

(** X7. The category of every item is one that the capabilities document
    advertises: the torznab attribute [category] of an item is the category
    inferred for its record, and that is the id of a category or of a
    subcategory listed by [build_capabilities]. *)
Theorem category_is_advertised :
  forall (P : Platform) (stream : value) (query_type : string) (item : element),
    TorznabBuilder._build_item P stream query_type = Some item ->
    exists category,
      TorznabBuilder._determine_category stream query_type = Ok category /\
      attr_values "category" item = [str_of_Z category] /\
      In (str_of_Z category) (advertised_categories TorznabBuilder.build_capabilities).
Proof.
  intros P stream query_type item H.
  apply build_item_parts, build_item_body_parts in H
    as (title & category & date & _ & Hcategory & _ & _ & ->).
  exists category. split; [exact Hcategory|]. split; [apply attr_values_category|].
  apply determine_category_values in Hcategory.
  cbn [In] in Hcategory.
  repeat (destruct Hcategory as [<-|Hcategory]; [vm_compute; tauto|]).
  contradiction.
Qed.

Lemma category_is_advertised_witness :
  exists item,
    TorznabBuilder._build_item sample_platform sample_record "movie" = Some item /\
    attr_values "category" item = ["2040"].
Proof.
  eexists. split.
  - vm_compute. reflexivity.
  - destruct (category_is_advertised sample_platform sample_record "movie" _ eq_refl)
      as (category & Hcategory & Hattr & _).
    injection Hcategory as <-. exact Hattr.
Defined.

(** X8. The categories given to items lead back to the search they
    belong to: sent as the [cat] parameter of a [search] request, a TV
    category (5000 and above) selects the search for shows and a movie
    category the search for movies; and the category of an item made in
    answer to [tvsearch] is always a TV category. *)
Theorem category_selects_its_search :
  forall (stream : value) (query_type : string) (category : Z),
    TorznabBuilder._determine_category stream query_type = Ok category ->
    Main.media_type_of (str_of_Z category) = (if 5000 <=? category then "show" else "movie") /\
    (query_type = "tvsearch" -> Main.media_type_of (str_of_Z category) = "show").
Proof.
  intros stream query_type category H.
  assert (Htv : query_type = "tvsearch" -> 5000 <= category).
  { intros ->. revert H. unfold TorznabBuilder._determine_category. intros H.
    apply bind_inv in H as (video_info & _ & H).
    apply bind_inv in H as (q & _ & H).
    apply bind_inv in H as (quality & _ & H).
    cbn [String.eqb Ascii.eqb Bool.eqb bind] in H.
    repeat match type of H with
           | (if ?b then _ else _) = _ => destruct b
           end;
      injection H as <-; discriminate. }
  apply determine_category_values in H. cbn [In] in H.
  assert (Hroute : Main.media_type_of (str_of_Z category)
                   = (if 5000 <=? category then "show" else "movie")).
  { repeat (destruct H as [<-|H]; [vm_compute; reflexivity|]). contradiction. }
  split; [exact Hroute|].
  intros Hq. rewrite Hroute. specialize (Htv Hq).
  destruct (Z.leb_spec 5000 category); [reflexivity|lia].
Qed.

Lemma category_selects_its_search_witness :
  Main.media_type_of "5080" = "show".
Proof.
  exact (proj2 (category_selects_its_search
                  (PDict [("video", PDict [("quality", PStr "2160p")])]) "tvsearch" 5080
                  eq_refl) eq_refl).
Defined.

(** X9. A record is rendered only if it is a dict and the groups [file],
    [video], [meta] and [stream], where it has them, are dicts: a record
    that is anything else, or in which one of these groups is [null] or
    another value that is not a dict, gives no item. *)
Theorem record_with_bad_group_is_skipped :
  forall (P : Platform) (stream : value) (query_type : string),
    ((forall d, stream <> PDict d) ->
     TorznabBuilder._build_item P stream query_type = None) /\
    (forall group v,
        In group ["file"; "video"; "meta"; "stream"] ->
        py_get stream group (PDict []) = Ok v ->
        (forall d, v <> PDict d) ->
        TorznabBuilder._build_item P stream query_type = None).
Proof.
  intros P stream query_type.
  unfold TorznabBuilder._build_item.
  destruct (TorznabBuilder._build_item_body P stream query_type) as [item|e] eqn:H;
    [|split; reflexivity].
  destruct (build_item_body_values P stream query_type item H) as ((d & Hd) & Hgroups & _).
  split.
  - intros Hnot. destruct (Hnot d Hd).
  - intros group v Hin Hget Hnot.
    destruct (Hgroups group Hin) as (g & Hg).
    rewrite (py_get_get_or _ _ _ _ Hget) in Hg. destruct (Hnot g Hg).
Qed.

Lemma record_with_bad_group_is_skipped_witness :
  TorznabBuilder._build_item sample_platform broken_record "search" = None.
Proof.
  refine (proj2 (record_with_bad_group_is_skipped sample_platform broken_record "search")
            "video" PNone _ eq_refl _).
  - simpl. tauto.
  - discriminate.
Defined.

(** ** The search-results document as a whole *)

Lemma build_items_all P records query_type :
  (forall record, In record records -> TorznabBuilder._build_item P record query_type <> None) ->
  Forall2 (fun record item => TorznabBuilder._build_item P record query_type = Some item)
    records (TorznabBuilder.build_items P records query_type).
Proof.
  induction records as [|record records IH]; intros Hall; [constructor|].
  cbn [TorznabBuilder.build_items].
  destruct (TorznabBuilder._build_item P record query_type) as [item|] eqn:Hitem.
  - constructor; [exact Hitem|]. apply IH. intros r Hr. apply Hall. right. exact Hr.
  - destruct (Hall record (or_introl eq_refl) Hitem).
Qed.

(** X10. A search-results document is produced exactly when the records of
    the payload can be read.  It is then the header of the channel (title,
    description, link, and the response element, whose offset is always
    "0") followed by the items of the records, in the order of the
    records: one item for each record, when every record can be rendered.
    A payload without data gives the header alone, with the total "0". *)
Theorem search_results_document :
  forall (P : Platform) (payload : value) (query_type : string),
    (forall records,
        records_of payload = Ok records ->
        TorznabBuilder.build_search_results P payload query_type
          = Ok (feed (List.length records) (TorznabBuilder.build_items P records query_type)) /\
        ((forall record, In record records ->
                         TorznabBuilder._build_item P record query_type <> None) ->
         Forall2 (fun record item => TorznabBuilder._build_item P record query_type = Some item)
           records (TorznabBuilder.build_items P records query_type))) /\
    (forall doc,
        TorznabBuilder.build_search_results P payload query_type = Ok doc ->
        exists records, records_of payload = Ok records) /\
    (forall d,
        payload = PDict d -> lookup "data" d = None ->
        TorznabBuilder.build_search_results P payload query_type = Ok (feed 0 [])).
Proof.
  intros P payload query_type. split; [|split].
  - intros records Hrecords. split.
    + exact (build_search_results_records P payload query_type records Hrecords).
    + apply build_items_all.
  - intros doc. apply build_search_results_inv.
  - intros d -> Hdata.
    apply (build_search_results_records P (PDict d) query_type []).
    unfold records_of. cbn [py_get]. rewrite Hdata. reflexivity.
Qed.

Lemma search_results_document_witness :
  TorznabBuilder.build_search_results sample_platform
    (PDict [("result", PDict [("status", PStr "success")])]) "search"
  = Ok (feed 0 []).
Proof.
  exact (proj2 (proj2 (search_results_document sample_platform
                         (PDict [("result", PDict [("status", PStr "success")])]) "search"))
           _ eq_refl eq_refl).
Defined.

(** ** Requests to the provider *)

Lemma lookup_setitem_key k k' v d :
  lookup k (setitem k' v d) <> None -> k = k' \/ lookup k d <> None.
Proof.
  destruct (String.eqb_spec k' k) as [->|Hne]; [auto|].
  rewrite lookup_setitem_other by (apply String.eqb_neq; exact Hne). auto.
Qed.

(** X11. Every request to the provider is one POST of the parameters it was
    given together with the two keys of the client, which replace whatever
    the parameters held under [keyapp] and [keyuser]; the other parameters
    are sent as they are.  The request gives back the body of the answer,
    or raises the error of the transport unchanged, and leaves the globals
    alone. *)
Theorem make_request_sends_the_keys :
  forall (self : Client) (params : dict) (w : World) (s : State),
    exists form,
      OrionoidClient._make_request self params w s =
        (outcome_of (post w (List.length (sent s)) form), sending form s) /\
      lookup "keyapp" form = Some (PStr (app_key self)) /\
      lookup "keyuser" form = Some (PStr (user_key self)) /\
      (forall k, k <> "keyapp" -> k <> "keyuser" -> lookup k form = lookup k params).
Proof.
  intros self params w s. eexists. split; [|split; [|split]].
  - unfold OrionoidClient._make_request, http_post, outcome_of, sending. reflexivity.
  - unfold update. cbn [fold_left fst snd].
    rewrite lookup_setitem_other by reflexivity. apply lookup_setitem_same.
  - unfold update. cbn [fold_left fst snd]. apply lookup_setitem_same.
  - intros k H1 H2. unfold update. cbn [fold_left fst snd].
    rewrite !lookup_setitem_other; [reflexivity| |];
      apply String.eqb_neq; congruence.
Qed.

Lemma make_request_sends_the_keys_witness :
  exists form,
    OrionoidClient._make_request (OrionoidClient.__init__ "app" "user")
      [("mode", PStr "user"); ("keyapp", PStr "other")] sample_world unstarted_state
      = (outcome_of (post sample_world 0 form), sending form unstarted_state) /\
    lookup "keyapp" form = Some (PStr "app") /\
    lookup "mode" form = Some (PStr "user").
Proof.
  destruct (make_request_sends_the_keys (OrionoidClient.__init__ "app" "user")
              [("mode", PStr "user"); ("keyapp", PStr "other")] sample_world unstarted_state)
    as (form & Hrun & Happ & _ & Hrest).
  exists form. split; [exact Hrun|]. split; [exact Happ|].
  rewrite (Hrest "mode"); [reflexivity| |]; discriminate.
Defined.

Lemma lookup_with_keys k params app user :
  String.eqb "keyapp" k = false -> String.eqb "keyuser" k = false ->
  lookup k (update params [("keyapp", PStr app); ("keyuser", PStr user)]) = lookup k params.
Proof.
  intros H1 H2. unfold update. cbn [fold_left fst snd].
  rewrite !lookup_setitem_other by assumption. reflexivity.
Qed.

(** the parameters of a search, one step after the other *)
Lemma search_params_steps query imdb_id tvdb_id tmdb_id media_type season episode limit
    video_quality sort :
  OrionoidClient.search_params query imdb_id tvdb_id tmdb_id media_type season episode limit
    video_quality sort =
  setitem "debridlookup" (PInt 0)
    (setitem "protocolnzb" (PInt 1)
       (setitem "protocoltorent" (PInt 1)
          (put_quality video_quality
             (put_numbers media_type season episode
                (put_if (truthy_opt tmdb_id) "idtmdb" (value_of_opt tmdb_id)
                   (put_if (truthy_opt tvdb_id) "idtvdb" (value_of_opt tvdb_id)
                      (put_if (truthy_opt imdb_id) "idimdb" (value_of_opt imdb_id)
                         (put_if (truthy_opt query) "query" (value_of_opt query)
                            [("mode", PStr "stream"); ("action", PStr "retrieve");
                             ("type", PStr media_type); ("limitcount", PInt limit);
                             ("sort", PStr sort)])))))))).
Proof.
  unfold OrionoidClient.search_params, put_quality, put_numbers, put_if.
  destruct season, episode, (String.eqb media_type "show"); reflexivity.
Qed.

Lemma lookup_put_if_other k k' (b : bool) v d :
  String.eqb k' k = false -> lookup k (put_if b k' v d) = lookup k d.
Proof. intros H. destruct b; [apply lookup_setitem_other; exact H|reflexivity]. Qed.

Lemma lookup_put_if_same k (b : bool) v d :
  lookup k (put_if b k v d) = if b then Some v else lookup k d.
Proof. destruct b; [apply lookup_setitem_same|reflexivity]. Qed.

Lemma lookup_put_numbers_other k media_type season episode d :
  String.eqb "numberseason" k = false -> String.eqb "numberepisode" k = false ->
  lookup k (put_numbers media_type season episode d) = lookup k d.
Proof.
  intros H1 H2. unfold put_numbers. destruct season, episode; try reflexivity.
  rewrite !lookup_put_if_other by assumption. reflexivity.
Qed.

Lemma lookup_put_quality_other k video_quality d :
  String.eqb "videoquality" k = false ->
  lookup k (put_quality video_quality d) = lookup k d.
Proof.
  intros H. unfold put_quality. destruct video_quality as [[|q qs]|]; try reflexivity.
  apply lookup_setitem_other. exact H.
Qed.

Lemma criterion_sent (c : option string) :
  (if truthy_opt c then Some (value_of_opt c) else None) = criterion c.
Proof. destruct c as [[|a c]|]; reflexivity. Qed.

Ltac through_form :=
  unfold search_form; rewrite ?lookup_with_keys by reflexivity;
  rewrite ?search_params_steps;
  repeat first
    [ rewrite lookup_setitem_other by reflexivity
    | rewrite lookup_put_if_other by reflexivity
    | rewrite lookup_put_numbers_other by reflexivity
    | rewrite lookup_put_quality_other by reflexivity ].

Lemma lookup_in_keys k d : lookup k d <> None -> In k (map fst d).
Proof.
  induction d as [|[k' v] d IH]; simpl; [congruence|].
  destruct (String.eqb_spec k' k); auto.
Qed.

Lemma keys_put_if k (b : bool) k' v d :
  lookup k (put_if b k' v d) <> None -> k = k' \/ lookup k d <> None.
Proof. destruct b; [apply lookup_setitem_key|auto]. Qed.

Lemma keys_put_numbers k media_type season episode d :
  lookup k (put_numbers media_type season episode d) <> None ->
  k = "numberepisode" \/ k = "numberseason" \/ lookup k d <> None.
Proof.
  unfold put_numbers. destruct season, episode; auto.
  intros H. apply keys_put_if in H as [->|H]; [auto|].
  apply keys_put_if in H as [->|H]; auto.
Qed.

Lemma keys_put_quality k video_quality d :
  lookup k (put_quality video_quality d) <> None -> k = "videoquality" \/ lookup k d <> None.
Proof.
  unfold put_quality. destruct video_quality as [[|q qs]|]; auto.
  apply lookup_setitem_key.
Qed.

Section SearchForm.
Context (self : Client) (query imdb_id tvdb_id tmdb_id : option string) (media_type : string)
  (season episode : option Z) (limit : Z) (video_quality : option (list string)) (sort : string).

Lemma search_form_query :
  lookup "query" (search_form self query imdb_id tvdb_id tmdb_id media_type season episode
                    limit video_quality sort) = criterion query.
Proof. through_form. rewrite lookup_put_if_same. apply criterion_sent. Qed.

Lemma search_form_idtvdb :
  lookup "idtvdb" (search_form self query imdb_id tvdb_id tmdb_id media_type season episode
                     limit video_quality sort) = criterion tvdb_id.
Proof.
  through_form. rewrite lookup_put_if_same, !lookup_put_if_other by reflexivity.
  apply criterion_sent.
Qed.

Lemma search_form_idtmdb :
  lookup "idtmdb" (search_form self query imdb_id tvdb_id tmdb_id media_type season episode
                     limit video_quality sort) = criterion tmdb_id.
Proof.
  through_form. rewrite lookup_put_if_same, !lookup_put_if_other by reflexivity.
  apply criterion_sent.
Qed.

Lemma search_form_videoquality :
  lookup "videoquality" (search_form self query imdb_id tvdb_id tmdb_id media_type season
                           episode limit video_quality sort) =
    match video_quality with
    | Some (q :: qs) => Some (PStr (join "," (q :: qs)))
    | _ => None
    end.
Proof.
  through_form. unfold put_quality.
  destruct video_quality as [[|q qs]|]; rewrite ?lookup_setitem_same; try reflexivity;
    through_form; reflexivity.
Qed.

Lemma search_form_numbers :
  let sent_for (n : option Z) :=
    match season, episode, n with
    | Some _, Some _, Some n => if String.eqb media_type "show" then Some (PInt n) else None
    | _, _, _ => None
    end in
  lookup "numberseason" (search_form self query imdb_id tvdb_id tmdb_id media_type season
                           episode limit video_quality sort) = sent_for season /\
  lookup "numberepisode" (search_form self query imdb_id tvdb_id tmdb_id media_type season
                            episode limit video_quality sort) = sent_for episode.
Proof.
  cbv zeta. split; through_form; unfold put_numbers;
    destruct season, episode; try (through_form; reflexivity);
    rewrite ?lookup_put_if_same, ?lookup_put_if_other by reflexivity;
    rewrite ?lookup_put_if_same;
    destruct (String.eqb media_type "show"); try reflexivity; through_form; reflexivity.
Qed.

Lemma search_form_constants :
  let form := search_form self query imdb_id tvdb_id tmdb_id media_type season episode
                limit video_quality sort in
  lookup "mode" form = Some (PStr "stream") /\
  lookup "action" form = Some (PStr "retrieve") /\
  lookup "type" form = Some (PStr media_type) /\
  lookup "limitcount" form = Some (PInt limit) /\
  lookup "sort" form = Some (PStr sort) /\
  lookup "protocoltorent" form = Some (PInt 1) /\
  lookup "protocolnzb" form = Some (PInt 1) /\
  lookup "debridlookup" form = Some (PInt 0).
Proof.
  cbv zeta. repeat split; through_form; rewrite ?lookup_setitem_same; reflexivity.
Qed.

Lemma search_form_keys k :
  lookup k (search_form self query imdb_id tvdb_id tmdb_id media_type season episode
              limit video_quality sort) <> None ->
  In k search_keys.
Proof.
  unfold search_form, update. cbn [fold_left fst snd]. rewrite search_params_steps.
  intros H.
  do 5 (apply lookup_setitem_key in H as [->|H]; [simpl; tauto|]).
  apply keys_put_quality in H as [->|H]; [simpl; tauto|].
  apply keys_put_numbers in H as [->|[->|H]]; [simpl; tauto|simpl; tauto|].
  do 4 (apply keys_put_if in H as [->|H]; [simpl; tauto|]).
  apply lookup_in_keys in H. cbn [map fst In] in H.
  repeat (destruct H as [<-|H]; [simpl; tauto|]). contradiction.
Qed.

End SearchForm.

Lemma single_search_form_eq settings client r :
  single_search_form settings client r =
    let tv := String.eqb (Main.t r) "tvsearch" in
    let tvdb_id := if tv then Main.tvdbid r else None in
    let tmdb_id := if tv then None else Main.tmdbid r in
    let empty := Main.no_criteria (Main.q r) (Main.imdbid r) tvdb_id tmdb_id in
    search_form client (if empty then Some "The Matrix" else Main.q r)
      (Main.clean_imdb_id (Main.imdbid r)) tvdb_id tmdb_id
      (if tv then "show" else "movie")
      (if tv then Main.season r else None) (if tv then Main.ep r else None)
      (if empty then 1 else Main.limit_results settings (Main.limit r)) None "best".
Proof.
  unfold single_search_form. destruct (String.eqb (Main.t r) "tvsearch"); reflexivity.
Qed.

(** X12. What a [tvsearch] or [movie] request asks the provider for: shows
    for [tvsearch] and movies for [movie]; the query, the TVDB id (for
    [tvsearch]) and the TMDB id (for [movie]) when they are given and not
    empty, and never the id of the other kind; and the computed limit.  A
    request with no query and no id at all is a connection test: it asks
    for "The Matrix" with limit 1, whatever limit it came with. *)
Theorem criteria_of_a_single_search :
  forall (P : Platform) (settings : Settings) (r : Main.Request) (w : World) (s : State)
         (client : Client),
    Main.t r = "tvsearch" \/ Main.t r = "movie" ->
    Main.check_api_key settings (Main.apikey r) = Ok tt ->
    orion_client (globals s) = Some client ->
    let tv := String.eqb (Main.t r) "tvsearch" in
    let empty := Main.no_criteria (Main.q r) (Main.imdbid r)
                   (if tv then Main.tvdbid r else None) (if tv then None else Main.tmdbid r) in
    exists form,
      sent (snd (Main.api_endpoint P settings r w s)) = (sent s ++ [form])%list /\
      lookup "type" form = Some (PStr (if tv then "show" else "movie")) /\
      lookup "query" form = (if empty then Some (PStr "The Matrix") else criterion (Main.q r)) /\
      lookup "idtvdb" form = (if tv then criterion (Main.tvdbid r) else None) /\
      lookup "idtmdb" form = (if tv then None else criterion (Main.tmdbid r)) /\
      lookup "limitcount" form =
        Some (PInt (if empty then 1 else Main.limit_results settings (Main.limit r))).
Proof.
  intros P settings r w s client Ht Hkey Hclient. cbv zeta.
  exists (single_search_form settings client r).
  split; [exact (api_endpoint_single_search P settings r w s client Ht Hkey Hclient)|].
  rewrite single_search_form_eq. cbv zeta.
  rewrite search_form_query, search_form_idtvdb, search_form_idtmdb.
  destruct (search_form_constants client
              (if Main.no_criteria (Main.q r) (Main.imdbid r)
                    (if String.eqb (Main.t r) "tvsearch" then Main.tvdbid r else None)
                    (if String.eqb (Main.t r) "tvsearch" then None else Main.tmdbid r)
               then Some "The Matrix" else Main.q r)
              (Main.clean_imdb_id (Main.imdbid r))
              (if String.eqb (Main.t r) "tvsearch" then Main.tvdbid r else None)
              (if String.eqb (Main.t r) "tvsearch" then None else Main.tmdbid r)
              (if String.eqb (Main.t r) "tvsearch" then "show" else "movie")
              (if String.eqb (Main.t r) "tvsearch" then Main.season r else None)
              (if String.eqb (Main.t r) "tvsearch" then Main.ep r else None)
              (if Main.no_criteria (Main.q r) (Main.imdbid r)
                    (if String.eqb (Main.t r) "tvsearch" then Main.tvdbid r else None)
                    (if String.eqb (Main.t r) "tvsearch" then None else Main.tmdbid r)
               then 1 else Main.limit_results settings (Main.limit r))
              None "best") as (_ & _ & Htype & Hlimit & _).
  cbv zeta in Htype, Hlimit. rewrite Htype, Hlimit.
  split; [reflexivity|]. split.
  { destruct (Main.no_criteria _ _ _ _); reflexivity. }
  split; [destruct (String.eqb (Main.t r) "tvsearch"); reflexivity|].
  split; [destruct (String.eqb (Main.t r) "tvsearch"); reflexivity|reflexivity].
Qed.

Lemma criteria_of_a_single_search_witness :
  exists form,
    sent (snd (Main.api_endpoint sample_platform (default_settings "user")
                 (request "tvsearch" None None None (Some 50)) sample_world started_state))
      = [form] /\
    lookup "query" form = Some (PStr "The Matrix") /\
    lookup "limitcount" form = Some (PInt 1).
Proof.
  destruct (criteria_of_a_single_search sample_platform (default_settings "user")
              (request "tvsearch" None None None (Some 50)) sample_world started_state
              (OrionoidClient.__init__ "WYC8JEBTCABDCB6SDNNGMJHP8AVSBEHV" "user")
              (or_introl eq_refl) eq_refl eq_refl)
    as (form & Hsent & _ & Hquery & _ & _ & Hlimit).
  exists form. split; [exact Hsent|]. split; [exact Hquery|exact Hlimit].
Defined.

(** X13. The numbers of a season and of an episode reach the provider only
    together and only from [tvsearch]: a [tvsearch] request sends
    [numberseason] and [numberepisode] when it has both [season] and [ep],
    and neither of them when one is missing; a [movie] request never sends
    them. *)
Theorem numbers_of_an_episode_are_sent_together :
  forall (P : Platform) (settings : Settings) (r : Main.Request) (w : World) (s : State)
         (client : Client),
    Main.t r = "tvsearch" \/ Main.t r = "movie" ->
    Main.check_api_key settings (Main.apikey r) = Ok tt ->
    orion_client (globals s) = Some client ->
    let sent_for (n : option Z) :=
      match Main.season r, Main.ep r, n with
      | Some _, Some _, Some n => if String.eqb (Main.t r) "tvsearch" then Some (PInt n) else None
      | _, _, _ => None
      end in
    exists form,
      sent (snd (Main.api_endpoint P settings r w s)) = (sent s ++ [form])%list /\
      lookup "numberseason" form = sent_for (Main.season r) /\
      lookup "numberepisode" form = sent_for (Main.ep r).
Proof.
  intros P settings r w s client Ht Hkey Hclient. cbv zeta.
  exists (single_search_form settings client r).
  split; [exact (api_endpoint_single_search P settings r w s client Ht Hkey Hclient)|].
  rewrite single_search_form_eq. cbv zeta.
  match goal with
  | |- lookup _ (search_form ?c ?q ?i ?tv ?tm ?m ?se ?ep ?l ?vq ?so) = _ /\ _ =>
      pose proof (search_form_numbers c q i tv tm m se ep l vq so) as H
  end.
  cbv zeta in H. destruct H as [H1 H2]. rewrite H1, H2.
  destruct Ht as [Ht|Ht]; rewrite Ht; cbn [String.eqb Ascii.eqb Bool.eqb];
    destruct (Main.season r), (Main.ep r); split; reflexivity.
Qed.

Lemma numbers_of_an_episode_are_sent_together_witness :
  exists form,
    sent (snd (Main.api_endpoint sample_platform (default_settings "user")
                 {| Main.t := "tvsearch"; Main.apikey := None; Main.q := Some "show";
                    Main.cat := None; Main.imdbid := None; Main.tvdbid := None;
                    Main.tmdbid := None; Main.season := Some 2; Main.ep := None;
                    Main.limit := Some 100; Main.offset := Some 0; Main.extended := None |}
                 sample_world started_state))
      = [form] /\
    lookup "numberseason" form = None /\ lookup "numberepisode" form = None.
Proof.
  exact (numbers_of_an_episode_are_sent_together sample_platform (default_settings "user")
           {| Main.t := "tvsearch"; Main.apikey := None; Main.q := Some "show";
              Main.cat := None; Main.imdbid := None; Main.tvdbid := None;
              Main.tmdbid := None; Main.season := Some 2; Main.ep := None;
              Main.limit := Some 100; Main.offset := Some 0; Main.extended := None |}
           sample_world started_state
           (OrionoidClient.__init__ "WYC8JEBTCABDCB6SDNNGMJHP8AVSBEHV" "user")
           (or_introl eq_refl) eq_refl eq_refl).
Defined.

(** X14. A search asks for nothing but what its parameters say: the form
    always has the mode "stream", the action "retrieve", the type, the
    limit and the sort it was called with, and the three constants
    [protocoltorent], [protocolnzb] and [debridlookup]; a quality filter
    only for a list of qualities that is not empty, joined by commas; and
    no parameter besides the criteria, the numbers of the episode and the
    two keys. *)
Theorem search_form_is_closed :
  forall (self : Client) (query imdb_id tvdb_id tmdb_id : option string) (media_type : string)
         (season episode : option Z) (limit : Z) (video_quality : option (list string))
         (sort : string) (w : World) (s : State),
    exists form,
      OrionoidClient.search_streams self query imdb_id tvdb_id tmdb_id media_type season episode
        limit video_quality sort w s
        = (outcome_of (post w (List.length (sent s)) form), sending form s) /\
      lookup "mode" form = Some (PStr "stream") /\
      lookup "action" form = Some (PStr "retrieve") /\
      lookup "type" form = Some (PStr media_type) /\
      lookup "limitcount" form = Some (PInt limit) /\
      lookup "sort" form = Some (PStr sort) /\
      lookup "protocoltorent" form = Some (PInt 1) /\
      lookup "protocolnzb" form = Some (PInt 1) /\
      lookup "debridlookup" form = Some (PInt 0) /\
      lookup "videoquality" form =
        match video_quality with
        | Some (q :: qs) => Some (PStr (join "," (q :: qs)))
        | _ => None
        end /\
      (forall k, lookup k form <> None -> In k search_keys).
Proof.
  intros self query imdb_id tvdb_id tmdb_id media_type season episode limit video_quality
    sort w s.
  exists (search_form self query imdb_id tvdb_id tmdb_id media_type season episode limit
            video_quality sort).
  split; [reflexivity|].
  pose proof (search_form_constants self query imdb_id tvdb_id tmdb_id media_type season
                episode limit video_quality sort) as H.
  cbv zeta in H. destruct H as (H1 & H2 & H3 & H4 & H5 & H6 & H7 & H8).
  repeat (split; [assumption|]).
  split; [apply search_form_videoquality|]. apply search_form_keys.
Qed.

Lemma search_form_is_closed_witness :
  exists form,
    OrionoidClient.search_streams (OrionoidClient.__init__ "app" "user") (Some "matrix") None
      None None "movie" (Some 1) (Some 2) 10 (Some ["hd1080"; "hd720"]) "best"
      sample_world unstarted_state
      = (outcome_of (post sample_world 0 form), sending form unstarted_state) /\
    lookup "videoquality" form = Some (PStr "hd1080,hd720") /\
    In "videoquality" search_keys.
Proof.
  destruct (search_form_is_closed (OrionoidClient.__init__ "app" "user") (Some "matrix") None
              None None "movie" (Some 1) (Some 2) 10 (Some ["hd1080"; "hd720"]) "best"
              sample_world unstarted_state)
    as (form & Hrun & _ & _ & _ & _ & _ & _ & _ & _ & Hquality & Hkeys).
  exists form. split; [exact Hrun|]. split; [exact Hquality|].
  apply Hkeys. rewrite Hquality. discriminate.
Defined.

(** ** Single searches *)

(** a [tvsearch] or [movie] request from the POST to the response *)
Lemma api_endpoint_single_run P settings r w s client :
  Main.t r = "tvsearch" \/ Main.t r = "movie" ->
  Main.check_api_key settings (Main.apikey r) = Ok tt ->
  orion_client (globals s) = Some client ->
  let form := single_search_form settings client r in
  Main.api_endpoint P settings r w s =
    match post w (List.length (sent s)) form with
    | Answer body =>
        match Main.check_results body with
        | Ok _ =>
            (handled match TorznabBuilder.build_search_results P body (Main.t r) with
                     | Ok doc => Ok (Main.Response doc "application/xml")
                     | Raise e => Raise e
                     end,
             searched w (sending form s))
        | Raise e => (handled (Raise e), sending form s)
        end
    | Failure e => (handled (Raise (exn_of_transport e)), sending form s)
    end.
Proof.
  intros Ht Hkey Hclient. cbv zeta.
  assert (Hnot : Main.t r <> "caps") by (destruct Ht as [-> | ->]; discriminate).
  rewrite api_endpoint_handled, (api_endpoint_body_dispatch _ _ _ _ _ client Hnot Hkey Hclient).
  unfold dispatch, single_search_form. cbv zeta.
  destruct Ht as [Ht|Ht]; rewrite Ht; cbn [String.eqb Ascii.eqb Bool.eqb];
    rewrite mbind_render; cbn [fst snd];
    rewrite (search_orionoid_run _ _ _ _ _ _ _ _ w s client Hclient); cbv zeta;
    (destruct (post w _ _) as [body|e]; [destruct (Main.check_results body)|]); reflexivity.
Qed.

(** X15. A [tvsearch] or [movie] request notes the time of its search in the
    globals exactly when the search succeeds, that is when the provider
    answers and the answer passes the check of [search_orionoid] (it
    reports success and its streams have a length): the time is then the
    reading of the clock, whatever becomes of the rendering, and every
    other global stays as it is; a search that fails changes no global. *)
Theorem search_notes_its_success :
  forall (P : Platform) (settings : Settings) (r : Main.Request) (w : World) (s : State)
         (client : Client),
    Main.t r = "tvsearch" \/ Main.t r = "movie" ->
    Main.check_api_key settings (Main.apikey r) = Ok tt ->
    orion_client (globals s) = Some client ->
    globals (snd (Main.api_endpoint P settings r w s)) =
      match survivor (post w (List.length (sent s)) (single_search_form settings client r)) with
      | Some _ => with_search (globals s) (clock w (ticks s))
      | None => globals s
      end.
Proof.
  intros P settings r w s client Ht Hkey Hclient.
  rewrite (api_endpoint_single_run P settings r w s client Ht Hkey Hclient). cbv zeta.
  unfold survivor.
  destruct (post w _ _) as [body|e]; [destruct (Main.check_results body)|]; reflexivity.
Qed.

Lemma search_notes_its_success_witness :
  last_successful_search
    (globals (snd (Main.api_endpoint sample_platform (default_settings "user")
                     (request "movie" (Some "matrix") None None (Some 100))
                     sample_world started_state)))
  = Some (10 # 1)%Q.
Proof.
  rewrite (search_notes_its_success sample_platform (default_settings "user")
             (request "movie" (Some "matrix") None None (Some 100)) sample_world started_state
             (OrionoidClient.__init__ "WYC8JEBTCABDCB6SDNNGMJHP8AVSBEHV" "user")
             (or_intror eq_refl) eq_refl eq_refl).
  reflexivity.
Defined.

Lemma check_results_accepted body records :
  reports_success body = true ->
  records_of body = Ok records ->
  Main.check_results body = Ok tt.
Proof.
  unfold reports_success, records_of, Main.check_results. intros Hsuccess Hrecords.
  destruct (py_get body "result" (PDict [])) as [res|e]; [|discriminate]. cbn [bind] in *.
  destruct (py_get res "status" PNone) as [status|e]; [|discriminate]. cbn [bind] in *.
  rewrite Hsuccess. cbn [negb].
  apply bind_inv in Hrecords as (data & Hdata & Hrecords).
  apply bind_inv in Hrecords as (streams & Hstreams & Hiter).
  rewrite (bind_ok _ _ _ Hdata), (bind_ok _ _ _ Hstreams).
  rewrite (bind_ok _ _ _ (py_iter_len _ _ Hiter)). reflexivity.
Qed.

(** X16. A [tvsearch] or [movie] search that succeeds is answered with the
    document of what the provider sent: when the provider reports success
    and its records can be read, the response is the search-results
    document with the number of the records as total and the items of the
    records, in their order, rendered for the function of the request; one
    request was sent and the success noted. *)
Theorem search_is_answered_with_the_records :
  forall (P : Platform) (settings : Settings) (r : Main.Request) (w : World) (s : State)
         (client : Client) (body : value) (records : list value),
    Main.t r = "tvsearch" \/ Main.t r = "movie" ->
    Main.check_api_key settings (Main.apikey r) = Ok tt ->
    orion_client (globals s) = Some client ->
    post w (List.length (sent s)) (single_search_form settings client r) = Answer body ->
    reports_success body = true ->
    records_of body = Ok records ->
    Main.api_endpoint P settings r w s =
      (Ok (Main.Response
             (feed (List.length records) (TorznabBuilder.build_items P records (Main.t r)))
             "application/xml"),
       searched w (sending (single_search_form settings client r) s)).
Proof.
  intros P settings r w s client body records Ht Hkey Hclient Hpost Hsuccess Hrecords.
  rewrite (api_endpoint_single_run P settings r w s client Ht Hkey Hclient). cbv zeta.
  rewrite Hpost, (check_results_accepted body records Hsuccess Hrecords).
  rewrite (build_search_results_records P body (Main.t r) records Hrecords). reflexivity.
Qed.

Lemma search_is_answered_with_the_records_witness :
  exists item,
    TorznabBuilder._build_item sample_platform sample_record "movie" = Some item /\
    fst (Main.api_endpoint sample_platform (default_settings "user")
           (request "movie" (Some "matrix") None None (Some 100)) sample_world started_state)
    = Ok (Main.Response (feed 1 [item]) "application/xml").
Proof.
  eexists. split.
  - vm_compute. reflexivity.
  - rewrite (search_is_answered_with_the_records sample_platform (default_settings "user")
               (request "movie" (Some "matrix") None None (Some 100)) sample_world started_state
               (OrionoidClient.__init__ "WYC8JEBTCABDCB6SDNNGMJHP8AVSBEHV" "user")
               _ [sample_record] (or_intror eq_refl) eq_refl eq_refl eq_refl eq_refl eq_refl).
    reflexivity.
Defined.

Lemma check_results_refused body res status message :
  py_get body "result" (PDict []) = Ok res ->
  py_get res "status" PNone = Ok status ->
  eq_str status "success" = false ->
  py_get res "message" (PStr "Unknown error") = Ok message ->
  Main.check_results body = Raise (Exception ("Orionoid API error: " ++ str message)).
Proof.
  intros Hres Hstatus Hnot Hmessage. unfold Main.check_results.
  rewrite (bind_ok _ _ _ Hres), (bind_ok _ _ _ Hstatus), Hnot. cbn [negb].
  rewrite (bind_ok _ _ _ Hres), (bind_ok _ _ _ Hmessage). reflexivity.
Qed.

(** X17. When the provider answers a [tvsearch] or [movie] search with a
    status other than "success", the request is answered with the error
    document 100 whose description is "Orionoid API error: " followed by
    the message of the provider, or by "Unknown error" when it gives none;
    the search is not noted as a success.  (The description has to be text
    that lxml accepts.) *)
Theorem refusal_of_the_provider_is_reported :
  forall (P : Platform) (settings : Settings) (r : Main.Request) (w : World) (s : State)
         (client : Client) (body : value) (res : dict),
    Main.t r = "tvsearch" \/ Main.t r = "movie" ->
    Main.check_api_key settings (Main.apikey r) = Ok tt ->
    orion_client (globals s) = Some client ->
    post w (List.length (sent s)) (single_search_form settings client r) = Answer body ->
    py_get body "result" (PDict []) = Ok (PDict res) ->
    eq_str (get_or (PDict res) "status" PNone) "success" = false ->
    let description :=
      "Orionoid API error: " ++ str (get_or (PDict res) "message" (PStr "Unknown error")) in
    xml_compatible description = true ->
    Main.api_endpoint P settings r w s =
      (Ok (Main.Response (error_document 100 description) "application/xml"),
       sending (single_search_form settings client r) s).
Proof.
  intros P settings r w s client body res Ht Hkey Hclient Hpost Hres Hstatus
    description Hxml.
  rewrite (api_endpoint_single_run P settings r w s client Ht Hkey Hclient). cbv zeta.
  rewrite Hpost.
  rewrite (check_results_refused body (PDict res) (get_or (PDict res) "status" PNone)
             (get_or (PDict res) "message" (PStr "Unknown error")) Hres eq_refl Hstatus eq_refl).
  cbn [handled str_exn]. fold description. rewrite Hxml. reflexivity.
Qed.

Lemma refusal_of_the_provider_is_reported_witness :
  fst (Main.api_endpoint sample_platform (default_settings "user")
         (request "movie" (Some "matrix") None None (Some 100)) refusing_world started_state)
  = Ok (Main.Response (error_document 100 "Orionoid API error: Invalid user key")
          "application/xml").
Proof.
  rewrite (refusal_of_the_provider_is_reported sample_platform (default_settings "user")
             (request "movie" (Some "matrix") None None (Some 100)) refusing_world started_state
             (OrionoidClient.__init__ "WYC8JEBTCABDCB6SDNNGMJHP8AVSBEHV" "user")
             (PDict [("result", PDict [("status", PStr "error");
                                      ("message", PStr "Invalid user key")])])
             [("status", PStr "error"); ("message", PStr "Invalid user key")]
             (or_intror eq_refl) eq_refl eq_refl eq_refl eq_refl eq_refl eq_refl).
  reflexivity.
Defined.

(** ** Parameters that are not read *)

(** X18. The answer to a request depends only on the parameters its
    function reads.  The offset and [extended] are read by none, so that
    there is no paging: every page of a search is the first.  The TVDB id,
    the season and the episode count only for [tvsearch], the TMDB id only
    for [movie], the category only for [search], and the path of
    [api_endpoint_with_id] not at all. *)
Theorem unread_parameters_change_nothing :
  forall (P : Platform) (settings : Settings) (r r' : Main.Request) (w : World) (s : State),
    reads_alike r r' ->
    Main.api_endpoint P settings r w s = Main.api_endpoint P settings r' w s /\
    forall indexer_id,
      Main.api_endpoint_with_id P settings indexer_id r w s = Main.api_endpoint P settings r' w s.
Proof.
  intros P settings r r' w s (Ht & Hkey & Hq & Himdb & Hlimit & Hsearch & Htv & Hmovie).
  assert (H : Main.api_endpoint P settings r w s = Main.api_endpoint P settings r' w s).
  { unfold Main.api_endpoint. f_equal.
    unfold Main.api_endpoint_body, Main.general_search, Main.tolerated_search.
    rewrite <- Ht, <- Hkey, <- Hq, <- Himdb, <- Hlimit.
    destruct (String.eqb_spec (Main.t r) "caps"); [reflexivity|].
    destruct (String.eqb_spec (Main.t r) "search") as [E|_];
      [rewrite <- (Hsearch E); reflexivity|].
    destruct (String.eqb_spec (Main.t r) "tvsearch") as [E|_];
      [destruct (Htv E) as (<- & <- & <-); reflexivity|].
    destruct (String.eqb_spec (Main.t r) "movie") as [E|_];
      [rewrite <- (Hmovie E); reflexivity|].
    reflexivity. }
  split; [exact H|]. intros indexer_id. exact H.
Qed.

Lemma unread_parameters_change_nothing_witness :
  Main.api_endpoint sample_platform (default_settings "user")
    {| Main.t := "search"; Main.apikey := None; Main.q := Some "matrix"; Main.cat := None;
       Main.imdbid := None; Main.tvdbid := Some "81189"; Main.tmdbid := None;
       Main.season := Some 1; Main.ep := Some 2; Main.limit := Some 100;
       Main.offset := Some 100; Main.extended := Some 1 |}
    sample_world started_state
  = Main.api_endpoint sample_platform (default_settings "user")
      (request "search" (Some "matrix") None None (Some 100)) sample_world started_state.
Proof.
  refine (proj1 (unread_parameters_change_nothing sample_platform (default_settings "user")
                   _ _ sample_world started_state _)).
  unfold reads_alike. cbn. repeat split; discriminate.
Defined.

(** ** The category parameter *)

Lemma int_of_digits_from_acc (d : Decimal.uint) (acc : positive) :
  int_of_digits_from (Z.pos acc) (NilEmpty.string_of_uint d) = Z.pos (Pos.of_uint_acc d acc).
Proof.
  revert acc. induction d; intros acc; cbn [NilEmpty.string_of_uint Pos.of_uint_acc];
    [reflexivity|..];
    cbn [int_of_digits_from]; rewrite <- IHd; f_equal; simpl N_of_ascii;
    simpl Z.of_N; lia.
Qed.

Lemma int_of_digits_from_zero (d : Decimal.uint) :
  int_of_digits_from 0 (NilEmpty.string_of_uint d) = Z.of_N (Pos.of_uint d).
Proof.
  induction d; cbn [NilEmpty.string_of_uint Pos.of_uint]; [reflexivity|exact IHd|..];
    cbn [int_of_digits_from]; simpl N_of_ascii; simpl Z.of_N; simpl Z.add;
    apply int_of_digits_from_acc.
Qed.

Lemma string_of_uint_nonnil (d : Decimal.uint) :
  d <> Decimal.Nil -> NilZero.string_of_uint d = NilEmpty.string_of_uint d.
Proof. destruct d; [contradiction|..]; reflexivity. Qed.

Lemma str_of_Z_pos p : str_of_Z (Z.pos p) = NilEmpty.string_of_uint (Pos.to_uint p).
Proof.
  unfold str_of_Z. cbn [Z.to_int NilZero.string_of_int].
  apply string_of_uint_nonnil, DecimalPos.Unsigned.to_uint_nonnil.
Qed.

Lemma int_of_str n : 0 <= n -> int_of_digits (str_of_Z n) = n.
Proof.
  intros Hn. destruct n as [|p|p]; [reflexivity| |lia].
  rewrite str_of_Z_pos. unfold int_of_digits.
  rewrite int_of_digits_from_zero, DecimalPos.Unsigned.of_to. reflexivity.
Qed.

Lemma digits_of_uint (d : Decimal.uint) :
  str_forallb is_ascii_digit (NilEmpty.string_of_uint d) = true.
Proof. induction d; cbn [NilEmpty.string_of_uint str_forallb]; [reflexivity|..]; exact IHd. Qed.

Lemma isdigit_str n : 0 <= n -> isdigit (str_of_Z n) = true.
Proof.
  intros Hn. destruct n as [|p|p]; [reflexivity| |lia].
  rewrite str_of_Z_pos.
  pose proof (digits_of_uint (Pos.to_uint p)) as Hd.
  pose proof (DecimalPos.Unsigned.to_uint_nonnil p) as Hnil.
  destruct (Pos.to_uint p); [contradiction|..]; exact Hd.
Qed.

Lemma split_digits sep s :
  is_ascii_digit sep = false -> str_forallb is_ascii_digit s = true -> split sep s = [s].
Proof.
  intros Hsep. induction s as [|c s IH]; [reflexivity|].
  cbn [str_forallb split]. intros H. apply andb_true_iff in H as [Hc Hs].
  destruct (Ascii.eqb_spec c sep) as [->|_]; [congruence|].
  rewrite (IH Hs). reflexivity.
Qed.

Lemma split_digits_then sep s rest :
  is_ascii_digit sep = false -> str_forallb is_ascii_digit s = true ->
  split sep (s ++ String sep rest) = s :: split sep rest.
Proof.
  intros Hsep. induction s as [|c s IH].
  - intros _. cbn [String.append split]. rewrite Ascii.eqb_refl. reflexivity.
  - cbn [str_forallb String.append split]. intros H. apply andb_true_iff in H as [Hc Hs].
    destruct (Ascii.eqb_spec c sep) as [->|_]; [congruence|].
    rewrite (IH Hs). reflexivity.
Qed.

Lemma isdigit_digits s : isdigit s = true -> str_forallb is_ascii_digit s = true.
Proof. destruct s; [discriminate|]. exact (fun H => H). Qed.

Lemma split_join_digits (parts : list string) :
  parts <> [] -> Forall (fun p => isdigit p = true) parts ->
  split "," (join "," parts) = parts.
Proof.
  induction parts as [|p parts IH]; [contradiction|].
  intros _ Hall. inversion Hall as [|p' parts' Hp Hparts]; subst.
  destruct parts as [|q parts].
  - cbn [join]. apply split_digits; [reflexivity|apply isdigit_digits; exact Hp].
  - change (join "," (p :: q :: parts)) with (p ++ String "," (join "," (q :: parts))).
    rewrite split_digits_then; [|reflexivity|apply isdigit_digits; exact Hp].
    rewrite IH; [reflexivity|discriminate|exact Hparts].
Qed.

Lemma categories_of_codes (codes : list Z) :
  Forall (fun c => 0 <= c) codes ->
  Main.categories (join "," (map str_of_Z codes)) = codes.
Proof.
  intros Hall. unfold Main.categories.
  destruct codes as [|c codes]; [reflexivity|].
  assert (Hdigits : Forall (fun p => isdigit p = true) (map str_of_Z (c :: codes))).
  { apply Forall_map. revert Hall. apply Forall_impl. intros n. apply isdigit_str. }
  rewrite split_join_digits; [|discriminate|exact Hdigits].
  assert (Hfilter : forall l, Forall (fun p => isdigit p = true) l -> filter isdigit l = l).
  { induction l as [|x l IHl]; [reflexivity|].
    intros Hl. inversion Hl; subst. cbn [filter].
    match goal with H : isdigit x = true |- _ => rewrite H end.
    f_equal. apply IHl. assumption. }
  rewrite (Hfilter _ Hdigits), map_map.
  clear Hdigits Hfilter. induction Hall as [|n l Hn Hl IHl]; [reflexivity|].
  cbn [map]. rewrite (int_of_str n Hn). f_equal. exact IHl.
Qed.

(** X19. The category parameter is read back as it is written: for a list
    of category codes joined by commas, the codes that [search] classifies
    are those of the list, so that the search is for shows exactly when
    one of them is a TV category, from 5000 to 5999, and for movies
    otherwise. *)
Theorem category_codes_are_read_back :
  forall codes : list Z,
    Forall (fun c => 0 <= c) codes ->
    let cat := join "," (map str_of_Z codes) in
    Main.categories cat = codes /\
    (Main.media_type_of cat = "show" <-> exists c, In c codes /\ 5000 <= c < 6000) /\
    (Main.media_type_of cat = "movie" <-> forall c, In c codes -> c < 5000 \/ 6000 <= c).
Proof.
  intros codes Hall. cbv zeta.
  pose proof (categories_of_codes codes Hall) as Hcodes.
  split; [exact Hcodes|].
  unfold Main.media_type_of. rewrite Hcodes.
  destruct (existsb _ codes) eqn:E.
  - apply existsb_exists in E as (c & Hin & Hc).
    apply andb_true_iff in Hc as [H1 H2]. apply Z.leb_le in H1. apply Z.ltb_lt in H2.
    split.
    + split; [intros _; exists c; auto|reflexivity].
    + split; [discriminate|]. intros Hnone. specialize (Hnone c Hin). lia.
  - split.
    + split; [discriminate|]. intros (c & Hin & Hc).
      assert (E' : existsb (fun c0 => (5000 <=? c0) && (c0 <? 6000)) codes = true).
      { apply existsb_exists. exists c. split; [exact Hin|].
        apply andb_true_iff. split; [apply Z.leb_le|apply Z.ltb_lt]; lia. }
      congruence.
    + split; [|reflexivity]. intros _ c Hin.
      destruct (Z.leb_spec 5000 c) as [H1|H1]; [|left; exact H1].
      destruct (Z.ltb_spec c 6000) as [H2|H2]; [|right; exact H2].
      assert (E' : existsb (fun c0 => (5000 <=? c0) && (c0 <? 6000)) codes = true).
      { apply existsb_exists. exists c. split; [exact Hin|].
        apply andb_true_iff. split; [apply Z.leb_le|apply Z.ltb_lt]; lia. }
      congruence.
Qed.

Lemma category_codes_are_read_back_witness :
  Main.categories "2000,5030,2040" = [2000; 5030; 2040] /\
  Main.media_type_of "2000,5030,2040" = "show".
Proof.
  destruct (category_codes_are_read_back [2000; 5030; 2040]) as (Hcodes & Hshow & _).
  - repeat constructor; discriminate.
  - split; [exact Hcodes|]. apply Hshow. exists 5030. simpl. split; [tauto|lia].
Defined.

(** ** The health check of the client *)

Lemma elapsed_ms_run start w s :
  OrionoidClient.elapsed_ms start w s =
    (Ok (PInt (int_of_Q ((clock w (ticks s) - start) * 1000))), ticked s).
Proof. reflexivity. Qed.

Lemma client_health_check_failure self w s e :
  post w (List.length (sent s)) (user_form self) = Failure e ->
  OrionoidClient.health_check self w s =
    (Ok (health_result "unhealthy" (failure_message e)
           (int_of_Q ((clock w (S (ticks s)) - clock w (ticks s)) * 1000)) PNone),
     ticked (ticked (sending (user_form self) s))).
Proof.
  intros Hpost.
  unfold OrionoidClient.health_check, OrionoidClient.health_check_body,
    OrionoidClient.get_user_info, OrionoidClient._make_request, http_post, mbind at 1 2 3, now,
    try_except.
  cbn [fst snd sent ticks globals List.length].
  fold (user_form self). rewrite Hpost. cbn [exn_of_transport].
  destruct e; reflexivity.
Qed.

Ltac health_result_found :=
  do 5 eexists;
  (split; [reflexivity|]); (split; [reflexivity|]); (split; [reflexivity|]);
  (split; [cbn [ticks ticked]; lia|]).

Lemma client_health_check_answer self w s body :
  post w (List.length (sent s)) (user_form self) = Answer body ->
  exists status message response_time user_info s',
    OrionoidClient.health_check self w s =
      (Ok (health_result status message response_time user_info), s') /\
    sent s' = (sent s ++ [user_form self])%list /\
    globals s' = globals s /\
    (ticks s <= ticks s')%nat /\
    (status = "healthy" /\ reports_success body = true \/
     status = "unhealthy" /\ user_info = PNone).
Proof.
  intros Hpost.
  unfold OrionoidClient.health_check, OrionoidClient.health_check_body,
    OrionoidClient.get_user_info, OrionoidClient._make_request, http_post, mbind at 1 2 3, now,
    try_except.
  cbn [fst snd sent ticks globals List.length].
  fold (user_form self). rewrite Hpost.
  rewrite elapsed_ms_run. unfold reports_success.
  unfold mbind, lift, ret. cbn [fst snd].
  destruct (py_get body "result" (PDict [])) as [res|e]; cbn [bind];
    [|rewrite elapsed_ms_run; health_result_found; right; split; reflexivity].
  destruct (py_get res "status" PNone) as [status|e];
    [|rewrite elapsed_ms_run; health_result_found; right; split; reflexivity].
  destruct (eq_str status "success").
  - repeat match goal with
           | |- context [let (_, _) := match ?r with Ok _ => _ | Raise _ => _ end in _] =>
               destruct r;
               [|rewrite elapsed_ms_run; health_result_found; right; split; reflexivity]
           end.
    health_result_found. left; split; reflexivity.
  - destruct (py_get res "message" (PStr "API returned error status"));
      [|rewrite elapsed_ms_run; health_result_found; right; split; reflexivity].
    health_result_found. right; split; reflexivity.
Qed.

Lemma client_health_check_cases self w s :
  exists status message response_time user_info s',
    OrionoidClient.health_check self w s =
      (Ok (health_result status message response_time user_info), s') /\
    sent s' = (sent s ++ [user_form self])%list /\
    globals s' = globals s /\
    (ticks s <= ticks s')%nat /\
    (status = "healthy" /\
     (exists body, post w (List.length (sent s)) (user_form self) = Answer body /\
                   reports_success body = true) \/
     status = "unhealthy" /\ user_info = PNone).
Proof.
  destruct (post w (List.length (sent s)) (user_form self)) as [body|e] eqn:Hpost.
  - destruct (client_health_check_answer self w s body Hpost)
      as (status & message & rt & ui & s' & Hrun & Hsent & Hglobals & Hticks & Hstatus).
    exists status, message, rt, ui, s'. repeat (split; [assumption|]).
    destruct Hstatus as [[Hs Hb]|Hs]; [left; eauto|right; exact Hs].
  - rewrite (client_health_check_failure self w s e Hpost).
    do 5 eexists. repeat (split; [reflexivity|]).
    split; [cbn [ticks ticked sending]; lia|]. right. split; reflexivity.
Qed.

(** X20. The health check of the client never raises.  It sends one
    request, for the account of the user, and leaves the globals alone; its
    result always has the same four fields; it says "healthy" only when the
    provider answered and reported success, and otherwise "unhealthy",
    without account. *)
Theorem client_health_check_always_answers :
  forall (self : Client) (w : World) (s : State),
    exists status message response_time user_info s',
      OrionoidClient.health_check self w s =
        (Ok (health_result status message response_time user_info), s') /\
      sent s' = (sent s ++ [user_form self])%list /\
      globals s' = globals s /\
      (status = "healthy" /\
       (exists body, post w (List.length (sent s)) (user_form self) = Answer body /\
                     reports_success body = true) \/
       status = "unhealthy" /\ user_info = PNone).
Proof.
  intros self w s.
  destruct (client_health_check_cases self w s)
    as (status & message & rt & ui & s' & Hrun & Hsent & Hglobals & _ & Hstatus).
  exists status, message, rt, ui, s'. auto.
Qed.

(** X21. When the request of the health check fails, the result is
    unhealthy and its message names the failure: a timeout, a refused
    connection, invalid keys for the statuses 401 and 403, the status for
    any other, and the message of the error for anything else.  The
    response time is the time between two readings of the clock, in
    milliseconds. *)
Theorem client_health_check_names_the_failure :
  forall (self : Client) (w : World) (s : State) (e : transport_error),
    post w (List.length (sent s)) (user_form self) = Failure e ->
    fst (OrionoidClient.health_check self w s) =
      Ok (health_result "unhealthy"
            match e with
            | Timeout _ => "Connection timeout"
            | BadStatus 401 _ | BadStatus 403 _ => "Authentication failed - invalid API keys"
            | BadStatus code _ => "HTTP error " ++ str_of_Z code
            | NoConnection _ => "Cannot connect to Orionoid API"
            | OtherFailure msg => "Unexpected error: " ++ msg
            end
            (int_of_Q ((clock w (S (ticks s)) - clock w (ticks s)) * 1000)) PNone).
Proof.
  intros self w s e Hpost. rewrite (client_health_check_failure self w s e Hpost).
  cbn [fst]. f_equal. unfold health_result. do 4 f_equal.
  destruct e as [msg|code msg|msg|msg]; try reflexivity.
  unfold failure_message.
  destruct (Z.eqb_spec code 401) as [->|H1]; [reflexivity|].
  destruct (Z.eqb_spec code 403) as [->|H3]; [reflexivity|].
  cbn [orb].
  destruct code as [|p|p]; try reflexivity.
  repeat (destruct p as [p|p|]; try reflexivity); congruence.
Qed.

Lemma client_health_check_names_the_failure_witness :
  fst (OrionoidClient.health_check (OrionoidClient.__init__ "app" "user")
         {| post := fun _ _ => Failure (BadStatus 403 "Forbidden");
            clock := fun n => (Z.of_nat n # 4)%Q |}
         unstarted_state)
  = Ok (health_result "unhealthy" "Authentication failed - invalid API keys" 250 PNone).
Proof.
  exact (client_health_check_names_the_failure (OrionoidClient.__init__ "app" "user")
           {| post := fun _ _ => Failure (BadStatus 403 "Forbidden");
              clock := fun n => (Z.of_nat n # 4)%Q |}
           unstarted_state (BadStatus 403 "Forbidden") eq_refl).
Defined.

(** ** Start-up *)

Lemma lifespan_startup_run settings w s :
  Main.lifespan_startup settings w s =
    (Ok tt,
     {| globals := {| orion_client :=
                        Some (OrionoidClient.__init__ (orionoid_app_api_key settings)
                                (orionoid_user_api_key settings));
                      startup_time := Some (clock w (ticks s));
                      last_successful_search := last_successful_search (globals s);
                      health_check_cache := health_check_cache (globals s);
                      health_check_cache_time := health_check_cache_time (globals s) |};
        sent := (sent s ++ [user_form (OrionoidClient.__init__ (orionoid_app_api_key settings)
                                         (orionoid_user_api_key settings))])%list;
        ticks := S (ticks s) |}).
Proof.
  unfold Main.lifespan_startup, mbind, get_globals, now, put_globals, try_except,
    OrionoidClient.get_user_info, OrionoidClient._make_request, http_post, ret.
  cbn [fst snd globals sent ticks].
  fold (user_form (OrionoidClient.__init__ (orionoid_app_api_key settings)
                     (orionoid_user_api_key settings))).
  destruct (post w _ _); reflexivity.
Qed.

(** X22. Start-up always succeeds, whatever the provider answers to its
    connection test, a failure of the transport included: it installs a
    client with the configured keys, notes the time, sends the one request
    of the test, and leaves the rest of the globals as it was. *)
Theorem startup_survives_the_connection_test :
  forall (settings : Settings) (w : World) (s : State),
    let client := OrionoidClient.__init__ (orionoid_app_api_key settings)
                                          (orionoid_user_api_key settings) in
    Main.lifespan_startup settings w s =
      (Ok tt,
       {| globals := {| orion_client := Some client;
                        startup_time := Some (clock w (ticks s));
                        last_successful_search := last_successful_search (globals s);
                        health_check_cache := health_check_cache (globals s);
                        health_check_cache_time := health_check_cache_time (globals s) |};
          sent := (sent s ++ [user_form client])%list;
          ticks := S (ticks s) |}).
Proof. intros settings w s. apply lifespan_startup_run. Qed.

(** ** The health endpoint *)

Lemma any_status_dicts status (checks : list (string * dict)) :
  exists found,
    Main.any_status status (map (fun kc => (fst kc, PDict (snd kc))) checks) = Ok found.
Proof.
  induction checks as [|[k c] checks (found & IH)]; [exists false; reflexivity|].
  cbn [map fst snd Main.any_status fold_right] in *.
  unfold Main.any_status in IH. rewrite IH. cbn [py_get bind]. eauto.
Qed.

Lemma mbind_run {A B : Type} (c : M A) (k : A -> M B) w s a s1 :
  c w s = (Ok a, s1) -> mbind c k w s = k a w s1.
Proof. intros H. unfold mbind. rewrite H. reflexivity. Qed.

Lemma any_status_found status k d (before after : list (string * dict)) :
  lookup "status" d = Some (PStr status) ->
  Main.any_status status
    (map (fun kc => (fst kc, PDict (snd kc))) (before ++ (k, d) :: after)%list) = Ok true.
Proof.
  intros Hd. induction before as [|[k' c] before IH].
  - destruct (any_status_dicts status after) as (found & Hfound).
    cbn [app map fst snd Main.any_status fold_right].
    unfold Main.any_status in Hfound. rewrite Hfound.
    cbn [py_get bind]. rewrite Hd. cbn [eq_str]. rewrite String.eqb_refl. reflexivity.
  - cbn [app map fst snd Main.any_status fold_right].
    unfold Main.any_status in IH. rewrite IH. cbn [py_get bind].
    rewrite orb_true_r. reflexivity.
Qed.

(** the [try] statement of [health_check]: the client is asked, and its
    result copied into the two sub-checks *)
Lemma upstream_checks_run client orionoid_check auth_check (h : exn -> M (dict * dict * string)) w s :
  exists oc ac overall s',
    try_except (Main.upstream_checks client orionoid_check auth_check) h w s
      = (Ok (oc, ac, overall), s') /\
    sent s' = (sent s ++ [user_form client])%list /\
    globals s' = globals s /\
    (ticks s <= ticks s')%nat /\
    (overall = "unhealthy" \/ overall = "healthy") /\
    (lookup "status" oc = Some (PStr "healthy") /\
     (exists body, post w (List.length (sent s)) (user_form client) = Answer body /\
                   reports_success body = true) \/
     lookup "status" oc = Some (PStr "unhealthy")).
Proof.
  destruct (client_health_check_cases client w s)
    as (status & message & rt & ui & s' & Hrun & Hsent & Hglobals & Hticks & Hstatus).
  unfold try_except, Main.upstream_checks.
  rewrite (mbind_run _ _ _ _ _ _ Hrun).
  unfold health_result, mbind, lift, ret.
  cbn [py_getitem lookup String.eqb Ascii.eqb Bool.eqb fst snd].
  destruct (eq_str (PStr status) "healthy") eqn:E.
  - do 4 eexists. split; [reflexivity|]. repeat (split; [assumption|]).
    split; [right; reflexivity|].
    rewrite !lookup_setitem_other by reflexivity. rewrite lookup_setitem_same.
    destruct Hstatus as [[-> Hbody]|[-> _]]; [left; auto|discriminate E].
  - do 4 eexists. split; [reflexivity|]. repeat (split; [assumption|]).
    split; [left; reflexivity|].
    rewrite !lookup_setitem_other by reflexivity. rewrite lookup_setitem_same.
    destruct Hstatus as [[-> _]|[-> _]]; [discriminate E|right; reflexivity].
Qed.

(** a fresh health check, step by step: what becomes of the state and of
    the sub-checks before the response is built *)
Lemma fresh_health_check_run P settings w s :
  exists oc ac sc overall uptime s1,
    let client_ok := match orion_client (globals s) with Some _ => true | None => false end in
    let checks := check_values (checks_of client_ok oc ac sc) in
    Main.fresh_health_check P settings w s = Main.respond P settings overall checks uptime w s1 /\
    globals s1 = globals s /\
    match orion_client (globals s) with
    | Some client =>
        sent s1 = (sent s ++ [user_form client])%list /\
        (lookup "status" oc = Some (PStr "healthy") /\
         (exists body, post w (List.length (sent s)) (user_form client) = Answer body /\
                       reports_success body = true) \/
         lookup "status" oc = Some (PStr "unhealthy"))
    | None => sent s1 = sent s /\ lookup "status" oc = Some (PStr "unhealthy")
    end /\
    match last_successful_search (globals s) with
    | Some last =>
        exists k, (ticks s <= k)%nat /\
                  (Main.Qlt_bool 300 (clock w k - last) = true ->
                   lookup "status" sc = Some (PStr "degraded"))
    | None => lookup "status" sc = Some (PStr "degraded")
    end /\
    (overall = "unhealthy" \/ overall = "degraded" \/ overall = "healthy") /\
    (Main.any_status "unhealthy" checks = Ok true -> overall = "unhealthy") /\
    (Main.any_status "degraded" checks = Ok true -> overall <> "healthy").
Proof.
  unfold Main.fresh_health_check.
  rewrite (mbind_run _ _ w s (clock w (ticks s)) (ticked s) eq_refl).
  rewrite (mbind_run _ _ w (ticked s) (globals s) (ticked s) eq_refl).
  cbv zeta.
  rewrite (mbind_run _ _ w (ticked s) (clock w (S (ticks s))) (ticked (ticked s)) eq_refl).
  set (oc0 := [("status", PStr "unhealthy"); ("message", PStr "Not checked");
               ("responseTime", PNone);
               ("lastChecked", PStr (isoformat P (clock w (S (ticks s)))))]).
  set (ac0 := [("status", PStr "unhealthy"); ("message", PStr "Not checked");
               ("userInfo", PNone)]).
  set (client_ok := match orion_client (globals s) with Some _ => true | None => false end).
  (* the upstream checks *)
  match goal with
  | |- context [mbind ?c _ w (ticked (ticked s))] => set (checked := c)
  end.
  assert (Hchecked : exists oc ac overall0 s2,
    checked w (ticked (ticked s)) = (Ok (oc, ac, overall0), s2) /\
    globals s2 = globals s /\ (ticks s <= ticks s2)%nat /\
    (overall0 = "unhealthy" \/ overall0 = "healthy") /\
    match orion_client (globals s) with
    | Some client =>
        sent s2 = (sent s ++ [user_form client])%list /\
        (lookup "status" oc = Some (PStr "healthy") /\
         (exists body, post w (List.length (sent s)) (user_form client) = Answer body /\
                       reports_success body = true) \/
         lookup "status" oc = Some (PStr "unhealthy"))
    | None => sent s2 = sent s /\ lookup "status" oc = Some (PStr "unhealthy")
    end).
  { subst checked. destruct (orion_client (globals s)) as [client|].
    - match goal with
      | |- context [try_except _ ?h] =>
          destruct (upstream_checks_run client oc0 ac0 h w (ticked (ticked s)))
            as (oc & ac & overall0 & s2 & Hrun & Hsent & Hglobals & Hticks & Hoverall & Hstatus)
      end.
      exists oc, ac, overall0, s2. split; [exact Hrun|].
      split; [exact Hglobals|]. split; [cbn [ticks ticked] in Hticks; lia|].
      split; [exact Hoverall|]. split; [exact Hsent|exact Hstatus].
    - do 4 eexists. split; [reflexivity|]. split; [reflexivity|].
      split; [cbn [ticks ticked]; lia|]. split; [left; reflexivity|].
      split; reflexivity. }
  destruct Hchecked as (oc & ac & overall0 & s2 & Hrun & Hglobals & Hticks & Hoverall & Hclient).
  rewrite (mbind_run _ _ _ _ _ _ Hrun). clear Hrun checked.
  (* the search check *)
  match goal with
  | |- context [mbind ?c _ w s2] => set (search_step := c)
  end.
  assert (Hsearched : exists sc s3,
    search_step w s2 = (Ok sc, s3) /\ globals s3 = globals s2 /\ sent s3 = sent s2 /\
    match last_successful_search (globals s) with
    | Some last =>
        exists k, (ticks s <= k)%nat /\
                  (Main.Qlt_bool 300 (clock w k - last) = true ->
                   lookup "status" sc = Some (PStr "degraded"))
    | None => lookup "status" sc = Some (PStr "degraded")
    end).
  { subst search_step. destruct (last_successful_search (globals s)) as [last|].
    - rewrite (mbind_run _ _ w s2 (clock w (ticks s2)) (ticked s2) eq_refl).
      destruct (Main.Qlt_bool 300 (clock w (ticks s2) - last)) eqn:Hold;
        do 2 eexists; (split; [reflexivity|]); (split; [reflexivity|]);
        (split; [reflexivity|]); exists (ticks s2); (split; [exact Hticks|]).
      + intros _. reflexivity.
      + rewrite Hold. discriminate.
    - do 2 eexists. repeat (split; [reflexivity|]). reflexivity. }
  destruct Hsearched as (sc & s3 & Hrun & Hglobals3 & Hsent3 & Hsearch).
  rewrite (mbind_run _ _ _ _ _ _ Hrun). clear Hrun search_step.
  (* the overall status *)
  fold (checks_of client_ok oc ac sc).
  change (("orionoid_api", PDict oc)
          :: ("authentication", PDict ac)
          :: ("search_capability", PDict sc)
          :: ("dependencies",
              PDict [("status", PStr (if client_ok then "healthy" else "unhealthy"));
                     ("httpClient", PStr (if client_ok then "connected" else "not initialized"));
                     ("xmlBuilder", PStr "operational")]) :: nil)
    with (check_values (checks_of client_ok oc ac sc)).
  set (checks := check_values (checks_of client_ok oc ac sc)).
  destruct (any_status_dicts "unhealthy" (checks_of client_ok oc ac sc)) as (u & Hu).
  destruct (any_status_dicts "degraded" (checks_of client_ok oc ac sc)) as (d & Hd).
  fold (check_values (checks_of client_ok oc ac sc)) in Hu, Hd. fold checks in Hu, Hd.
  rewrite (mbind_run _ _ w s3 u s3); [|unfold lift; rewrite Hu; reflexivity].
  rewrite (mbind_run _ _ w s3 (if u then false else d) s3);
    [|destruct u; [reflexivity|unfold lift; rewrite Hd; reflexivity]].
  (* the uptime *)
  match goal with
  | |- context [mbind ?c _ w s3] => set (elapsed := c)
  end.
  assert (Huptime : exists uptime s4,
    elapsed w s3 = (Ok uptime, s4) /\ globals s4 = globals s3 /\ sent s4 = sent s3).
  { subst elapsed. destruct (startup_time (globals s)) as [started|];
      [destruct (truthy_Q started)|]; do 2 eexists; repeat split. }
  destruct Huptime as (uptime & s4 & Hrun & Hglobals4 & Hsent4).
  rewrite (mbind_run _ _ _ _ _ _ Hrun). clear Hrun elapsed.
  exists oc, ac, sc. eexists. exists uptime, s4. cbv zeta.
  split; [reflexivity|].
  split; [congruence|].
  split.
  { destruct (orion_client (globals s)); destruct Hclient as [Hs Hc];
      (split; [congruence|exact Hc]). }
  split; [exact Hsearch|].
  fold client_ok. fold checks. rewrite Hu, Hd.
  split; [|split].
  - destruct u; [auto|]. destruct d; [auto|]. destruct Hoverall as [-> | ->]; auto.
  - intros [= ->]. reflexivity.
  - intros [= ->]. destruct u; discriminate.
Qed.

Lemma respond_run P settings overall_status checks uptime w s :
  exists content code s',
    Main.respond P settings overall_status checks uptime w s
      = (Ok (Main.JSONResponse content (PInt code)), s') /\
    status_of content = Some (PStr overall_status) /\
    code = (if String.eqb overall_status "unhealthy" then 503 else 200) /\
    sent s' = sent s /\
    (overall_status = "unhealthy" -> globals s' = globals s) /\
    py_getitem content "_status_code" = Ok (PInt code).
Proof.
  unfold Main.respond, mbind, now, get_globals, put_globals, ret. cbn [fst snd].
  destruct (String.eqb_spec overall_status "unhealthy") as [->|Hne]; cbn [negb fst snd].
  - do 3 eexists. split; [reflexivity|]. repeat split.
  - do 3 eexists. split; [reflexivity|]. repeat split. contradiction.
Qed.

Lemma health_check_forced P settings w s :
  Main.health_check P settings true w s = Main.fresh_health_check P settings w s.
Proof. rewrite health_check_run, cached_result_forced. reflexivity. Qed.

(** a fresh health check in which a sub-check is unhealthy *)
Lemma fresh_health_check_unhealthy P settings w s :
  (match orion_client (globals s) with
   | Some client =>
       forall body, post w (List.length (sent s)) (user_form client) = Answer body ->
                    reports_success body = false
   | None => True
   end) ->
  exists content s',
    Main.fresh_health_check P settings w s = (Ok (Main.JSONResponse content (PInt 503)), s') /\
    status_of content = Some (PStr "unhealthy") /\
    sent s' = match orion_client (globals s) with
              | Some client => (sent s ++ [user_form client])%list
              | None => sent s
              end /\
    globals s' = globals s.
Proof.
  intros Hdown.
  destruct (fresh_health_check_run P settings w s)
    as (oc & ac & sc & overall & uptime & s1 & Hrun & Hglobals & Hclient & _ & _ & Hbad & _).
  cbv zeta in Hrun, Hbad.
  assert (Hoc : lookup "status" oc = Some (PStr "unhealthy")).
  { destruct (orion_client (globals s)) as [client|].
    - destruct Hclient as [_ [[_ (body & Hbody & Hsuccess)]|Hoc]]; [|exact Hoc].
      rewrite (Hdown body Hbody) in Hsuccess. discriminate.
    - exact (proj2 Hclient). }
  assert (Hoverall : overall = "unhealthy").
  { apply Hbad. exact (any_status_found "unhealthy" "orionoid_api" oc [] _ Hoc). }
  subst overall. rewrite Hrun.
  destruct (respond_run P settings "unhealthy"
              (check_values
                 (checks_of match orion_client (globals s) with Some _ => true | None => false end
                    oc ac sc)) uptime w s1)
    as (content & code & s' & Hrespond & Hstatus & Hcode & Hsent & Hkeep & _).
  exists content, s'. rewrite Hrespond, Hcode. split; [reflexivity|].
  split; [exact Hstatus|]. split.
  - rewrite Hsent. destruct (orion_client (globals s)); exact (proj1 Hclient).
  - rewrite (Hkeep eq_refl). exact Hglobals.
Qed.

(** X23. In every state the process can reach, the health endpoint
    answers, forced or not, with a JSON response: its status code is the
    one recorded in its content, and it is 503 when the overall status is
    "unhealthy" and 200 in every other case. *)
Theorem health_endpoint_always_answers :
  forall (P : Platform) (settings : Settings) (w : World) (s : State) (force : bool),
    reachable P settings w s ->
    exists response,
      fst (Main.health_check P settings force w s) = Ok response /\
      health_answer response.
Proof.
  intros P settings w s force Hreach.
  rewrite health_check_run.
  destruct (cached_result_outcome force w s) as (hit & Hhit).
  destruct (Main.cached_result force w s) as [r s1] eqn:Hcached.
  cbn [fst] in Hhit. subst r. destruct hit as [cache|].
  - assert (Hcache : health_check_cache (globals s) = Some cache).
    { apply (cached_result_some force w s). rewrite Hcached. reflexivity. }
    pose proof (reachable_cache_ok P settings w s Hreach) as Hok.
    unfold cache_ok in Hok. rewrite Hcache in Hok.
    destruct Hok as [Hstatus Hcode]. rewrite Hcode. cbn [fst].
    eexists. split; [reflexivity|].
    exists cache, 200. split; [reflexivity|]. split; [exact Hcode|].
    right. split; [reflexivity|exact Hstatus].
  - destruct (fresh_health_check_run P settings w s1)
      as (oc & ac & sc & overall & uptime & s2 & Hrun & _).
    cbv zeta in Hrun. rewrite Hrun.
    match goal with
    | |- context [Main.respond P settings overall ?checks uptime w s2] =>
        destruct (respond_run P settings overall checks uptime w s2)
          as (content & code & s' & Hrespond & Hstatus & Hcode & _ & _ & Hrecorded)
    end.
    rewrite Hrespond. cbn [fst]. eexists. split; [reflexivity|].
    exists content, code. split; [reflexivity|]. split; [exact Hrecorded|].
    rewrite Hstatus, Hcode.
    destruct (String.eqb_spec overall "unhealthy") as [->|Hne].
    + left. split; reflexivity.
    + right. split; [reflexivity|]. exists overall. split; [reflexivity|exact Hne].
Qed.

Lemma health_endpoint_always_answers_witness :
  exists response,
    fst (Main.health_check sample_platform (default_settings "user") false failing_world
           after_first_check) = Ok response /\
    health_answer response.
Proof.
  apply (health_endpoint_always_answers sample_platform (default_settings "user") failing_world
           after_first_check false).
  apply reach_health, reach_startup, reach_start. reflexivity.
Defined.

(** X24. While the provider does not answer the request of the health
    check with a report of success (it fails, or answers something else), a
    forced health check answers 503 with the overall status "unhealthy",
    having sent that one request, and leaves the globals as they were:
    nothing is cached. *)
Theorem health_when_the_provider_is_down :
  forall (P : Platform) (settings : Settings) (w : World) (s : State) (client : Client),
    orion_client (globals s) = Some client ->
    (forall body, post w (List.length (sent s)) (user_form client) = Answer body ->
                  reports_success body = false) ->
    exists content s',
      Main.health_check P settings true w s
        = (Ok (Main.JSONResponse content (PInt 503)), s') /\
      status_of content = Some (PStr "unhealthy") /\
      sent s' = (sent s ++ [user_form client])%list /\
      globals s' = globals s.
Proof.
  intros P settings w s client Hclient Hdown. rewrite health_check_forced.
  pose proof (fresh_health_check_unhealthy P settings w s) as H.
  rewrite Hclient in H. exact (H Hdown).
Qed.

Lemma health_when_the_provider_is_down_witness :
  exists content s',
    Main.health_check sample_platform (default_settings "user") true failing_world
      after_first_check
      = (Ok (Main.JSONResponse content (PInt 503)), s') /\
    status_of content = Some (PStr "unhealthy") /\
    globals s' = globals after_first_check.
Proof.
  destruct (health_when_the_provider_is_down sample_platform (default_settings "user")
              failing_world after_first_check
              (OrionoidClient.__init__ "WYC8JEBTCABDCB6SDNNGMJHP8AVSBEHV" "user")
              eq_refl)
    as (content & s' & Hrun & Hstatus & _ & Hglobals).
  - intros body Hbody. discriminate Hbody.
  - exists content, s'. auto.
Defined.

(** ** What the handlers leave alone *)

Section KeepingFields.
Context {X : Type} (f : Globals -> X).
Hypothesis f_search : forall g time, f (with_search g time) = f g.

Lemma keeps_field_search_orionoid query imdb_id tvdb_id tmdb_id media_type season episode limit :
  keeps f (Main.search_orionoid query imdb_id tvdb_id tmdb_id media_type season episode limit).
Proof.
  unfold Main.search_orionoid. cbv zeta.
  apply keeps_mbind; [apply keeps_get_globals|intros g].
  destruct (orion_client g); [|apply keeps_raise].
  apply keeps_mbind; [unfold OrionoidClient.search_streams, OrionoidClient._make_request;
                      apply keeps_http_post|intros results].
  apply keeps_mbind; [apply keeps_lift|intros _].
  apply keeps_mbind; [apply keeps_now|intros now_].
  apply (keeps_update f (fun g => with_search g now_)).
  - intros g0. apply f_search.
  - intros _. apply keeps_ret.
Qed.

Lemma keeps_field_general_search r limit : keeps f (Main.general_search r limit).
Proof.
  unfold Main.general_search, Main.tolerated_search.
  destruct (truthy_opt (Main.cat r)); [apply keeps_field_search_orionoid|].
  repeat first [ apply keeps_field_search_orionoid | apply keeps_ret | apply keeps_lift
               | apply keeps_mbind; [ | intros ]
               | apply keeps_try_except; [ | intros ] ].
Qed.

Lemma keeps_field_api_endpoint P settings r : keeps f (Main.api_endpoint P settings r).
Proof.
  unfold Main.api_endpoint, Main.api_endpoint_body, Main.render_results.
  repeat first [ apply keeps_field_search_orionoid | apply keeps_field_general_search
               | apply keeps_ret | apply keeps_lift | apply keeps_raise
               | apply keeps_get_globals
               | apply keeps_mbind; [ | intros ]
               | apply keeps_try_except; [ | intros ]
               | match goal with
                 | |- keeps _ (if ?b then _ else _) => destruct b
                 | |- keeps _ (match ?x with Some _ => _ | None => _ end) => destruct x
                 | |- keeps _ (match ?e with HTTPException _ _ => _ | _ => _ end) => destruct e
                 end ].
Qed.

End KeepingFields.

Lemma keeps_installed_health_check P settings force :
  keeps installed (Main.health_check P settings force).
Proof.
  intros w s.
  destruct (caches_health_check P settings force w s) as [->|(content & time & _ & _ & ->)];
    reflexivity.
Qed.

(** the client of a process is the one start-up installs, and while there
    is none nothing is cached *)
Lemma reachable_client P settings w s :
  reachable P settings w s ->
  (orion_client (globals s) = None /\ health_check_cache (globals s) = None) \/
  orion_client (globals s) =
    Some (OrionoidClient.__init__ (orionoid_app_api_key settings)
            (orionoid_user_api_key settings)).
Proof.
  induction 1 as [s Hs|s _ IH|s force _ IH|s r _ IH].
  - left. rewrite Hs. split; reflexivity.
  - right. rewrite lifespan_startup_run. reflexivity.
  - pose proof (keeps_installed_health_check P settings force w s) as Hkeep.
    unfold installed in Hkeep. injection Hkeep as Hclient _.
    destruct IH as [[Hnone Hcache]|Hsome]; [left|right; congruence].
    split; [congruence|].
    rewrite health_check_run.
    assert (Hmiss : Main.cached_result force w s = (Ok None, s)).
    { unfold Main.cached_result, mbind, get_globals, ret. cbn [fst snd].
      rewrite Hcache. destruct (negb force); reflexivity. }
    rewrite Hmiss.
    pose proof (fresh_health_check_unhealthy P settings w s) as Hfresh.
    rewrite Hnone in Hfresh.
    destruct (Hfresh I) as (content & s' & Hrun & _ & _ & Hglobals).
    rewrite Hrun. cbn [snd]. rewrite Hglobals. exact Hcache.
  - pose proof (keeps_field_api_endpoint orion_client (fun g time => eq_refl) P settings r w s)
      as Hclient.
    pose proof (keeps_api_endpoint P settings r w s) as Hcache.
    unfold cache_of in Hcache. injection Hcache as Hcache _.
    rewrite Hclient, Hcache. exact IH.
Qed.

(** X25. No handler changes the client or the time of start-up: the
    client of a process, once start-up has run, is the one made from the
    configured keys, and from then on no request to the API is turned away
    with status 503. *)
Theorem client_is_installed_for_good :
  forall (P : Platform) (settings : Settings),
    (forall r, keeps installed (Main.api_endpoint P settings r)) /\
    (forall force, keeps installed (Main.health_check P settings force)) /\
    (forall w s,
        reachable P settings w s ->
        orion_client (globals s) = None \/
        orion_client (globals s) =
          Some (OrionoidClient.__init__ (orionoid_app_api_key settings)
                  (orionoid_user_api_key settings))) /\
    (forall w s r detail,
        orion_client (globals s) <> None ->
        fst (Main.api_endpoint P settings r w s) <> Raise (HTTPException 503 detail)).
Proof.
  intros P settings. split; [|split; [|split]].
  - intros r. apply keeps_field_api_endpoint. reflexivity.
  - intros force. apply keeps_installed_health_check.
  - intros w s Hreach.
    destruct (reachable_client P settings w s Hreach) as [[Hnone _]|Hsome]; auto.
  - intros w s r detail Hclient.
    destruct (String.eqb_spec (Main.t r) "caps") as [Ht|Ht].
    + apply (api_endpoint_with_client P settings r w s). left. exact Ht.
    + destruct (check_api_key_cases settings (Main.apikey r)) as [Hkey|Hkey].
      * apply (api_endpoint_with_client P settings r w s). right. split; assumption.
      * rewrite api_endpoint_handled, (api_endpoint_body_forbidden _ _ _ _ _ _ Ht Hkey).
        discriminate.
Qed.

Lemma client_is_installed_for_good_witness :
  installed (globals (snd (Main.api_endpoint sample_platform (default_settings "user")
                             (request "movie" (Some "matrix") None None (Some 100))
                             sample_world started_state)))
  = installed (globals started_state).
Proof.
  exact (proj1 (client_is_installed_for_good sample_platform (default_settings "user"))
           (request "movie" (Some "matrix") None None (Some 100)) sample_world started_state).
Defined.

(** X26. Before start-up, the health endpoint answers 503 with the overall
    status "unhealthy", forced or not: nothing is cached while there is no
    client, nothing is sent, and the globals stay as they are. *)
Theorem health_before_startup :
  forall (P : Platform) (settings : Settings) (w : World) (s : State) (force : bool),
    reachable P settings w s ->
    orion_client (globals s) = None ->
    exists content s',
      Main.health_check P settings force w s
        = (Ok (Main.JSONResponse content (PInt 503)), s') /\
      status_of content = Some (PStr "unhealthy") /\
      sent s' = sent s /\
      globals s' = globals s.
Proof.
  intros P settings w s force Hreach Hnone.
  destruct (reachable_client P settings w s Hreach) as [[_ Hcache]|Hsome]; [|congruence].
  rewrite health_check_run.
  assert (Hmiss : Main.cached_result force w s = (Ok None, s)).
  { unfold Main.cached_result, mbind, get_globals, ret. cbn [fst snd].
    rewrite Hcache. destruct (negb force); reflexivity. }
  rewrite Hmiss.
  pose proof (fresh_health_check_unhealthy P settings w s) as Hfresh.
  rewrite Hnone in Hfresh. exact (Hfresh I).
Qed.

Lemma health_before_startup_witness :
  exists content s',
    Main.health_check sample_platform (default_settings "user") false sample_world
      unstarted_state
      = (Ok (Main.JSONResponse content (PInt 503)), s') /\
    status_of content = Some (PStr "unhealthy") /\
    sent s' = [] /\
    globals s' = Main.initial_globals.
Proof.
  apply (health_before_startup sample_platform (default_settings "user") sample_world
           unstarted_state false).
  - apply reach_start. reflexivity.
  - reflexivity.
Defined.

Lemma Qlt_bool_true x y : (x < y)%Q -> Main.Qlt_bool x y = true.
Proof.
  intros H. unfold Main.Qlt_bool. destruct (Qle_bool y x) eqn:E; [|reflexivity].
  apply Qle_bool_iff in E. lra.
Qed.

(** X27. A forced health check reports "healthy" only for a process that
    has searched with success, and not more than 300 seconds before: when
    no search has succeeded yet, or the last success is more than 300
    seconds behind every reading of the clock from now on, the overall
    status is "degraded" or "unhealthy", never "healthy". *)
Theorem healthy_needs_a_recent_search :
  forall (P : Platform) (settings : Settings) (w : World) (s : State),
    match last_successful_search (globals s) with
    | Some last => forall k, (ticks s <= k)%nat -> (300 < clock w k - last)%Q
    | None => True
    end ->
    exists content code s',
      Main.health_check P settings true w s = (Ok (Main.JSONResponse content code), s') /\
      (status_of content = Some (PStr "degraded") \/
       status_of content = Some (PStr "unhealthy")).
Proof.
  intros P settings w s Hlast. rewrite health_check_forced.
  destruct (fresh_health_check_run P settings w s)
    as (oc & ac & sc & overall & uptime & s1 & Hrun & _ & _ & Hsearch & Hoverall & _ & Hdegraded).
  cbv zeta in Hrun, Hdegraded.
  assert (Hsc : lookup "status" sc = Some (PStr "degraded")).
  { destruct (last_successful_search (globals s)) as [last|]; [|exact Hsearch].
    destruct Hsearch as (k & Hk & Hold). apply Hold, Qlt_bool_true, Hlast, Hk. }
  pose proof (Hdegraded
                (any_status_found "degraded" "search_capability" sc
                   [("orionoid_api", oc); ("authentication", ac)] _ Hsc)) as Hnot.
  rewrite Hrun.
  destruct (respond_run P settings overall
              (check_values
                 (checks_of match orion_client (globals s) with Some _ => true | None => false end
                    oc ac sc)) uptime w s1)
    as (content & code & s' & Hrespond & Hstatus & _).
  exists content, (PInt code), s'. split; [exact Hrespond|]. rewrite Hstatus.
  destruct Hoverall as [-> | [-> | ->]]; [right|left|contradiction]; reflexivity.
Qed.

Lemma healthy_needs_a_recent_search_witness :
  exists content code s',
    Main.health_check sample_platform (default_settings "user") true sample_world
      started_state = (Ok (Main.JSONResponse content code), s') /\
    (status_of content = Some (PStr "degraded") \/
     status_of content = Some (PStr "unhealthy")).
Proof.
  exact (healthy_needs_a_recent_search sample_platform (default_settings "user") sample_world
           started_state I).
Defined.

Lemma cached_result_sent force w s : sent (snd (Main.cached_result force w s)) = sent s.
Proof.
  unfold Main.cached_result, mbind, get_globals, now, ret. cbn [fst snd].
  destruct (negb force); [|reflexivity].
  destruct (health_check_cache (globals s)) as [c|]; [|reflexivity].
  destruct (health_check_cache_time (globals s)) as [t|]; [|reflexivity].
  destruct (truthy c && truthy_Q t); reflexivity.
Qed.

(** ** The keys *)

Lemma lookup_keys params app user :
  lookup "keyapp" (update params [("keyapp", PStr app); ("keyuser", PStr user)])
    = Some (PStr app) /\
  lookup "keyuser" (update params [("keyapp", PStr app); ("keyuser", PStr user)])
    = Some (PStr user).
Proof.
  unfold update. cbn [fold_left fst snd]. split.
  - rewrite lookup_setitem_other by reflexivity. apply lookup_setitem_same.
  - apply lookup_setitem_same.
Qed.

(** the forms a request to the API sends are search forms of the client *)
Lemma api_endpoint_posts P settings r w s :
  exists new,
    sent (snd (Main.api_endpoint P settings r w s)) = (sent s ++ new)%list /\
    forall client, orion_client (globals s) = Some client ->
      Forall (fun form => exists q i tv tm m se ep l,
                            form = request_form client q i tv tm m se ep l) new.
Proof.
  rewrite api_endpoint_handled. cbn [snd].
  assert (Hnone : exists new,
            sent s = (sent s ++ new)%list /\
            forall client, orion_client (globals s) = Some client ->
              Forall (fun form => exists q i tv tm m se ep l,
                                    form = request_form client q i tv tm m se ep l) new).
  { exists []. rewrite app_nil_r. split; [reflexivity|]. intros. constructor. }
  destruct (String.eqb_spec (Main.t r) "caps") as [Ht|Ht].
  { rewrite (api_endpoint_body_caps _ _ _ _ _ Ht). exact Hnone. }
  destruct (check_api_key_cases settings (Main.apikey r)) as [Hkey|Hkey];
    [|rewrite (api_endpoint_body_forbidden _ _ _ _ _ _ Ht Hkey); exact Hnone].
  destruct (orion_client (globals s)) as [client|] eqn:Hclient;
    [|rewrite (api_endpoint_body_no_client _ _ _ _ _ Ht Hkey Hclient); exact Hnone].
  rewrite (api_endpoint_body_dispatch _ _ _ _ _ client Ht Hkey Hclient).
  unfold dispatch. cbv zeta.
  destruct (String.eqb (Main.t r) "search").
  { rewrite mbind_render. cbn [snd]. unfold Main.general_search.
    destruct (truthy_opt (Main.cat r)) eqn:Hcat.
    - eexists. split.
      + exact (proj1 (search_orionoid_sent _ _ _ _ _ _ _ _ w s client Hclient)).
      + intros c [= <-]. constructor; [|constructor]. do 8 eexists. reflexivity.
    - pose proof (general_search_both r (Main.limit_results settings (Main.limit r)) w s
                    client Hclient Hcat) as [_ Hsent].
      cbv zeta in Hsent. unfold Main.general_search in Hsent. rewrite Hcat in Hsent.
      eexists. split; [exact Hsent|].
      intros c [= <-]. repeat constructor; do 8 eexists; reflexivity. }
  destruct (String.eqb (Main.t r) "tvsearch").
  { rewrite mbind_render. cbn [snd]. eexists. split.
    - exact (proj1 (search_orionoid_sent _ _ _ _ _ _ _ _ w s client Hclient)).
    - intros c [= <-]. constructor; [|constructor]. do 8 eexists. reflexivity. }
  destruct (String.eqb (Main.t r) "movie").
  { rewrite mbind_render. cbn [snd]. eexists. split.
    - exact (proj1 (search_orionoid_sent _ _ _ _ _ _ _ _ w s client Hclient)).
    - intros c [= <-]. constructor; [|constructor]. do 8 eexists. reflexivity. }
  unfold mbind, lift, ret. destruct (TorznabBuilder.build_error _ _); exact Hnone.
Qed.

(** the forms a health check sends are forms of the client *)
Lemma health_check_posts P settings force w s :
  exists new,
    sent (snd (Main.health_check P settings force w s)) = (sent s ++ new)%list /\
    forall client, orion_client (globals s) = Some client ->
                   Forall (fun form => form = user_form client) new.
Proof.
  rewrite health_check_run.
  destruct (cached_result_outcome force w s) as (hit & Hhit).
  pose proof (cached_result_sent force w s) as Hsent.
  pose proof (keeps_cached_result (fun g => g) force w s) as Hglobals.
  destruct (Main.cached_result force w s) as [r s1]. cbn [fst snd] in *. subst r.
  destruct hit as [cache|].
  - exists []. rewrite app_nil_r. destruct (py_getitem cache "_status_code"); cbn [snd];
      (split; [exact Hsent|]); intros; constructor.
  - destruct (fresh_health_check_run P settings w s1)
      as (oc & ac & sc & overall & uptime & s2 & Hrun & _ & Hclient & _).
    cbv zeta in Hrun. rewrite Hrun.
    match goal with
    | |- context [Main.respond P settings overall ?checks uptime w s2] =>
        destruct (respond_run P settings overall checks uptime w s2)
          as (content & code & s' & Hrespond & _ & _ & Hsame & _ & _)
    end.
    rewrite Hrespond. cbn [snd]. rewrite Hsame, <- Hsent.
    rewrite Hglobals in Hclient.
    destruct (orion_client (globals s)) as [client|].
    + exists [user_form client]. split; [exact (proj1 Hclient)|].
      intros c [= <-]. repeat constructor.
    + exists []. rewrite app_nil_r. split; [exact (proj1 Hclient)|]. intros. constructor.
Qed.

(** X28. Whatever a process sends, it sends with the configured keys: every
    form that start-up, a health check or a request to the API adds to
    those sent so far carries the application key and the user key of the
    settings, in every state the process can reach. *)
Theorem every_request_carries_the_keys :
  forall (P : Platform) (settings : Settings) (w : World) (s s' : State),
    reachable P settings w s ->
    step P settings w s s' ->
    exists new,
      sent s' = (sent s ++ new)%list /\ Forall (carries_keys settings) new.
Proof.
  intros P settings w s s' Hreach Hstep.
  pose proof (reachable_client P settings w s Hreach) as Hclient.
  assert (Huser : carries_keys settings
            (user_form (OrionoidClient.__init__ (orionoid_app_api_key settings)
                          (orionoid_user_api_key settings)))).
  { apply lookup_keys. }
  destruct Hstep as [|force|r].
  - rewrite lifespan_startup_run. cbn [snd sent]. eexists. split; [reflexivity|].
    constructor; [exact Huser|constructor].
  - destruct (health_check_posts P settings force w s) as (new & Hsent & Hforms).
    exists new. split; [exact Hsent|].
    destruct Hclient as [[Hnone _]|Hsome].
    + destruct new as [|form new]; [constructor|].
      exfalso. revert Hsent. rewrite health_check_run.
      assert (Hmiss : exists s1, Main.cached_result force w s = (Ok None, s1) /\
                                 sent s1 = sent s /\ globals s1 = globals s).
      { destruct (reachable_client P settings w s Hreach) as [[_ Hcache]|H]; [|congruence].
        unfold Main.cached_result, mbind, get_globals, ret. cbn [fst snd].
        rewrite Hcache. destruct (negb force); eexists; repeat split. }
      destruct Hmiss as (s1 & -> & Hsent1 & Hglobals1).
      pose proof (fresh_health_check_unhealthy P settings w s1) as Hfresh.
      rewrite Hglobals1, Hnone in Hfresh.
      destruct (Hfresh I) as (content & s2 & -> & _ & Hsent2 & _).
      cbn [snd]. rewrite Hsent2, Hsent1. intros H.
      apply (f_equal (@List.length dict)) in H. rewrite length_app in H. simpl in H. lia.
    + specialize (Hforms _ Hsome). revert Hforms. apply Forall_impl.
      intros form ->. exact Huser.
  - destruct (api_endpoint_posts P settings r w s) as (new & Hsent & Hforms).
    exists new. split; [exact Hsent|].
    destruct Hclient as [[Hnone _]|Hsome].
    + destruct new as [|form new]; [constructor|].
      exfalso. revert Hsent. rewrite api_endpoint_handled. cbn [snd].
      destruct (String.eqb_spec (Main.t r) "caps") as [Ht|Ht];
        [rewrite (api_endpoint_body_caps _ _ _ _ _ Ht)
        |destruct (check_api_key_cases settings (Main.apikey r)) as [Hkey|Hkey];
         [rewrite (api_endpoint_body_no_client _ _ _ _ _ Ht Hkey Hnone)
         |rewrite (api_endpoint_body_forbidden _ _ _ _ _ _ Ht Hkey)]];
        cbn [snd]; intros H;
        apply (f_equal (@List.length dict)) in H; rewrite length_app in H; simpl in H; lia.
    + specialize (Hforms _ Hsome). revert Hforms. apply Forall_impl.
      intros form (q & i & tv & tm & m & se & ep & l & ->).
      unfold request_form. apply lookup_keys.
Qed.

Lemma every_request_carries_the_keys_witness :
  exists new,
    sent after_first_check = (sent after_startup ++ new)%list /\
    Forall (carries_keys (default_settings "user")) new.
Proof.
  apply (every_request_carries_the_keys sample_platform (default_settings "user") failing_world
           after_startup after_first_check).
  - apply reach_startup, reach_start. reflexivity.
  - exact (step_health sample_platform (default_settings "user") failing_world after_startup
             false).
Defined.
